(** * R2-Index: a shallow embedding of [src/app.py]

    The Flask application lists an S3-compatible bucket as a directory
    tree, proxies single objects and serves cached thumbnails.  The
    object store, the image library and the static folder are external
    collaborators: they appear here as the fields of a [World] record,
    and every handler is a function of that record and of the request.

    Python [str] values are modelled as [string] (a sequence of bytes,
    the UTF-8 encoding of the text).  Every separator the code looks
    for is ASCII, so splitting, stripping and suffix tests agree with
    Python's on the encoded text. *)

From Stdlib Require Import ZArith List String Ascii Bool Lia.
From Stdlib Require Import Permutation Sorted DecimalString.
Import ListNotations.
Open Scope string_scope.

(** ** Python string primitives used by the source *)

Module PyStr.

(** [s.endswith(suffix)] *)
Fixpoint endswith (s suffix : string) : bool :=
  (s =? suffix) ||
  match s with
  | EmptyString => false
  | String _ s' => endswith s' suffix
  end.

(** [s.rstrip(c)] for a one-character set [c] *)
Fixpoint rstrip (s : string) (c : ascii) : string :=
  match s with
  | EmptyString => EmptyString
  | String a s' =>
      match rstrip s' c with
      | EmptyString => if Ascii.eqb a c then EmptyString else String a EmptyString
      | r => String a r
      end
  end.

(** [s.split(c)] for a one-character separator [c]; never returns [[]] *)
Fixpoint split (s : string) (c : ascii) : list string :=
  match s with
  | EmptyString => [EmptyString]
  | String a s' =>
      if Ascii.eqb a c then EmptyString :: split s' c
      else match split s' c with
           | [] => [String a EmptyString]
           | w :: ws => String a w :: ws
           end
  end.

(** [s[n:]] *)
Fixpoint slice_from (n : nat) (s : string) : string :=
  match n, s with
  | O, _ => s
  | S _, EmptyString => EmptyString
  | S n', String _ s' => slice_from n' s'
  end.

(** [c in s] for a single character [c] *)
Fixpoint contains (c : ascii) (s : string) : bool :=
  match s with
  | EmptyString => false
  | String a s' => Ascii.eqb a c || contains c s'
  end.

Definition lower_char (a : ascii) : ascii :=
  let n := nat_of_ascii a in
  if (65 <=? n)%nat && (n <=? 90)%nat then ascii_of_nat (n + 32) else a.

(** what [s.lower()] gives on ASCII text: the letters [A-Z] lowered one
    by one.  On other text [str.lower] follows the Unicode tables, which
    this function does not; the code that lowers a filename takes
    [str.lower] as a parameter instead. *)
Fixpoint ascii_lower (s : string) : string :=
  match s with
  | EmptyString => EmptyString
  | String a s' => String (lower_char a) (ascii_lower s')
  end.

(** the text is ASCII: every byte is below 128 *)
Fixpoint is_ascii (s : string) : bool :=
  match s with
  | EmptyString => true
  | String a s' => (nat_of_ascii a <? 128)%nat && is_ascii s'
  end.

(** [l[-1]] on a list that [split] produced *)
Definition last_item (l : list string) : string := List.last l EmptyString.

(** [x in [...]] on strings *)
Definition mem (x : string) (l : list string) : bool :=
  existsb (String.eqb x) l.

(** truth value of an [Optional[str]]: [None] and [""] are falsy *)
Definition truthy (o : option string) : bool :=
  match o with
  | Some s => negb (s =? "")
  | None => false
  end.

(** [str(n)] for an integer *)
Definition str_of_Z (n : Z) : string := NilZero.string_of_int (Z.to_int n).

Definition quote : string := String (ascii_of_nat 34) EmptyString.

End PyStr.

(** ** The [fileicon] template filter (lines 46-86) *)

(** the extension the filter looks at (line 51); [str_lower] is Python's
    [str.lower], Unicode tables and all *)
Definition file_ext (str_lower : string -> string) (filename : string) : string :=
  if PyStr.contains "." filename
  then PyStr.last_item (PyStr.split (str_lower filename) ".")
  else "".

Definition image_exts : list string :=
  ["jpg"; "jpeg"; "png"; "gif"; "bmp"; "webp"; "svg"].
Definition audio_exts : list string :=
  ["mp3"; "wav"; "ogg"; "flac"; "m4a"; "aac"].
Definition video_exts : list string :=
  ["mp4"; "webm"; "avi"; "mov"; "wmv"; "flv"; "mkv"].
Definition document_exts : list string :=
  ["pdf"; "doc"; "docx"; "txt"; "md"; "rtf"].
Definition archive_exts : list string :=
  ["zip"; "rar"; "7z"; "tar"; "gz"].
Definition code_exts : list string :=
  ["py"; "js"; "html"; "css"; "java"; "cpp"; "c"; "php"].
Definition sheet_exts : list string := ["xls"; "xlsx"; "csv"].
Definition slides_exts : list string := ["ppt"; "pptx"].

(** the chain of tests on the extension (lines 54-86) *)
Definition icon_of_ext (ext : string) : string :=
  if PyStr.mem ext image_exts then "fas fa-image"
  else if PyStr.mem ext audio_exts then "fas fa-music"
  else if PyStr.mem ext video_exts then "fas fa-video"
  else if PyStr.mem ext document_exts then "fas fa-file-alt"
  else if PyStr.mem ext archive_exts then "fas fa-file-archive"
  else if PyStr.mem ext code_exts then "fas fa-file-code"
  else if PyStr.mem ext sheet_exts then "fas fa-file-excel"
  else if PyStr.mem ext slides_exts then "fas fa-file-powerpoint"
  else "fas fa-file".

(** [filename] is [None] when the template passes no value *)
Definition fileicon_filter (str_lower : string -> string)
           (filename : option string) : string :=
  match filename with
  | None => "fas fa-file"
  | Some filename =>
      if filename =? "" then "fas fa-file"
      else icon_of_ext (file_ext str_lower filename)
  end.

(** ** [hashlib.md5(...).hexdigest()] (RFC 1321), on 32-bit words held in [Z] *)

Module MD5.
Local Open Scope Z_scope.

Definition mask32 (x : Z) : Z := Z.land x 0xffffffff.
Definition add32 (x y : Z) : Z := mask32 (x + y).
Definition not32 (x : Z) : Z := Z.lxor x 0xffffffff.
Definition rotl32 (x n : Z) : Z :=
  mask32 (Z.lor (Z.shiftl x n) (Z.shiftr x (32 - n))).

Definition shifts : list Z :=
  [7; 12; 17; 22; 7; 12; 17; 22; 7; 12; 17; 22; 7; 12; 17; 22;
   5; 9; 14; 20; 5; 9; 14; 20; 5; 9; 14; 20; 5; 9; 14; 20;
   4; 11; 16; 23; 4; 11; 16; 23; 4; 11; 16; 23; 4; 11; 16; 23;
   6; 10; 15; 21; 6; 10; 15; 21; 6; 10; 15; 21; 6; 10; 15; 21].

Definition sines : list Z :=
  [0xd76aa478; 0xe8c7b756; 0x242070db; 0xc1bdceee;
   0xf57c0faf; 0x4787c62a; 0xa8304613; 0xfd469501;
   0x698098d8; 0x8b44f7af; 0xffff5bb1; 0x895cd7be;
   0x6b901122; 0xfd987193; 0xa679438e; 0x49b40821;
   0xf61e2562; 0xc040b340; 0x265e5a51; 0xe9b6c7aa;
   0xd62f105d; 0x02441453; 0xd8a1e681; 0xe7d3fbc8;
   0x21e1cde6; 0xc33707d6; 0xf4d50d87; 0x455a14ed;
   0xa9e3e905; 0xfcefa3f8; 0x676f02d9; 0x8d2a4c8a;
   0xfffa3942; 0x8771f681; 0x6d9d6122; 0xfde5380c;
   0xa4beea44; 0x4bdecfa9; 0xf6bb4b60; 0xbebfbc70;
   0x289b7ec6; 0xeaa127fa; 0xd4ef3085; 0x04881d05;
   0xd9d4d039; 0xe6db99e5; 0x1fa27cf8; 0xc4ac5665;
   0xf4292244; 0x432aff97; 0xab9423a7; 0xfc93a039;
   0x655b59c3; 0x8f0ccc92; 0xffeff47d; 0x85845dd1;
   0x6fa87e4f; 0xfe2ce6e0; 0xa3014314; 0x4e0811a1;
   0xf7537e82; 0xbd3af235; 0x2ad7d2bb; 0xeb86d391].

(** the digest state: the four chaining words *)
Record state := mkState { sA : Z; sB : Z; sC : Z; sD : Z }.

Definition init : state :=
  mkState 0x67452301 0xefcdab89 0x98badcfe 0x10325476.

(** one of the 64 operations of a block; [m] is the block as 16 words *)
Definition step (m : list Z) (st : state) (i : Z) : state :=
  let '(mkState a b c d) := st in
  let '(f, g) :=
    if i <? 16 then (Z.lor (Z.land b c) (Z.land (not32 b) d), i)
    else if i <? 32 then (Z.lor (Z.land d b) (Z.land (not32 d) c), (5 * i + 1) mod 16)
    else if i <? 48 then (Z.lxor (Z.lxor b c) d, (3 * i + 5) mod 16)
    else (Z.lxor c (Z.lor b (not32 d)), (7 * i) mod 16) in
  let k := nth (Z.to_nat i) sines 0 in
  let s := nth (Z.to_nat i) shifts 0 in
  let w := nth (Z.to_nat g) m 0 in
  let f := add32 (add32 (add32 f a) k) w in
  mkState d (add32 b (rotl32 f s)) b c.

Definition rounds : list Z := map Z.of_nat (seq 0 64).

Definition compress (st : state) (m : list Z) : state :=
  let '(mkState a b c d) := fold_left (step m) rounds st in
  mkState (add32 (sA st) a) (add32 (sB st) b) (add32 (sC st) c) (add32 (sD st) d).

(** little-endian bytes of a word, and back *)
Fixpoint le_bytes (n : nat) (x : Z) : list Z :=
  match n with
  | O => []
  | S n' => Z.land x 0xff :: le_bytes n' (Z.shiftr x 8)
  end.

Fixpoint le_word (bs : list Z) : Z :=
  match bs with
  | [] => 0
  | b :: bs' => Z.lor b (Z.shiftl (le_word bs') 8)
  end.

(** the message followed by 0x80, zeros up to 56 mod 64, and its bit length *)
Definition pad (msg : list Z) : list Z :=
  let len := Z.of_nat (List.length msg) in
  let zeros := Z.to_nat ((55 - len) mod 64) in
  msg ++ [0x80] ++ repeat 0 zeros ++ le_bytes 8 (8 * len).

(** cut a byte list into [n] groups of [k] bytes *)
Fixpoint chunks (n k : nat) (bs : list Z) : list (list Z) :=
  match n with
  | O => []
  | S n' => firstn k bs :: chunks n' k (skipn k bs)
  end.

Definition blocks (bs : list Z) : list (list Z) :=
  map (fun blk => map le_word (chunks 16 4 blk))
      (chunks (List.length bs / 64) 64 bs).

Definition digest (msg : list Z) : list Z :=
  let '(mkState a b c d) := fold_left compress (blocks (pad msg)) init in
  le_bytes 4 a ++ le_bytes 4 b ++ le_bytes 4 c ++ le_bytes 4 d.

Definition hex_digit (x : Z) : ascii :=
  ascii_of_nat (Z.to_nat (if x <? 10 then 48 + x else 87 + x)).

Fixpoint hex (bs : list Z) : string :=
  match bs with
  | [] => EmptyString
  | b :: bs' =>
      String (hex_digit (Z.shiftr b 4)) (String (hex_digit (Z.land b 0xf)) (hex bs'))
  end.

Fixpoint bytes_of (s : string) : list Z :=
  match s with
  | EmptyString => []
  | String a s' => Z.of_nat (nat_of_ascii a) :: bytes_of s'
  end.

(** [hashlib.md5(s.encode("utf-8")).hexdigest()] *)
Definition hexdigest (s : string) : string := hex (digest (bytes_of s)).

End MD5.

(** ** Exceptions and effects

    Every exception class the code meets derives from [Exception]:
    the [RuntimeError] of [get_s3_client], botocore's [ClientError],
    werkzeug's [HTTPException] (what [abort] raises) and whatever else
    the collaborators throw.  A computation carries the log of the
    store requests it has issued, in order, and either a value or the
    exception in flight. *)

Inductive exn : Type :=
| RuntimeError (msg : string)
| ClientError (code : string) (msg : string)
| HTTPException (code : Z)
| OtherException (msg : string).

(** [str(e)] *)
Definition str_of_exn (e : exn) : string :=
  match e with
  | RuntimeError msg => msg
  | ClientError _ msg => msg
  | HTTPException code => PyStr.str_of_Z code
  | OtherException msg => msg
  end.

Inductive outcome (A : Type) : Type :=
| Return (a : A)
| Raise (e : exn).
Arguments Return {A} a.
Arguments Raise {A} e.

(** a request sent to the object store *)
Inductive StoreCall : Type :=
| ListObjectsV2 (bucket : option string) (prefix : option string)
| HeadObject (bucket : option string) (key : string)
| GetObject (bucket : option string) (key : string).

Definition M (A : Type) : Type := (list StoreCall * outcome A)%type.

Definition ret {A} (a : A) : M A := ([], Return a).

Definition raise {A} (e : exn) : M A := ([], Raise e).

Definition bind {A B} (m : M A) (f : A -> M B) : M B :=
  match m with
  | (t, Return a) => let '(t', r) := f a in ((t ++ t')%list, r)
  | (t, Raise e) => (t, Raise e)
  end.

(** [try: m  except Exception as e: h e] *)
Definition try_except {A} (m : M A) (h : exn -> M A) : M A :=
  match m with
  | (t, Raise e) => let '(t', r) := h e in ((t ++ t')%list, r)
  | (t, Return a) => (t, Return a)
  end.

(** [try: m  except ClientError as e: h code]: other classes pass through *)
Definition try_except_ClientError {A} (m : M A) (h : string -> M A) : M A :=
  match m with
  | (t, Raise (ClientError code _)) => let '(t', r) := h code in ((t ++ t')%list, r)
  | other => other
  end.

(** a store request: logged, then answered by the store *)
Definition request_store {A} (c : StoreCall) (answer : outcome A) : M A :=
  ([c], answer).

(** a local call that may raise *)
Definition lift {A} (r : outcome A) : M A := ([], r).

(** [flask.abort(code)] *)
Definition abort {A} (code : Z) : M A := raise (HTTPException code).

Declare Scope py_scope.
Delimit Scope py_scope with py.
Notation "x <- m ;; k" := (bind m (fun x => k))
  (at level 61, m at next level, right associativity) : py_scope.
Open Scope py_scope.

(** ** Data the handlers exchange with their collaborators *)

(** a [datetime] as the store reports it *)
Record datetime := mkDatetime {
  year : nat; month : nat; day : nat; hour : nat; minute : nat; second : nat }.

(** one element of the listing's ["Contents"] *)
Record S3Object := mkS3Object {
  Key : option string;
  Size : option Z;
  LastModified : option datetime }.

(** the answer of [list_objects_v2]: both collections may be missing *)
Record ListResponse := mkListResponse {
  Contents : option (list S3Object);
  CommonPrefixes : option (list string) }.

(** the answer of [get_object]; [Body] is the stream, chunk by chunk *)
Record GetResponse := mkGetResponse {
  ContentType : string;
  ContentLength : Z;
  Body : list string }.

(** a boto3 client: the store behind the configured endpoint *)
Record S3Client := mkS3Client {
  list_objects_v2 : option string -> option string -> outcome ListResponse;
  head_object : option string -> string -> outcome unit;
  get_object : option string -> string -> outcome GetResponse;
  client_generate_presigned_url : option string -> string -> Z -> outcome string }.

Record Request := mkRequest {
  args : string -> option string;
  headers : string -> option string }.

(** a listing entry: the dict built by [index] and [browse].  A field
    that the dict may lack is an [option]; [size] is present with the
    value [None] when the store reported no size. *)
Record Entry := mkEntry {
  name : string;
  key : string;
  is_dir : bool;
  size : option (option Z);
  last_modified : option string;
  public_url : option string;
  presigned_url : option string;
  file_url : option string }.

Record Crumb := mkCrumb { crumb_name : string; crumb_prefix : string }.

(** the context handed to [render_template("index.html", ...)] *)
Inductive Page : Type :=
| Listing (entries : list Entry) (current_prefix : string)
          (crumbs : list Crumb) (year : Z)
| ErrorPage (error : string) (year : Z).

(** a [flask.Response] *)
Record Response := mkResponse {
  status : Z;
  mimetype_of : option string;
  resp_headers : list (string * string);
  resp_body : list string }.

(** what lies outside the application *)
Record World := mkWorld {
  (** [os.getenv] *)
  environ : string -> option string;
  (** [boto3.client("s3", endpoint_url, aws_access_key_id,
      aws_secret_access_key, region_name)] *)
  boto3_client : string -> string -> string -> string -> S3Client;
  (** Pillow: open, convert to RGB, bound to 320x320, save as JPEG *)
  make_jpeg_thumbnail : string -> outcome string;
  (** the files of [app.static_folder], by name *)
  static_folder : string -> option string;
  (** werkzeug's [Response.make_conditional], which [flask.send_file]
      applies to the full answer it has built for a file: what the
      conditional and range headers of the request make of it (the
      answer itself, a 304, a 206 or a 412, or the exception of an
      unsatisfiable range) *)
  make_conditional : Request -> Response -> outcome Response;
  (** [datetime.now().year] *)
  current_year : Z;
  (** the module constant [THUMB_TTL], computed when the module loads *)
  THUMB_TTL : Z }.

(** ** More of Python's built-ins *)

Module Py.

(** the value of an [Optional[str]] once it is known to be truthy *)
Definition the (o : option string) : string :=
  match o with Some s => s | None => "" end.

(** [a or b] on [Optional[str]] *)
Definition or_else (a b : option string) : option string :=
  if PyStr.truthy a then a else b.

(** [d.get(name, default)], and [os.getenv(name, default)] *)
Definition get (d : string -> option string) (name default : string) : string :=
  match d name with Some v => v | None => default end.

Definition is_space (a : ascii) : bool :=
  let n := nat_of_ascii a in
  (n =? 32)%nat || ((9 <=? n)%nat && (n <=? 13)%nat).

Fixpoint lstrip_space (s : string) : string :=
  match s with
  | String a s' => if is_space a then lstrip_space s' else s
  | EmptyString => EmptyString
  end.

Fixpoint rstrip_space (s : string) : string :=
  match s with
  | EmptyString => EmptyString
  | String a s' =>
      match rstrip_space s' with
      | EmptyString => if is_space a then EmptyString else String a EmptyString
      | r => String a r
      end
  end.

Definition digit_value (a : ascii) : option Z :=
  let n := nat_of_ascii a in
  if (48 <=? n)%nat && (n <=? 57)%nat then Some (Z.of_nat (n - 48)) else None.

(** decimal digits, single underscores allowed between two digits *)
Fixpoint digits (s : string) (acc : Z) (after_digit : bool) : option Z :=
  match s with
  | EmptyString => if after_digit then Some acc else None
  | String a s' =>
      match digit_value a with
      | Some d => digits s' (10 * acc + d)%Z true
      | None =>
          if Ascii.eqb a "_" && after_digit then digits s' acc false else None
      end
  end.

(** [int(s)] in base ten, on ASCII text; [ValueError] otherwise *)
Definition int (s : string) : outcome Z :=
  let body := rstrip_space (lstrip_space s) in
  let parsed :=
    match body with
    | String "-" rest => option_map Z.opp (digits rest 0 false)
    | String "+" rest => digits rest 0 false
    | _ => digits body 0 false
    end in
  match parsed with
  | Some n => Return n
  | None => Raise (OtherException "invalid literal for int() with base 10")
  end.

(** a number on at least two digits, as [%m], [%d], [%H], [%M], [%S] print it *)
Definition two_digits (n : nat) : string :=
  let s := PyStr.str_of_Z (Z.of_nat n) in
  if (n <? 10)%nat then "0" ++ s else s.

(** [dt.strftime("%Y-%m-%d %H:%M:%S")]; the C library prints [%Y] unpadded *)
Definition strftime (dt : datetime) : string :=
  PyStr.str_of_Z (Z.of_nat (year dt)) ++ "-" ++ two_digits (month dt) ++ "-" ++
  two_digits (day dt) ++ " " ++ two_digits (hour dt) ++ ":" ++
  two_digits (minute dt) ++ ":" ++ two_digits (second dt).

(** the loop [for x in l: ... continue ... out.append(y)]: the body
    either skips [x] or appends one item *)
Fixpoint collect {A B} (body : A -> option B) (l : list A) : list B :=
  match l with
  | [] => []
  | x :: l' =>
      match body x with
      | Some y => y :: collect body l'
      | None => collect body l'
      end
  end.

(** [False < True] *)
Definition bool_ltb (a b : bool) : bool := negb a && b.

(** [<] on the tuples [(bool, str)]: the first differing component decides *)
Definition tuple_ltb (x y : bool * string) : bool :=
  if Bool.eqb (fst x) (fst y) then String.ltb (snd x) (snd y)
  else bool_ltb (fst x) (fst y).

(** [list.sort(key=...)]: a stable sort that compares keys with [<] only.
    The result of a stable sort is determined by the input and the
    order, so insertion stands for the library's algorithm. *)
Section Sort.
Context {A K : Type} (ltb : K -> K -> bool) (key : A -> K).

(** [x] goes before the first item that is not smaller than it, so
    that it stays ahead of the later items with an equal key *)
Fixpoint insert (x : A) (l : list A) : list A :=
  match l with
  | [] => [x]
  | y :: l' => if ltb (key y) (key x) then y :: insert x l' else x :: y :: l'
  end.

Fixpoint sort (l : list A) : list A :=
  match l with
  | [] => []
  | x :: l' => insert x (sort l')
  end.
End Sort.

(** [d[k]] on a dict whose keys are strings *)
Fixpoint dict_get (k : string) (d : list (string * string)) : option string :=
  match d with
  | [] => None
  | (k', v) :: d' => if k' =? k then Some v else dict_get k d'
  end.

(** two header names are the same up to letter case.  Werkzeug compares
    the lowered names; the names the application sets, [Cache-Control]
    and [ETag], are ASCII and hold no [k], the one ASCII letter a
    non-ASCII character lowers to, so lowering [A-Z] decides whether a
    name equals one of them. *)
Definition same_name (a b : string) : bool :=
  PyStr.ascii_lower a =? PyStr.ascii_lower b.

(** werkzeug's [Headers.set(k, v)]: the first header of that name is
    replaced, the later ones of that name are dropped, and a new name
    goes to the end *)
Fixpoint set_header (k v : string) (hs : list (string * string))
  : list (string * string) :=
  match hs with
  | [] => [(k, v)]
  | (k', v') :: hs' =>
      if same_name k' k
      then (k, v) :: filter (fun kv => negb (same_name (fst kv) k)) hs'
      else (k', v') :: set_header k v hs'
  end.

(** werkzeug's [Headers.get(k)]: the first header of that name *)
Fixpoint get_header (k : string) (hs : list (string * string)) : option string :=
  match hs with
  | [] => None
  | (k', v) :: hs' => if same_name k' k then Some v else get_header k hs'
  end.

End Py.

(** ** The application: [src/app.py] *)

(** [get_s3_client] (lines 89-112) *)
Definition get_s3_client (w : World) : M S3Client :=
  let endpoint := environ w "R2_ENDPOINT_URL" in
  if negb (PyStr.truthy endpoint)
  then raise (RuntimeError "R2_ENDPOINT_URL environment variable is not set")
  else
    let access_key :=
      Py.or_else (environ w "ACCESS_KEY_ID") (environ w "ACCESS_KEY_ID") in
    let secret_key :=
      Py.or_else (environ w "SECRET_ACCESS_KEY") (environ w "SECRET_ACCESS_KEY") in
    if negb (PyStr.truthy access_key) || negb (PyStr.truthy secret_key)
    then raise (RuntimeError "ACCESS_KEY_ID and SECRET_ACCESS_KEY must be set")
    else ret (boto3_client w (Py.the endpoint) (Py.the access_key)
                (Py.the secret_key)
                (Py.get (environ w) "R2_REGION" "auto")).

(** [get_public_url] (lines 115-122) *)
Definition get_public_url (w : World) (key : string) : option string :=
  let base_url := environ w "R2_PUBLIC_URL" in
  if negb (PyStr.truthy base_url) then None
  else Some (PyStr.rstrip (Py.the base_url) "/" ++ "/" ++ key).

(** [format_timestamp] (lines 125-131); [None] is the missing timestamp *)
Definition format_timestamp (timestamp : option datetime) : string :=
  match timestamp with
  | Some dt => Py.strftime dt
  | None => "None"
  end.

(** [generate_presigned_url] (lines 134-151): boto3 signs locally; every
    exception ends as [None] *)
Definition generate_presigned_url (w : World) (s3_client : S3Client)
           (bucket_name : option string) (key : string) (expires : option Z)
  : option string :=
  let expires :=
    match expires with
    | Some e => e
    | None =>
        match Py.int (Py.get (environ w) "R2_PRESIGN_EXPIRES" "3600") with
        | Return e => e
        | Raise _ => 3600%Z
        end
    end in
  match client_generate_presigned_url s3_client bucket_name key expires with
  | Return url => Some url
  | Raise _ => None
  end.

(** [get_file_url] (lines 343-345) *)
Definition get_file_url (key : string) : string := "/file/" ++ key.

(** the sort key [lambda x: (not x.get("is_dir", False), x["name"])] *)
Definition sort_key (x : Entry) : bool * string := (negb (is_dir x), name x).

Definition sort_entries (entries : list Entry) : list Entry :=
  Py.sort Py.tuple_ltb sort_key entries.

(** the prefix with its trailing slash (lines 165-166 and 253-254) *)
Definition with_trailing_slash (prefix : string) : string :=
  if negb (prefix =? "") && negb (PyStr.endswith prefix "/")
  then prefix ++ "/" else prefix.

(** the body of the loop over ["Contents"] in [index] (lines 177-208) *)
Definition index_file_entry (w : World) (s3_client : S3Client)
           (bucket_name : option string) (prefix : string) (obj : S3Object)
  : option Entry :=
  let key := match Key obj with Some k => k | None => "" end in
  if negb (prefix =? "") && (key =? prefix) then None
  else if PyStr.endswith key "/" then None
  else
    let rel_name :=
      if negb (prefix =? "") then PyStr.slice_from (String.length prefix) key
      else key in
    let public_url := get_public_url w key in
    let presigned := generate_presigned_url w s3_client bucket_name key None in
    Some {| name := rel_name;
            key := key;
            size := Some (Size obj);
            last_modified := Some (format_timestamp (LastModified obj));
            is_dir := false;
            public_url := if PyStr.truthy public_url then public_url else None;
            presigned_url := if PyStr.truthy presigned then presigned else None;
            file_url := Some (get_file_url key) |}.

(** the body of the loop over ["Contents"] in [browse] (lines 261-276) *)
Definition browse_file_entry (prefix : string) (obj : S3Object) : option Entry :=
  let key := match Key obj with Some k => k | None => "" end in
  if negb (prefix =? "") && (key =? prefix) then None
  else if PyStr.endswith key "/" then None
  else
    let rel_name :=
      if negb (prefix =? "") then PyStr.slice_from (String.length prefix) key
      else key in
    Some {| name := rel_name;
            key := key;
            size := Some (Size obj);
            last_modified := Some (format_timestamp (LastModified obj));
            is_dir := false;
            public_url := None;
            presigned_url := None;
            file_url := Some (get_file_url key) |}.

(** the body of the loop over ["CommonPrefixes"] (lines 212-216 and
    279-282, the same text) *)
Definition dir_entry (prefix : string) (pref : string) : Entry :=
  let rel :=
    if negb (prefix =? "")
    then PyStr.rstrip (PyStr.slice_from (String.length prefix) pref) "/"
    else PyStr.rstrip pref "/" in
  {| name := rel; key := pref; is_dir := true;
     size := None; last_modified := None;
     public_url := None; presigned_url := None; file_url := None |}.

(** the breadcrumb loop (lines 225-228 and 289-292, the same text) *)
Fixpoint crumb_loop (segs : list string) (acc : string) (crumbs : list Crumb)
  : list Crumb :=
  match segs with
  | [] => crumbs
  | seg :: segs' =>
      let acc := acc ++ seg ++ "/" in
      crumb_loop segs' acc (crumbs ++ [mkCrumb seg acc])%list
  end.

(** lines 222-228 and 286-292 *)
Definition make_crumbs (prefix : string) : list Crumb :=
  if negb (prefix =? "")
  then crumb_loop (PyStr.split (PyStr.rstrip prefix "/") "/") "" []
  else [].

(** the entries before sorting, as [index] discovers them *)
Definition index_discovered (w : World) (s3_client : S3Client)
           (bucket_name : option string) (prefix : string)
           (response : ListResponse) : list Entry :=
  let entries :=
    match Contents response with
    | Some objs =>
        Py.collect (index_file_entry w s3_client bucket_name prefix) objs
    | None => []
    end in
  match CommonPrefixes response with
  | Some prefs => (entries ++ map (dir_entry prefix) prefs)%list
  | None => entries
  end.

(** the entries before sorting, as [browse] discovers them *)
Definition browse_discovered (prefix : string) (response : ListResponse)
  : list Entry :=
  let entries :=
    match Contents response with
    | Some objs => Py.collect (browse_file_entry prefix) objs
    | None => []
    end in
  match CommonPrefixes response with
  | Some prefs => (entries ++ map (dir_entry prefix) prefs)%list
  | None => entries
  end.

(** [index], the route [/] (lines 154-241) *)
Definition index (w : World) (request : Request) : M Page :=
  try_except
    (s3_client <- get_s3_client w ;;
     let bucket_name := environ w "R2_BUCKET_NAME" in
     let prefix :=
       Py.the (Py.or_else (Some (Py.get (args request) "prefix" "")) (Some "")) in
     let prefix := with_trailing_slash prefix in
     let list_prefix := if negb (prefix =? "") then Some prefix else None in
     response <- request_store (ListObjectsV2 bucket_name list_prefix)
                   (list_objects_v2 s3_client bucket_name list_prefix) ;;
     let entries := index_discovered w s3_client bucket_name prefix response in
     let entries := sort_entries entries in
     let crumbs := make_crumbs prefix in
     ret (Listing entries prefix crumbs (current_year w)))
    (fun e => ret (ErrorPage (str_of_exn e) (current_year w))).

(** [browse], the route [/<path:prefix_path>] (lines 244-305) *)
Definition browse (w : World) (prefix_path : string) : M Page :=
  try_except
    (s3_client <- get_s3_client w ;;
     let bucket_name := environ w "R2_BUCKET_NAME" in
     let prefix := Py.the (Py.or_else (Some prefix_path) (Some "")) in
     let prefix := with_trailing_slash prefix in
     response <- request_store (ListObjectsV2 bucket_name (Some prefix))
                   (list_objects_v2 s3_client bucket_name (Some prefix)) ;;
     let entries := browse_discovered prefix response in
     let entries := sort_entries entries in
     let crumbs := make_crumbs prefix in
     ret (Listing entries prefix crumbs (current_year w)))
    (fun e => ret (ErrorPage (str_of_exn e) (current_year w))).

(** the full answer Flask builds for a file it has read: 200 and the
    whole content under the given type *)
Definition whole_file (mimetype data : string) : Response :=
  {| status := 200; mimetype_of := Some mimetype;
     resp_headers := []; resp_body := [data] |}.

(** [send_file(os.path.join(app.static_folder, name), mimetype=...)]:
    Flask reads the file, raising when there is none, builds the full
    answer and hands it with the current request to werkzeug's
    conditional and range handling, whose answer or exception is
    [send_file]'s *)
Definition send_file (w : World) (request : Request) (name mimetype : string)
  : M Response :=
  match static_folder w name with
  | Some data => lift (make_conditional w request (whole_file mimetype data))
  | None => raise (OtherException "FileNotFoundError")
  end.

(** [response.headers.update(hs)] *)
Definition headers_update (response : Response) (hs : list (string * string))
  : Response :=
  {| status := status response;
     mimetype_of := mimetype_of response;
     resp_headers :=
       fold_left (fun acc kv => Py.set_header (fst kv) (snd kv) acc) hs
                 (resp_headers response);
     resp_body := resp_body response |}.

(** [serve_file], the route [/file/<path:file_path>] (lines 308-340) *)
Definition serve_file (w : World) (file_path : string) : M Response :=
  try_except
    (s3_client <- get_s3_client w ;;
     let bucket_name := environ w "R2_BUCKET_NAME" in
     response <- try_except_ClientError
                   (request_store (HeadObject bucket_name file_path)
                      (head_object s3_client bucket_name file_path))
                   (fun code => if code =? "404" then abort 404 else abort 500) ;;
     file_obj <- request_store (GetObject bucket_name file_path)
                   (get_object s3_client bucket_name file_path) ;;
     let headers :=
       [("Content-Type", ContentType file_obj);
        ("Content-Length", PyStr.str_of_Z (ContentLength file_obj))] in
     ret {| status := 200; mimetype_of := None;
            resp_headers := headers; resp_body := Body file_obj |})
    (fun e => abort 500).

(** the weak validator of a thumbnail (line 356) *)
Definition validator (file_path : string) : string :=
  "W/" ++ PyStr.quote ++ MD5.hexdigest file_path ++ PyStr.quote.

(** the headers every thumbnail answer carries (lines 354-357) *)
Definition cache_headers (w : World) (file_path : string)
  : list (string * string) :=
  [("Cache-Control", "public, max-age=" ++ PyStr.str_of_Z (THUMB_TTL w));
   ("ETag", validator file_path)].

(** the placeholder answer (lines 372-377, 393-398 and 401-406, the same text) *)
Definition placeholder (w : World) (request : Request)
           (cache_headers : list (string * string)) : M Response :=
  response <- send_file w request "thumb_placeholder.svg" "image/svg+xml" ;;
  ret (headers_update response cache_headers).

(** [thumb], the route [/thumb/<path:file_path>] (lines 348-406).  The
    first [try] either yields the object's bytes or leaves the function
    with the placeholder. *)
Definition thumb (w : World) (request : Request) (file_path : string)
  : M Response :=
  let bucket_name := environ w "R2_BUCKET_NAME" in
  let cache_headers := cache_headers w file_path in
  let etag := headers request "If-None-Match" in
  if PyStr.truthy etag &&
     (Py.the etag =? Py.the (Py.dict_get "ETag" cache_headers))
  then ret {| status := 304; mimetype_of := None;
              resp_headers := cache_headers; resp_body := [] |}
  else
    try_except
      (s3 <- get_s3_client w ;;
       fetched <- try_except
                    (obj <- request_store (GetObject bucket_name file_path)
                              (get_object s3 bucket_name file_path) ;;
                     ret (inl (String.concat "" (Body obj))))
                    (fun _ => response <- placeholder w request cache_headers ;;
                              ret (inr response)) ;;
       match fetched with
       | inr response => ret response
       | inl data =>
           try_except
             (thumb_bytes <- lift (make_jpeg_thumbnail w data) ;;
              let response :=
                {| status := 200; mimetype_of := Some "image/jpeg";
                   resp_headers := []; resp_body := [thumb_bytes] |} in
              ret (headers_update response cache_headers))
             (fun _ => placeholder w request cache_headers)
       end)
      (fun _ => placeholder w request cache_headers).

(** loading the module (lines 15-21): the only value read from the
    environment is [THUMB_TTL_SECONDS] *)
Definition load_module (environ : string -> option string) : outcome Z :=
  Py.int (Py.get environ "THUMB_TTL_SECONDS" "3600").

(** what the client receives: Flask turns an [HTTPException] into an
    answer with its code, and any other escaping exception into a 500 *)
Definition http_status (r : M Response) : Z :=
  match snd r with
  | Return response => status response
  | Raise (HTTPException code) => code
  | Raise _ => 500
  end.

Definition store_calls {A} (r : M A) : list StoreCall := fst r.

(** ** An in-memory store, for the examples

    It answers as an S3 endpoint does: a listing with the delimiter [/]
    groups the keys under the prefix by their next segment, and a
    missing key is a [ClientError]. *)

Module Fixture.

Record StoredObject := mkStored {
  so_key : string;
  so_type : string;
  so_data : string;
  so_modified : datetime }.

(** [s] up to and including its first [/], if it has one *)
Fixpoint first_segment (s : string) : option string :=
  match s with
  | EmptyString => None
  | String a s' =>
      if Ascii.eqb a "/" then Some "/"
      else option_map (String a) (first_segment s')
  end.

Definition add_once (x : string) (l : list string) : list string :=
  if PyStr.mem x l then l else (l ++ [x])%list.

Definition listing (objs : list StoredObject) (prefix : option string)
  : ListResponse :=
  let p := Py.the prefix in
  let under := filter (fun o => String.prefix p (so_key o)) objs in
  let rest o := PyStr.slice_from (String.length p) (so_key o) in
  let files :=
    filter (fun o => match first_segment (rest o) with
                     | None => true | Some _ => false end) under in
  let dirs :=
    fold_left (fun acc o => match first_segment (rest o) with
                            | Some seg => add_once (p ++ seg) acc
                            | None => acc end) under [] in
  {| Contents :=
       match files with
       | [] => None
       | _ => Some (map (fun o => mkS3Object (Some (so_key o))
                                    (Some (Z.of_nat (String.length (so_data o))))
                                    (Some (so_modified o))) files)
       end;
     CommonPrefixes := match dirs with [] => None | _ => Some dirs end |}.

Definition find (objs : list StoredObject) (key : string) : option StoredObject :=
  List.find (fun o => so_key o =? key) objs.

Definition client (objs : list StoredObject) : S3Client :=
  {| list_objects_v2 := fun _ prefix => Return (listing objs prefix);
     head_object := fun _ key =>
       match find objs key with
       | Some _ => Return tt
       | None => Raise (ClientError "404" "Not Found")
       end;
     get_object := fun _ key =>
       match find objs key with
       | Some o => Return (mkGetResponse (so_type o)
                             (Z.of_nat (String.length (so_data o))) [so_data o])
       | None => Raise (ClientError "NoSuchKey" "The specified key does not exist.")
       end;
     client_generate_presigned_url := fun _ key _ =>
       Return ("https://r2.example/" ++ key ++ "?X-Amz-Signature=0") |}.

Definition noon : datetime := mkDatetime 2024 5 17 12 0 0.

Definition objects : list StoredObject :=
  [ mkStored "a.txt" "text/plain" "hello" noon;
    mkStored "a//deep/x.txt" "text/plain" "x" noon;
    mkStored "photos/" "application/x-directory" "" noon;
    mkStored "photos/2024/trip.jpg" "image/jpeg" "JPEGDATA" noon;
    mkStored "photos/cat.png" "image/png" "PNGDATA" noon;
    mkStored "photos/corrupt.jpg" "image/jpeg" "garbage" noon ].

Definition env (name : string) : option string :=
  if name =? "R2_ENDPOINT_URL" then Some "https://account.r2.example"
  else if name =? "ACCESS_KEY_ID" then Some "AKIA"
  else if name =? "SECRET_ACCESS_KEY" then Some "secret"
  else if name =? "R2_BUCKET_NAME" then Some "bucket"
  else None.

(** a decoder that accepts every object but the corrupt one *)
Definition decoder (data : string) : outcome string :=
  if data =? "garbage" then Raise (OtherException "cannot identify image file")
  else Return ("thumb:" ++ data).

Definition statics (name : string) : option string :=
  if name =? "thumb_placeholder.svg" then Some "<svg/>" else None.

(** werkzeug's conditional handling as far as the examples go: a request
    with [If-None-Match: *] is answered 304 without a body, and a
    request without conditional or range header gets the answer as it
    is.  The entity tag and the date of the file, and ranges, are not
    part of the examples. *)
Definition werkzeug (request : Request) (response : Response)
  : outcome Response :=
  if Py.the (headers request "If-None-Match") =? "*"
  then Return {| status := 304; mimetype_of := mimetype_of response;
                 resp_headers := resp_headers response; resp_body := [] |}
  else Return response.

(** a configured deployment *)
Definition world : World :=
  {| environ := env;
     boto3_client := fun _ _ _ _ => client objects;
     make_jpeg_thumbnail := decoder;
     static_folder := statics;
     make_conditional := werkzeug;
     current_year := 2024;
     THUMB_TTL := 3600 |}.

(** the same deployment with nothing set in its environment *)
Definition unconfigured : World :=
  {| environ := fun _ => None;
     boto3_client := fun _ _ _ _ => client objects;
     make_jpeg_thumbnail := decoder;
     static_folder := statics;
     make_conditional := werkzeug;
     current_year := 2024;
     THUMB_TTL := 3600 |}.

Definition query (prefix : option string) : Request :=
  {| args := fun k => if k =? "prefix" then prefix else None;
     headers := fun _ => None |}.

Definition conditional (validator : string) : Request :=
  {| args := fun _ => None;
     headers := fun k => if k =? "If-None-Match" then Some validator else None |}.

End Fixture.

(** ** Vocabulary of the statements *)

(** the last breadcrumb of a trail *)
Fixpoint last_crumb (cs : list Crumb) : option Crumb :=
  match cs with
  | [] => None
  | [c] => Some c
  | _ :: cs' => last_crumb cs'
  end.

(** one breadcrumb per segment, each with the prefix accumulated so far *)
Fixpoint accumulate (segs : list string) (acc : string) : list Crumb :=
  match segs with
  | [] => []
  | seg :: segs' =>
      mkCrumb seg (acc ++ seg ++ "/") :: accumulate segs' (acc ++ seg ++ "/")
  end.

Definition nonempty (s : string) : bool := negb (s =? "").

(** the derivation in the words of the specification: split the prefix
    on the delimiter, discard the empty segments, accumulate *)
Definition breadcrumbs_discarding_empty (prefix : string) : list Crumb :=
  accumulate (filter nonempty (PyStr.split prefix "/")) "".

(** the derivation the code performs: strip the trailing delimiters,
    split, keep every segment, accumulate *)
Definition breadcrumbs_keeping_empty (prefix : string) : list Crumb :=
  if prefix =? "" then []
  else accumulate (PyStr.split (PyStr.rstrip prefix "/") "/") "".

(** no file comes before a directory *)
Definition dirs_before_files (es : list Entry) : Prop :=
  forall i j a b, (i < j)%nat ->
    nth_error es i = Some a -> nth_error es j = Some b ->
    is_dir b = true -> is_dir a = true.

(** among the directories, and among the files, names go up *)
Definition names_ascending (es : list Entry) : Prop :=
  forall i j a b, (i < j)%nat ->
    nth_error es i = Some a -> nth_error es j = Some b ->
    is_dir a = is_dir b -> (name a <=? name b) = true.

(** two entries the sort cannot tell apart *)
Definition same_sort_key (a b : Entry) : bool :=
  Bool.eqb (is_dir a) (is_dir b) && (name a =? name b).

(** [output] holds the entries of [input], and entries with equal keys
    come in the order they had in [input] *)
Definition stable_rearrangement (input output : list Entry) : Prop :=
  Permutation input output /\
  forall e, filter (same_sort_key e) output = filter (same_sort_key e) input.

(** an entry without the links that bypass the application *)
Definition without_direct_urls (e : Entry) : Entry :=
  {| name := name e; key := key e; is_dir := is_dir e; size := size e;
     last_modified := last_modified e;
     public_url := None; presigned_url := None; file_url := file_url e |}.

Definition page_without_direct_urls (pg : Page) : Page :=
  match pg with
  | Listing es p cs y => Listing (map without_direct_urls es) p cs y
  | ErrorPage msg y => ErrorPage msg y
  end.

Definition outcome_map {A B} (f : A -> B) (r : outcome A) : outcome B :=
  match r with
  | Return a => Return (f a)
  | Raise e => Raise e
  end.

(** the ways the thumbnail pipeline can fail for a key: no client, no
    object, or bytes that do not decode *)
Inductive thumb_failure (w : World) (file_path : string) : Prop :=
| client_failure (e : exn) :
    get_s3_client w = ([], Raise e) -> thumb_failure w file_path
| fetch_failure (client : S3Client) (e : exn) :
    get_s3_client w = ([], Return client) ->
    get_object client (environ w "R2_BUCKET_NAME") file_path = Raise e ->
    thumb_failure w file_path
| decode_failure (client : S3Client) (obj : GetResponse) (e : exn) :
    get_s3_client w = ([], Return client) ->
    get_object client (environ w "R2_BUCKET_NAME") file_path = Return obj ->
    make_jpeg_thumbnail w (String.concat "" (Body obj)) = Raise e ->
    thumb_failure w file_path.

(** the placeholder outcome: the static asset, answered with 200 *)
Definition placeholder_response (w : World) (file_path data : string) : Response :=
  {| status := 200; mimetype_of := Some "image/svg+xml";
     resp_headers := cache_headers w file_path; resp_body := [data] |}.

(** the unchanged outcome: 304 and no body *)
Definition unchanged_response (w : World) (file_path : string) : Response :=
  {| status := 304; mimetype_of := None;
     resp_headers := cache_headers w file_path; resp_body := [] |}.

(** what the placeholder routine of [thumb] answers to a request when the
    asset holds [data]: werkzeug's answer for the whole file under the
    cache headers, or werkzeug's exception *)
Definition placeholder_outcome (w : World) (request : Request)
           (file_path data : string) : outcome Response :=
  match make_conditional w request (whole_file "image/svg+xml" data) with
  | Return r => Return (headers_update r (cache_headers w file_path))
  | Raise e => Raise e
  end.

(** what the thumbnail pipeline answers once the fast path is not taken,
    stage by stage, when the placeholder asset holds [data] *)
Definition pipeline_outcome (w : World) (request : Request)
           (file_path data : string) : list StoreCall * outcome Response :=
  match get_s3_client w with
  | (_, Raise _) => ([], placeholder_outcome w request file_path data)
  | (_, Return client) =>
      let bucket_name := environ w "R2_BUCKET_NAME" in
      ([GetObject bucket_name file_path],
       match get_object client bucket_name file_path with
       | Raise _ => placeholder_outcome w request file_path data
       | Return obj =>
           match make_jpeg_thumbnail w (String.concat "" (Body obj)) with
           | Raise _ => placeholder_outcome w request file_path data
           | Return thumb_bytes =>
               Return {| status := 200; mimetype_of := Some "image/jpeg";
                         resp_headers := cache_headers w file_path;
                         resp_body := [thumb_bytes] |}
           end
       end)
  end.

(** a required connection parameter is absent or empty *)
Definition config_missing (w : World) : Prop :=
  PyStr.truthy (environ w "R2_ENDPOINT_URL") = false \/
  PyStr.truthy (environ w "ACCESS_KEY_ID") = false \/
  PyStr.truthy (environ w "SECRET_ACCESS_KEY") = false.

(** the message [get_s3_client] raises when a parameter is missing *)
Definition config_error (w : World) : string :=
  if PyStr.truthy (environ w "R2_ENDPOINT_URL")
  then "ACCESS_KEY_ID and SECRET_ACCESS_KEY must be set"
  else "R2_ENDPOINT_URL environment variable is not set".

(** the prefix [index] works with (lines 164-166) *)
Definition index_prefix (request : Request) : string :=
  with_trailing_slash
    (Py.the (Py.or_else (Some (Py.get (args request) "prefix" "")) (Some ""))).

(** the icon classes the filter can answer *)
Definition icon_classes : list string :=
  ["fas fa-image"; "fas fa-music"; "fas fa-video"; "fas fa-file-alt";
   "fas fa-file-archive"; "fas fa-file-code"; "fas fa-file-excel";
   "fas fa-file-powerpoint"; "fas fa-file"].

(** every extension some test of the filter names *)
Definition known_exts : list string :=
  (image_exts ++ audio_exts ++ video_exts ++ document_exts ++ archive_exts ++
   code_exts ++ sheet_exts ++ slides_exts)%list.

(** ** Further vocabulary and example worlds *)

(** the [Prefix] argument [index] sends to the store (lines 168-170) *)
Definition index_query (request : Request) : option string :=
  if negb (index_prefix request =? "") then Some (index_prefix request) else None.

(** a store that cannot be reached: every operation raises *)
Definition offline_client : S3Client :=
  {| list_objects_v2 := fun _ _ =>
       Raise (OtherException "Could not connect to the endpoint URL");
     head_object := fun _ _ =>
       Raise (OtherException "Could not connect to the endpoint URL");
     get_object := fun _ _ =>
       Raise (OtherException "Could not connect to the endpoint URL");
     client_generate_presigned_url := fun _ _ _ =>
       Raise (OtherException "Could not connect to the endpoint URL") |}.

(** a configured deployment whose store is unreachable *)
Definition offline_world : World :=
  {| environ := Fixture.env;
     boto3_client := fun _ _ _ _ => offline_client;
     make_jpeg_thumbnail := Fixture.decoder;
     static_folder := Fixture.statics;
     make_conditional := Fixture.werkzeug;
     current_year := 2024;
     THUMB_TTL := 3600 |}.

(** the example deployment without its placeholder asset *)
Definition assetless_world : World :=
  {| environ := Fixture.env;
     boto3_client := fun _ _ _ _ => Fixture.client Fixture.objects;
     make_jpeg_thumbnail := Fixture.decoder;
     static_folder := fun _ => None;
     make_conditional := Fixture.werkzeug;
     current_year := 2024;
     THUMB_TTL := 3600 |}.

(** the example deployment behind a public base URL *)
Definition public_world (base : string) : World :=
  {| environ := fun name =>
       if name =? "R2_PUBLIC_URL" then Some base else Fixture.env name;
     boto3_client := fun _ _ _ _ => Fixture.client Fixture.objects;
     make_jpeg_thumbnail := Fixture.decoder;
     static_folder := Fixture.statics;
     make_conditional := Fixture.werkzeug;
     current_year := 2024;
     THUMB_TTL := 3600 |}.

(** the key of a listed object (lines 179 and 262) *)
Definition object_key (obj : S3Object) : string :=
  match Key obj with Some k => k | None => "" end.

(** the object keys a listing under [prefix] keeps (lines 180-183) *)
Definition kept_key (prefix k : string) : bool :=
  negb (negb (prefix =? "") && (k =? prefix)) && negb (PyStr.endswith k "/").

(** the keys a listing page shows, in discovery order *)
Definition listed_keys (prefix : string) (response : ListResponse) : list string :=
  (filter (kept_key prefix)
     (map object_key (match Contents response with Some objs => objs | None => [] end))
   ++ match CommonPrefixes response with Some prefs => prefs | None => [] end)%list.







(** what an S3 endpoint answers to a listing of [prefix] delimited by
    [/]: objects directly under the prefix, and common prefixes one
    segment below it *)
Definition relative_contract (prefix : string) (response : ListResponse) : Prop :=
  (forall objs, Contents response = Some objs ->
     Forall (fun obj => exists rest, Key obj = Some (prefix ++ rest) /\
                                     prefix ++ rest <> "" /\
                                     PyStr.contains "/" rest = false) objs) /\
  (forall prefs, CommonPrefixes response = Some prefs ->
     Forall (fun pref => exists seg, pref = prefix ++ seg ++ "/" /\
                                     PyStr.contains "/" seg = false) prefs).

(** the store of a world answers every listing that way *)
Definition store_groups_by_prefix (w : World) : Prop :=
  forall client bucket q response,
    get_s3_client w = ([], Return client) ->
    list_objects_v2 client bucket q = Return response ->
    relative_contract (Py.the q) response.

(** the name of an entry is its key relative to the prefix *)
Definition rejoins (prefix : string) (e : Entry) : Prop :=
  PyStr.contains "/" (name e) = false /\
  if is_dir e then key e = prefix ++ name e ++ "/"
  else key e = prefix ++ name e /\ name e <> "".

(** a file entry as every route fills it: the proxy link of its key, a
    size field and a modification time *)
Definition proxied (e : Entry) : Prop :=
  file_url e = Some ("/file/" ++ key e) /\
  size e <> None /\ last_modified e <> None.

(** the links [index] adds to a file entry: the public link whenever a
    base is configured, the signed link whenever the client gave a
    non-empty one *)
Definition direct_links (w : World) (client : S3Client) (e : Entry) : Prop :=
  public_url e = get_public_url w (key e) /\
  presigned_url e =
    (let url := generate_presigned_url w client (environ w "R2_BUCKET_NAME")
                  (key e) None in
     if PyStr.truthy url then url else None).

(** a lower-case hexadecimal digit *)
Definition is_lower_hex (a : ascii) : bool :=
  let n := nat_of_ascii a in
  ((48 <=? n) && (n <=? 57) || (97 <=? n) && (n <=? 102))%nat.

Fixpoint all_chars (p : ascii -> bool) (s : string) : bool :=
  match s with
  | EmptyString => true
  | String a s' => p a && all_chars p s'
  end.

(** ** The [filesizeformat] template filter (lines 25-42)

    The filter receives whatever the template holds: [None], an integer
    (the size the store reported), or a value [float()] rejects, such
    as the undefined size of a directory entry.  [float(n)] is the
    double nearest to [n], the one with the even significand on a tie,
    and raises [OverflowError] when that is beyond the largest double;
    the value of a double that holds an integer is kept here as that
    integer.  Every division by [1024.0] of a double from 1024 on is
    exact, so [num] is the fraction [n/den] with [den] a power of 1024,
    held here as the pair. *)

Inductive TemplateValue : Type :=
| TNone
| TInt (n : Z)
| TUnconvertible.

(** the integer nearest to [a/den], the even one on a tie: what the
    correctly rounded [%.2f] does with the hundredths, and [float()]
    with the bits beyond the 53rd *)
Definition round_half_even (a den : Z) : Z :=
  let q := (a / den)%Z in
  let r := (a mod den)%Z in
  if (den <? 2 * r)%Z then (q + 1)%Z
  else if (2 * r =? den)%Z then (q + q mod 2)%Z
  else q.

(** [float(n)] for an integer [n] (line 31): [None] is [OverflowError] *)
Definition float_of_int (n : Z) : option Z :=
  let a := Z.abs n in
  let shift := (Z.log2 a + 1 - 53)%Z in
  if (shift <=? 0)%Z then Some n
  else
    let r := (round_half_even a (2 ^ shift) * 2 ^ shift)%Z in
    if (2 ^ 1024 <=? r)%Z then None else Some (Z.sgn n * r)%Z.

(** how [h] hundredths are written: the whole part, a dot, two digits *)
Definition show_hundredths (h : Z) : string :=
  PyStr.str_of_Z (h / 100) ++ "." ++ Py.two_digits (Z.to_nat (h mod 100)).

(** [f"{num:.2f}"] for the non-negative [num = n/den] *)
Definition fixed2 (n den : Z) : string :=
  show_hundredths (round_half_even (100 * n) den).

(** the loop over the units (lines 34-42), [num] being [n/den] *)
Fixpoint filesize_loop (units : list string) (n den : Z) : string :=
  match units with
  | [] => fixed2 n den ++ "PB"
  | unit :: units' =>
      if (n <? 1024 * den)%Z
      then if unit =? "B" then PyStr.str_of_Z (n / den) ++ unit
           else fixed2 n den ++ unit
      else filesize_loop units' n (den * 1024)
  end.

Definition filesizeformat_filter (value : TemplateValue) : string :=
  match value with
  | TNone => "-"
  | TUnconvertible => "-"
  | TInt n =>
      match float_of_int n with
      | None => "-"
      | Some num => filesize_loop ["B"; "KB"; "MB"; "GB"; "TB"] num 1
      end
  end.

(** the units above the byte, with their rank *)
Definition scaled_units : list (Z * string) :=
  [(1, "KB"); (2, "MB"); (3, "GB"); (4, "TB")]%Z.

(** a string of exactly two, and of exactly four, characters *)
Definition two_wide (s : string) : bool :=
  match s with
  | String _ (String _ EmptyString) => true
  | _ => false
  end.

Definition four_wide (s : string) : bool :=
  match s with
  | String _ (String _ (String _ (String _ EmptyString))) => true
  | _ => false
  end.

(** * Properties *)

(** ** The models of the library functions, on known values *)

Section LibraryChecks.

Example md5_of_empty : MD5.hexdigest "" = "d41d8cd98f00b204e9800998ecf8427e".
Proof. vm_compute. reflexivity. Qed.

Example md5_of_abc : MD5.hexdigest "abc" = "900150983cd24fb0d6963f7d28e17f72".
Proof. vm_compute. reflexivity. Qed.

Example md5_of_two_blocks :
  MD5.hexdigest
    "12345678901234567890123456789012345678901234567890123456789012345678901234567890"
  = "57edf4a22be3c955ac49da2e2107b67a".
Proof. vm_compute. reflexivity. Qed.

Example split_keeps_empty : PyStr.split "a//b" "/" = ["a"; ""; "b"].
Proof. reflexivity. Qed.

Example rstrip_all_slashes : PyStr.rstrip "a//b//" "/" = "a//b".
Proof. reflexivity. Qed.

Example int_of_padded : Py.int " +1_000 " = Return 1000%Z.
Proof. reflexivity. Qed.

Example strftime_noon :
  Py.strftime Fixture.noon = "2024-05-17 12:00:00".
Proof. reflexivity. Qed.

Example sort_is_stable :
  Py.sort Py.tuple_ltb (fun x : bool * string * nat => fst x)
    [(true, "b", 1); (false, "z", 2); (true, "a", 3); (true, "b", 4);
     (false, "z", 5)]%nat
  = [(false, "z", 2); (false, "z", 5); (true, "a", 3); (true, "b", 1);
     (true, "b", 4)]%nat.
Proof. reflexivity. Qed.

End LibraryChecks.

(** ** The icon filter *)

Section FileIcon.

Lemma icon_of_ext_closed (ext : string) : In (icon_of_ext ext) icon_classes.
Proof.
  unfold icon_of_ext, icon_classes.
  repeat match goal with
         | |- context [if ?b then _ else _] => destruct b
         end; simpl; tauto.
Qed.

Lemma mem_app (x : string) (l1 l2 : list string) :
  PyStr.mem x (l1 ++ l2) = PyStr.mem x l1 || PyStr.mem x l2.
Proof. apply existsb_app. Qed.

Lemma icon_of_ext_default (ext : string) :
  PyStr.mem ext known_exts = false -> icon_of_ext ext = "fas fa-file".
Proof.
  unfold known_exts. rewrite !mem_app, !orb_false_iff.
  intros (H1 & H2 & H3 & H4 & H5 & H6 & H7 & H8).
  unfold icon_of_ext. now rewrite H1, H2, H3, H4, H5, H6, H7, H8.
Qed.

Lemma lower_char_idem (a : ascii) :
  PyStr.lower_char (PyStr.lower_char a) = PyStr.lower_char a.
Proof. destruct a as [[] [] [] [] [] [] [] []]; reflexivity. Qed.

Lemma lower_char_dot (a : ascii) :
  Ascii.eqb (PyStr.lower_char a) "." = Ascii.eqb a ".".
Proof. destruct a as [[] [] [] [] [] [] [] []]; reflexivity. Qed.

Lemma lower_char_ascii (a : ascii) :
  (nat_of_ascii (PyStr.lower_char a) <? 128)%nat = (nat_of_ascii a <? 128)%nat.
Proof. destruct a as [[] [] [] [] [] [] [] []]; reflexivity. Qed.

Lemma ascii_lower_idem (s : string) :
  PyStr.ascii_lower (PyStr.ascii_lower s) = PyStr.ascii_lower s.
Proof.
  induction s as [|a s IH]; simpl; [reflexivity|].
  now rewrite lower_char_idem, IH.
Qed.

Lemma contains_dot_lower (s : string) :
  PyStr.contains "." (PyStr.ascii_lower s) = PyStr.contains "." s.
Proof.
  induction s as [|a s IH]; simpl; [reflexivity|].
  now rewrite lower_char_dot, IH.
Qed.

Lemma ascii_lower_is_ascii (s : string) :
  PyStr.is_ascii (PyStr.ascii_lower s) = PyStr.is_ascii s.
Proof.
  induction s as [|a s IH]; [reflexivity|].
  cbn [PyStr.ascii_lower PyStr.is_ascii]. now rewrite lower_char_ascii, IH.
Qed.

(** the filter on a name that holds a dot *)
Lemma fileicon_dotted str_lower (f : string) :
  PyStr.contains "." f = true ->
  fileicon_filter str_lower (Some f)
  = icon_of_ext (PyStr.last_item (PyStr.split (str_lower f) ".")).
Proof.
  intros H. unfold fileicon_filter, file_ext. rewrite H.
  destruct (String.eqb_spec f "") as [->|_]; [discriminate H|reflexivity].
Qed.

Lemma fileicon_dotless str_lower (f : string) :
  PyStr.contains "." f = false ->
  fileicon_filter str_lower (Some f) = "fas fa-file".
Proof.
  intros H. unfold fileicon_filter, file_ext. rewrite H.
  now destruct (f =? "").
Qed.

(** C10: whatever [str.lower] does, the icon filter answers for every
    input, with one of nine fixed and distinct classes; [None], the
    empty name and a name without a dot get ["fas fa-file"]; a name with
    a dot is classified by the last dot-separated piece of its lowered
    form and by nothing else, so two names with the same lowered form
    get the same class, and the class is ["fas fa-file"] when that piece
    is in none of the eight lists.  Where [str.lower] lowers ASCII text
    letter by letter, as Python's does, each of the nine classes is the
    answer for some filename and two ASCII names that differ by letter
    case only get the same class. *)
Theorem fileicon_filter_total_closed (str_lower : string -> string) :
  (forall filename, In (fileicon_filter str_lower filename) icon_classes) /\
  (List.length icon_classes = 9%nat /\ NoDup icon_classes) /\
  fileicon_filter str_lower None = "fas fa-file" /\
  fileicon_filter str_lower (Some "") = "fas fa-file" /\
  (forall f, PyStr.contains "." f = false ->
             fileicon_filter str_lower (Some f) = "fas fa-file") /\
  (forall f, PyStr.contains "." f = true ->
             fileicon_filter str_lower (Some f)
             = icon_of_ext (PyStr.last_item (PyStr.split (str_lower f) "."))) /\
  (forall f g, str_lower f = str_lower g ->
               PyStr.contains "." f = PyStr.contains "." g ->
               fileicon_filter str_lower (Some f)
               = fileicon_filter str_lower (Some g)) /\
  (forall f, PyStr.mem (file_ext str_lower f) known_exts = false ->
             fileicon_filter str_lower (Some f) = "fas fa-file") /\
  ((forall s, PyStr.is_ascii s = true -> str_lower s = PyStr.ascii_lower s) ->
   (forall c, In c icon_classes ->
              exists filename, fileicon_filter str_lower filename = c) /\
   (forall f g, PyStr.is_ascii f = true -> PyStr.is_ascii g = true ->
                PyStr.ascii_lower f = PyStr.ascii_lower g ->
                fileicon_filter str_lower (Some f)
                = fileicon_filter str_lower (Some g))).
Proof.
  split; [|split; [|split; [|split; [|split; [|split; [|split; [|split]]]]]]].
  - intros [f|]; simpl; [|tauto].
    destruct (f =? ""); [simpl; tauto | apply icon_of_ext_closed].
  - split; [reflexivity|]. unfold icon_classes.
    repeat (constructor; [simpl; intuition discriminate|]).
    constructor.
  - reflexivity.
  - reflexivity.
  - intros f. apply fileicon_dotless.
  - intros f. apply fileicon_dotted.
  - intros f g Hl Hdot. destruct (PyStr.contains "." f) eqn:Hf.
    + rewrite (fileicon_dotted str_lower f Hf).
      rewrite (fileicon_dotted str_lower g (eq_sym Hdot)). now rewrite Hl.
    + rewrite (fileicon_dotless str_lower f Hf).
      now rewrite (fileicon_dotless str_lower g (eq_sym Hdot)).
  - intros f H. simpl. destruct (f =? ""); [reflexivity|].
    now apply icon_of_ext_default.
  - intros Hascii. split.
    + intros c Hc.
      assert (Hrun : forall f, PyStr.is_ascii f = true ->
                 fileicon_filter str_lower (Some f)
                 = fileicon_filter PyStr.ascii_lower (Some f)).
      { intros f Hf. unfold fileicon_filter, file_ext. now rewrite (Hascii f Hf). }
      simpl in Hc.
      destruct Hc as [<-|[<-|[<-|[<-|[<-|[<-|[<-|[<-|[<-|[]]]]]]]]]].
      * exists (Some "a.PNG"). now rewrite Hrun.
      * exists (Some "a.mp3"). now rewrite Hrun.
      * exists (Some "a.mkv"). now rewrite Hrun.
      * exists (Some "a.b.md"). now rewrite Hrun.
      * exists (Some "a.tar.GZ"). now rewrite Hrun.
      * exists (Some ".c"). now rewrite Hrun.
      * exists (Some "a.csv"). now rewrite Hrun.
      * exists (Some "a.pptx"). now rewrite Hrun.
      * now exists None.
    + intros f g Hf Hg Hl.
      assert (Hdot : PyStr.contains "." f = PyStr.contains "." g)
        by now rewrite <- (contains_dot_lower f), <- (contains_dot_lower g), Hl.
      destruct (PyStr.contains "." f) eqn:Ef.
      * rewrite (fileicon_dotted str_lower f Ef).
        rewrite (fileicon_dotted str_lower g (eq_sym Hdot)).
        now rewrite (Hascii f Hf), (Hascii g Hg), Hl.
      * rewrite (fileicon_dotless str_lower f Ef).
        now rewrite (fileicon_dotless str_lower g (eq_sym Hdot)).
Qed.

Lemma fileicon_filter_total_closed_witness :
  (forall s, PyStr.is_ascii s = true -> PyStr.ascii_lower s = PyStr.ascii_lower s) /\
  PyStr.is_ascii "Report.PDF" = true /\ PyStr.is_ascii "report.pdf" = true /\
  fileicon_filter PyStr.ascii_lower (Some "Report.PDF")
  = fileicon_filter PyStr.ascii_lower (Some "report.pdf") /\
  fileicon_filter PyStr.ascii_lower (Some "Makefile") = "fas fa-file" /\
  fileicon_filter PyStr.ascii_lower (Some "disk.iso") = "fas fa-file".
Proof.
  assert (Hascii : forall s, PyStr.is_ascii s = true ->
                             PyStr.ascii_lower s = PyStr.ascii_lower s)
    by reflexivity.
  destruct (fileicon_filter_total_closed PyStr.ascii_lower)
    as (_ & _ & _ & _ & Hdot & _ & _ & Hext & Hcase).
  split; [exact Hascii|]. split; [reflexivity|]. split; [reflexivity|].
  split; [apply (proj2 (Hcase Hascii)); reflexivity|].
  split; [apply Hdot; reflexivity | apply Hext; reflexivity].
Defined.

End FileIcon.

(** ** Strings *)

Section Strings.

Lemma split_not_nil (s : string) (c : ascii) : PyStr.split s c <> [].
Proof.
  destruct s as [|a s]; simpl; [discriminate|].
  destruct (Ascii.eqb a c); [discriminate|].
  destruct (PyStr.split s c); discriminate.
Qed.

Lemma append_empty_r (s : string) : s ++ "" = s.
Proof. induction s as [|a s IH]; simpl; congruence. Qed.

Lemma append_assoc (s t u : string) : (s ++ t) ++ u = s ++ t ++ u.
Proof. induction s as [|a s IH]; simpl; congruence. Qed.

Lemma split_cons (a c : ascii) (s : string) :
  PyStr.split (String a s) c =
  if Ascii.eqb a c then "" :: PyStr.split s c
  else match PyStr.split s c with
       | [] => [String a ""]
       | w :: ws => String a w :: ws
       end.
Proof. reflexivity. Qed.

(** joining the pieces of a split gives the string back *)
Lemma concat_split (s : string) (c : ascii) :
  String.concat (String c "") (PyStr.split s c) = s.
Proof.
  induction s as [|a s IH]; [reflexivity|].
  simpl PyStr.split. destruct (Ascii.eqb_spec a c) as [->|Hac].
  - pose proof (split_not_nil s c) as Hne.
    destruct (PyStr.split s c) as [|w ws] eqn:E; [contradiction|].
    change (String.concat (String c "") ("" :: w :: ws))
      with (String c (String.concat (String c "") (w :: ws))).
    now rewrite IH.
  - pose proof (split_not_nil s c) as Hne.
    destruct (PyStr.split s c) as [|w ws] eqn:E; [contradiction|].
    destruct ws as [|w' ws].
    + simpl in *. now rewrite IH.
    + change (String.concat (String c "") (String a w :: w' :: ws))
        with (String a (String.concat (String c "") (w :: w' :: ws))).
      now rewrite IH.
Qed.

Lemma endswith_cons (a : ascii) (s suffix : string) :
  s <> "" -> suffix <> String a s ->
  PyStr.endswith (String a s) suffix = PyStr.endswith s suffix.
Proof.
  intros _ Hne. cbn [PyStr.endswith].
  destruct (String.eqb_spec (String a s) suffix) as [E|_]; [now subst|].
  reflexivity.
Qed.

Lemma endswith_slash_cons (a : ascii) (s : string) :
  s <> "" -> PyStr.endswith (String a s) "/" = PyStr.endswith s "/".
Proof.
  intros Hs. apply endswith_cons; [assumption|].
  intros E. inversion E. now subst.
Qed.

Lemma endswith_append_slash (s : string) : PyStr.endswith (s ++ "/") "/" = true.
Proof.
  induction s as [|a s IH]; [reflexivity|].
  change (String a s ++ "/") with (String a (s ++ "/")).
  rewrite endswith_slash_cons; [assumption|].
  destruct s; discriminate.
Qed.

(** what is left after [rstrip] does not end in the stripped character *)
Lemma rstrip_not_endswith (s : string) :
  PyStr.endswith (PyStr.rstrip s "/") "/" = false.
Proof.
  induction s as [|a s IH]; [reflexivity|].
  simpl PyStr.rstrip. destruct (PyStr.rstrip s "/") as [|b r] eqn:E.
  - destruct (Ascii.eqb_spec a "/") as [->|Hne]; [reflexivity|].
    simpl. destruct (Ascii.eqb_spec a "/"); [contradiction|reflexivity].
  - rewrite endswith_slash_cons; [assumption|discriminate].
Qed.

Lemma endswith_two_slashes (t : string) :
  PyStr.endswith (t ++ "/") "//" = PyStr.endswith t "/".
Proof.
  induction t as [|a t IH]; [reflexivity|].
  change (String a t ++ "/") with (String a (t ++ "/")).
  cbn [PyStr.endswith]. rewrite IH. f_equal.
  destruct t as [|b t].
  - simpl. destruct (Ascii.eqb a "/"); reflexivity.
  - simpl. destruct (Ascii.eqb a "/"); [|reflexivity].
    destruct (Ascii.eqb b "/"); [|reflexivity].
    destruct t; reflexivity.
Qed.

(** a string with a single trailing slash is its [rstrip] plus the slash *)
Lemma rstrip_single_slash (s : string) :
  PyStr.endswith s "/" = true -> PyStr.endswith s "//" = false ->
  PyStr.rstrip s "/" ++ "/" = s.
Proof.
  induction s as [|a s IH]; [discriminate|].
  destruct s as [|b s'].
  - simpl. destruct (Ascii.eqb_spec a "/") as [->|]; [reflexivity|discriminate].
  - intros H1 H2.
    rewrite endswith_slash_cons in H1 by discriminate.
    cbn [PyStr.endswith] in H2. apply orb_false_iff in H2 as [Hne H2].
    specialize (IH H1 H2).
    cbn [PyStr.rstrip]. cbn [PyStr.rstrip] in IH.
    destruct (match PyStr.rstrip s' "/" with
              | "" => if Ascii.eqb b "/" then "" else String b ""
              | String a0 s0 => String b (String a0 s0)
              end) as [|x r] eqn:E.
    + simpl in IH. rewrite <- IH in Hne |- *.
      destruct (Ascii.eqb_spec a "/") as [->|]; [discriminate Hne|reflexivity].
    + simpl. simpl in IH. now rewrite IH.
Qed.

End Strings.

(** ** What a listing page tells about the run that produced it *)

Section Handlers.

Lemma get_s3_client_cases (w : World) :
  (exists client, get_s3_client w = ([], Return client)) \/
  (exists msg, get_s3_client w = ([], Raise (RuntimeError msg))).
Proof.
  unfold get_s3_client.
  destruct (negb (PyStr.truthy (environ w "R2_ENDPOINT_URL")));
    [right; eexists; reflexivity|].
  match goal with |- context [if ?b then _ else _] => destruct b end;
    [right|left]; eexists; reflexivity.
Qed.

Lemma index_listing_inv w request t es p cs y :
  index w request = (t, Return (Listing es p cs y)) ->
  exists client response,
    get_s3_client w = ([], Return client) /\
    p = index_prefix request /\
    list_objects_v2 client (environ w "R2_BUCKET_NAME")
      (if negb (p =? "") then Some p else None) = Return response /\
    es = sort_entries
           (index_discovered w client (environ w "R2_BUCKET_NAME") p response) /\
    cs = make_crumbs p.
Proof.
  unfold index, index_prefix.
  destruct (get_s3_client_cases w) as [[client Hc]|[msg Hc]]; rewrite Hc;
    cbn [bind try_except ret request_store]; [|discriminate].
  match goal with
  | |- context [list_objects_v2 ?c ?b ?q] =>
      destruct (list_objects_v2 c b q) as [response|e] eqn:Hl
  end; cbn [app]; [|discriminate].
  intros H. inversion H; subst. exists client, response.
  repeat split; try reflexivity. exact Hl.
Qed.

Lemma browse_listing_inv w prefix_path t es p cs y :
  browse w prefix_path = (t, Return (Listing es p cs y)) ->
  exists client response,
    get_s3_client w = ([], Return client) /\
    p = with_trailing_slash prefix_path /\
    list_objects_v2 client (environ w "R2_BUCKET_NAME") (Some p)
      = Return response /\
    es = sort_entries (browse_discovered p response) /\
    cs = make_crumbs p.
Proof.
  unfold browse.
  destruct (get_s3_client_cases w) as [[client Hc]|[msg Hc]]; rewrite Hc;
    cbn [bind try_except ret request_store]; [|discriminate].
  match goal with
  | |- context [list_objects_v2 ?c ?b ?q] =>
      destruct (list_objects_v2 c b q) as [response|e] eqn:Hl
  end; cbn [app]; [|discriminate].
  intros H. inversion H; subst. exists client, response.
  repeat split; try reflexivity.
  - unfold Py.the, Py.or_else, PyStr.truthy.
    destruct prefix_path; reflexivity.
  - revert Hl. unfold Py.the, Py.or_else, PyStr.truthy.
    destruct prefix_path; exact (fun H => H).
Qed.

Lemma with_trailing_slash_normalized (s : string) :
  with_trailing_slash s = "" \/
  PyStr.endswith (with_trailing_slash s) "/" = true.
Proof.
  unfold with_trailing_slash. destruct (String.eqb_spec s "") as [->|Hs].
  - now left.
  - right. simpl. destruct (PyStr.endswith s "/") eqn:E; simpl; [assumption|].
    apply endswith_append_slash.
Qed.

End Handlers.

(** ** Breadcrumbs *)

Section Breadcrumbs.

Lemma crumb_loop_accumulate (segs : list string) (acc : string) (crumbs : list Crumb) :
  crumb_loop segs acc crumbs = (crumbs ++ accumulate segs acc)%list.
Proof.
  revert acc crumbs. induction segs as [|seg segs IH]; intros acc crumbs; simpl.
  - now rewrite app_nil_r.
  - rewrite IH, <- app_assoc. reflexivity.
Qed.

Lemma make_crumbs_keeping (prefix : string) :
  make_crumbs prefix = breadcrumbs_keeping_empty prefix.
Proof.
  unfold make_crumbs, breadcrumbs_keeping_empty.
  destruct (prefix =? ""); simpl; [reflexivity|].
  apply crumb_loop_accumulate.
Qed.

Lemma accumulate_names (segs : list string) (acc : string) :
  map crumb_name (accumulate segs acc) = segs.
Proof.
  revert acc. induction segs as [|seg segs IH]; intros acc; simpl;
    [reflexivity|now rewrite IH].
Qed.

Lemma concat_empty_cons (x : string) (l : list string) :
  String.concat "" (x :: l) = x ++ String.concat "" l.
Proof. destruct l; simpl; [now rewrite append_empty_r|reflexivity]. Qed.

(** the [i]-th breadcrumb carries the [i]-th segment and the segments
    up to it, each followed by the delimiter *)
Lemma accumulate_nth (segs : list string) (acc : string) (i : nat) (c : Crumb) :
  nth_error (accumulate segs acc) i = Some c ->
  nth_error segs i = Some (crumb_name c) /\
  crumb_prefix c =
    acc ++ String.concat "" (map (fun seg => seg ++ "/") (firstn (S i) segs)).
Proof.
  revert acc i. induction segs as [|seg segs IH]; intros acc i H.
  - destruct i; discriminate.
  - destruct i as [|i].
    + simpl in H. inversion H; subst; clear H. simpl.
      split; reflexivity.
    + simpl in H. apply IH in H as [Hn Hp]. split; [exact Hn|].
      rewrite Hp. rewrite append_assoc.
      change (firstn (S (S i)) (seg :: segs)) with (seg :: firstn (S i) segs).
      cbn [map]. now rewrite concat_empty_cons, !append_assoc.
Qed.

Lemma last_crumb_accumulate (segs : list string) (acc : string) :
  segs <> [] ->
  option_map crumb_prefix (last_crumb (accumulate segs acc))
  = Some (acc ++ String.concat "/" segs ++ "/").
Proof.
  revert acc. induction segs as [|seg segs IH]; intros acc Hne; [contradiction|].
  destruct segs as [|seg' segs].
  - reflexivity.
  - change (last_crumb (accumulate (seg :: seg' :: segs) acc))
      with (last_crumb (accumulate (seg' :: segs) (acc ++ seg ++ "/"))).
    rewrite IH by discriminate.
    change (String.concat "/" (seg :: seg' :: segs))
      with (seg ++ "/" ++ String.concat "/" (seg' :: segs)).
    now rewrite !append_assoc.
Qed.

Lemma last_crumb_make_crumbs (prefix : string) :
  prefix <> "" ->
  option_map crumb_prefix (last_crumb (make_crumbs prefix))
  = Some (PyStr.rstrip prefix "/" ++ "/").
Proof.
  intros Hne. rewrite make_crumbs_keeping. unfold breadcrumbs_keeping_empty.
  destruct (String.eqb_spec prefix ""); [contradiction|].
  rewrite last_crumb_accumulate by apply split_not_nil.
  now rewrite concat_split.
Qed.

(** splitting before or after [rstrip] gives the same first segment
    and the same non-empty later segments *)
Lemma split_rstrip (s : string) :
  hd "" (PyStr.split s "/") = hd "" (PyStr.split (PyStr.rstrip s "/") "/") /\
  filter nonempty (tl (PyStr.split s "/"))
  = filter nonempty (tl (PyStr.split (PyStr.rstrip s "/") "/")).
Proof.
  induction s as [|a s [IHh IHt]]; [now split|].
  pose proof (split_not_nil s "/") as Hs.
  pose proof (split_not_nil (PyStr.rstrip s "/") "/") as Hr.
  cbn [PyStr.split PyStr.rstrip].
  destruct (PyStr.split s "/") as [|h t] eqn:Es; [contradiction|].
  destruct (PyStr.rstrip s "/") as [|b r] eqn:Er.
  - simpl in IHh, IHt. subst h.
    destruct (Ascii.eqb_spec a "/") as [->|Hne]; simpl.
    + now rewrite IHt.
    + destruct (Ascii.eqb_spec a "/"); [contradiction|]. simpl. now rewrite IHt.
  - destruct (PyStr.split (String b r) "/") as [|h' t'] eqn:Esr; [contradiction|].
    simpl in IHh, IHt. subst h'.
    destruct (Ascii.eqb_spec a "/") as [->|Hne].
    + rewrite (split_cons "/" "/" (String b r)), Esr. simpl Ascii.eqb.
      cbn [hd tl]. split; [reflexivity|]. cbn [filter]. now rewrite IHt.
    + rewrite (split_cons a "/" (String b r)), Esr.
      destruct (Ascii.eqb_spec a "/"); [contradiction|]. now split.
Qed.

Lemma filter_all (l : list string) :
  forallb nonempty l = true -> filter nonempty l = l.
Proof.
  induction l as [|x l IH]; simpl; [reflexivity|].
  intros H. apply andb_true_iff in H as [Hx Hl]. now rewrite Hx, IH.
Qed.

Lemma keeping_is_discarding (prefix : string) :
  forallb nonempty (PyStr.split (PyStr.rstrip prefix "/") "/") = true ->
  breadcrumbs_keeping_empty prefix = breadcrumbs_discarding_empty prefix.
Proof.
  intros Hall. unfold breadcrumbs_keeping_empty, breadcrumbs_discarding_empty.
  destruct (String.eqb_spec prefix "") as [->|Hne]; [reflexivity|].
  f_equal. rewrite <- (filter_all _ Hall).
  destruct (split_rstrip prefix) as [Hh Ht].
  pose proof (split_not_nil prefix "/") as Hs.
  pose proof (split_not_nil (PyStr.rstrip prefix "/") "/") as Hr.
  destruct (PyStr.split prefix "/") as [|h t]; [contradiction|].
  destruct (PyStr.split (PyStr.rstrip prefix "/") "/") as [|h' t']; [contradiction|].
  simpl in Hh, Ht. subst h'. cbn [filter]. now rewrite Ht.
Qed.

End Breadcrumbs.

Section BreadcrumbClaims.

Lemma listing_crumbs w request prefix_path t es p cs y :
  index w request = (t, Return (Listing es p cs y)) \/
  browse w prefix_path = (t, Return (Listing es p cs y)) ->
  cs = make_crumbs p /\ (p = "" \/ PyStr.endswith p "/" = true).
Proof.
  intros [H|H].
  - apply index_listing_inv in H as (client & response & _ & Hp & _ & _ & Hcs).
    split; [exact Hcs|]. subst p. apply with_trailing_slash_normalized.
  - apply browse_listing_inv in H as (client & response & _ & Hp & _ & _ & Hcs).
    split; [exact Hcs|]. subst p. apply with_trailing_slash_normalized.
Qed.

(** C7, as the code has it: on every listing page with a non-empty
    prefix, whichever route produced it, the prefix ends with the
    delimiter and the last breadcrumb's cumulative prefix is the
    prefix with its trailing delimiters replaced by one delimiter; it
    is the prefix itself exactly when the prefix does not end with two
    delimiters. *)
Theorem breadcrumb_final_prefix w request prefix_path t es p cs y :
  index w request = (t, Return (Listing es p cs y)) \/
  browse w prefix_path = (t, Return (Listing es p cs y)) ->
  p <> "" ->
  PyStr.endswith p "/" = true /\
  option_map crumb_prefix (last_crumb cs) = Some (PyStr.rstrip p "/" ++ "/") /\
  (PyStr.endswith p "//" = false <->
   option_map crumb_prefix (last_crumb cs) = Some p).
Proof.
  intros H Hne. apply listing_crumbs in H as [-> [Hp|Hp]]; [contradiction|].
  pose proof (last_crumb_make_crumbs p Hne) as Hlast.
  split; [exact Hp|]. split; [exact Hlast|]. rewrite Hlast. split.
  - intros H2. f_equal. now apply rstrip_single_slash.
  - intros E. inversion E as [E'].
    rewrite <- E' at 1. rewrite endswith_two_slashes. apply rstrip_not_endswith.
Qed.

Lemma breadcrumb_final_prefix_witness :
  browse Fixture.world "photos/2024"
  = ([ListObjectsV2 (Some "bucket") (Some "photos/2024/")],
     Return (Listing
               [mkEntry "trip.jpg" "photos/2024/trip.jpg" false (Some (Some 8%Z))
                  (Some "2024-05-17 12:00:00") None None
                  (Some "/file/photos/2024/trip.jpg")]
               "photos/2024/"
               [mkCrumb "photos" "photos/"; mkCrumb "2024" "photos/2024/"]
               2024%Z)) /\
  "photos/2024/" <> "" /\
  option_map crumb_prefix
    (last_crumb [mkCrumb "photos" "photos/"; mkCrumb "2024" "photos/2024/"])
  = Some "photos/2024/".
Proof.
  assert (Hrun : browse Fixture.world "photos/2024"
                 = ([ListObjectsV2 (Some "bucket") (Some "photos/2024/")],
                    Return (Listing
                      [mkEntry "trip.jpg" "photos/2024/trip.jpg" false
                         (Some (Some 8%Z)) (Some "2024-05-17 12:00:00") None None
                         (Some "/file/photos/2024/trip.jpg")]
                      "photos/2024/"
                      [mkCrumb "photos" "photos/"; mkCrumb "2024" "photos/2024/"]
                      2024%Z))) by (vm_compute; reflexivity).
  assert (Hne : "photos/2024/" <> "") by discriminate.
  split; [exact Hrun|]. split; [exact Hne|].
  apply (breadcrumb_final_prefix Fixture.world (Fixture.query None)
           "photos/2024" _ _ _ _ _ (or_intror Hrun) Hne).
  reflexivity.
Defined.

(** C7 fails as stated: the prefix [a//] is non-empty and ends with the
    delimiter, the page keeps it as its prefix, and the last
    breadcrumb's cumulative prefix is [a/]. *)
Lemma breadcrumb_roundtrip_counterexample :
  exists t es cs y,
    index Fixture.world (Fixture.query (Some "a//"))
    = (t, Return (Listing es "a//" cs y)) /\
    PyStr.endswith "a//" "/" = true /\
    option_map crumb_prefix (last_crumb cs) = Some "a/" /\
    option_map crumb_prefix (last_crumb cs) <> Some "a//".
Proof.
  do 4 eexists. split; [vm_compute; reflexivity|].
  split; [reflexivity|]. split; [reflexivity|]. discriminate.
Qed.

(** C9, as the code has it: on every listing page, whichever route
    produced it, the breadcrumbs are obtained by stripping the trailing
    delimiters of the prefix, splitting the rest on the delimiter and
    accumulating a running prefix per segment, every segment kept: the
    names are the segments in order, the [i]-th cumulative prefix is
    the first [i+1] segments each followed by the delimiter, and the
    result is the one obtained by discarding empty segments whenever
    the stripped prefix has no empty segment. *)
Theorem breadcrumbs_derivation w request prefix_path t es p cs y :
  index w request = (t, Return (Listing es p cs y)) \/
  browse w prefix_path = (t, Return (Listing es p cs y)) ->
  let segs := if p =? "" then [] else PyStr.split (PyStr.rstrip p "/") "/" in
  cs = breadcrumbs_keeping_empty p /\
  map crumb_name cs = segs /\
  (forall i c, nth_error cs i = Some c ->
     crumb_prefix c
     = String.concat "" (map (fun seg => seg ++ "/") (firstn (S i) segs))) /\
  (forallb nonempty segs = true -> cs = breadcrumbs_discarding_empty p).
Proof.
  intros H segs. apply listing_crumbs in H as [-> _].
  rewrite make_crumbs_keeping. split; [reflexivity|].
  subst segs. unfold breadcrumbs_keeping_empty.
  destruct (String.eqb_spec p "") as [->|Hne].
  - split; [reflexivity|]. split; [intros [|i] c Hc; discriminate Hc|].
    reflexivity.
  - split; [apply accumulate_names|]. split.
    + intros i c Hc. now apply accumulate_nth in Hc as [_ ->].
    + intros Hall. pose proof (keeping_is_discarding p Hall) as E.
      unfold breadcrumbs_keeping_empty in E.
      destruct (String.eqb_spec p ""); [contradiction|exact E].
Qed.

Lemma breadcrumbs_derivation_witness :
  index Fixture.world (Fixture.query (Some "photos/2024"))
  = ([ListObjectsV2 (Some "bucket") (Some "photos/2024/")],
     Return (Listing
               [mkEntry "trip.jpg" "photos/2024/trip.jpg" false (Some (Some 8%Z))
                  (Some "2024-05-17 12:00:00") None
                  (Some "https://r2.example/photos/2024/trip.jpg?X-Amz-Signature=0")
                  (Some "/file/photos/2024/trip.jpg")]
               "photos/2024/"
               [mkCrumb "photos" "photos/"; mkCrumb "2024" "photos/2024/"]
               2024%Z)) /\
  [mkCrumb "photos" "photos/"; mkCrumb "2024" "photos/2024/"]
  = breadcrumbs_discarding_empty "photos/2024/".
Proof.
  assert (Hrun : index Fixture.world (Fixture.query (Some "photos/2024"))
                 = ([ListObjectsV2 (Some "bucket") (Some "photos/2024/")],
                    Return (Listing
                      [mkEntry "trip.jpg" "photos/2024/trip.jpg" false
                         (Some (Some 8%Z)) (Some "2024-05-17 12:00:00") None
                         (Some "https://r2.example/photos/2024/trip.jpg?X-Amz-Signature=0")
                         (Some "/file/photos/2024/trip.jpg")]
                      "photos/2024/"
                      [mkCrumb "photos" "photos/"; mkCrumb "2024" "photos/2024/"]
                      2024%Z))) by (vm_compute; reflexivity).
  split; [exact Hrun|].
  apply (breadcrumbs_derivation Fixture.world (Fixture.query (Some "photos/2024"))
           "" _ _ _ _ _ (or_introl Hrun)).
  reflexivity.
Defined.

(** C9 fails as stated: for the prefix [a//deep/] the page carries a
    breadcrumb whose segment name is empty, which the derivation that
    discards empty segments does not produce. *)
Lemma breadcrumbs_empty_segment_counterexample :
  exists t es cs y,
    browse Fixture.world "a//deep"
    = (t, Return (Listing es "a//deep/" cs y)) /\
    In (mkCrumb "" "a//") cs /\
    cs <> breadcrumbs_discarding_empty "a//deep/".
Proof.
  do 4 eexists. split; [vm_compute; reflexivity|].
  split; [simpl; tauto|]. vm_compute. discriminate.
Qed.

End BreadcrumbClaims.

(** ** Sorting *)

Section SortFacts.
Context {A K : Type} (ltb : K -> K -> bool) (key : A -> K).
Hypothesis ltb_irrefl : forall k, ltb k k = false.
Hypothesis ltb_trans :
  forall a b c, ltb a b = true -> ltb b c = true -> ltb a c = true.
Hypothesis ltb_false_trans :
  forall a b c, ltb a b = false -> ltb b c = false -> ltb a c = false.

(** [a] may come before [b] *)
Let precedes (a b : A) : Prop := ltb (key b) (key a) = false.

Lemma ltb_asym a b : ltb a b = true -> ltb b a = false.
Proof.
  intros H. destruct (ltb b a) eqn:E; [|reflexivity].
  rewrite <- (ltb_irrefl a). symmetry. now apply ltb_trans with b.
Qed.

Lemma insert_perm (x : A) (l : list A) :
  Permutation (x :: l) (Py.insert ltb key x l).
Proof.
  induction l as [|y l IH]; simpl; [apply Permutation_refl|].
  destruct (ltb (key y) (key x)); [|apply Permutation_refl].
  apply perm_trans with (y :: x :: l); [apply perm_swap|].
  now apply perm_skip.
Qed.

Lemma sort_perm (l : list A) : Permutation l (Py.sort ltb key l).
Proof.
  induction l as [|x l IH]; simpl; [apply perm_nil|].
  apply perm_trans with (x :: Py.sort ltb key l);
    [now apply perm_skip | apply insert_perm].
Qed.

Lemma insert_sorted (x : A) (l : list A) :
  StronglySorted precedes l -> StronglySorted precedes (Py.insert ltb key x l).
Proof.
  induction l as [|y l IH]; intros Hs; simpl.
  - constructor; constructor.
  - apply StronglySorted_inv in Hs as [Hl Hy].
    destruct (ltb (key y) (key x)) eqn:E.
    + constructor; [now apply IH|].
      apply (Permutation_Forall (insert_perm x l)).
      constructor; [|exact Hy]. unfold precedes. now apply ltb_asym.
    + constructor; [now constructor|].
      constructor; [exact E|].
      apply Forall_impl with (2 := Hy). unfold precedes. intros z Hz.
      now apply ltb_false_trans with (key y).
Qed.

Lemma sort_sorted (l : list A) : StronglySorted precedes (Py.sort ltb key l).
Proof.
  induction l as [|x l IH]; simpl; [constructor|now apply insert_sorted].
Qed.

Lemma filter_insert (p : A -> bool) (x : A) (l : list A) :
  (forall a b, p a = true -> p b = true -> ltb (key a) (key b) = false) ->
  filter p (Py.insert ltb key x l) = filter p (x :: l).
Proof.
  intros Hp. induction l as [|y l IH]; [reflexivity|].
  cbn [Py.insert]. destruct (ltb (key y) (key x)) eqn:E; [|reflexivity].
  cbn [filter] in *. rewrite IH.
  destruct (p x) eqn:Hx, (p y) eqn:Hy; try reflexivity.
  now rewrite (Hp y x Hy Hx) in E.
Qed.

(** entries that the order does not separate keep their input order *)
Lemma filter_sort (p : A -> bool) (l : list A) :
  (forall a b, p a = true -> p b = true -> ltb (key a) (key b) = false) ->
  filter p (Py.sort ltb key l) = filter p l.
Proof.
  intros Hp. induction l as [|x l IH]; [reflexivity|].
  cbn [Py.sort]. rewrite filter_insert by exact Hp.
  cbn [filter]. now rewrite IH.
Qed.

(** sorting commutes with a change of the items that keeps their keys *)
Lemma sort_map (f : A -> A) (l : list A) :
  (forall a, key (f a) = key a) ->
  Py.sort ltb key (map f l) = map f (Py.sort ltb key l).
Proof.
  intros Hf.
  assert (Hins : forall x l, Py.insert ltb key (f x) (map f l)
                             = map f (Py.insert ltb key x l)).
  { intros x l0. induction l0 as [|y l0 IH]; [reflexivity|].
    cbn [map Py.insert]. rewrite !Hf.
    destruct (ltb (key y) (key x)); cbn [map]; [now rewrite IH|reflexivity]. }
  induction l as [|x l IH]; [reflexivity|].
  cbn [map Py.sort]. now rewrite IH, Hins.
Qed.

Lemma sorted_nth (R : A -> A -> Prop) (l : list A) i j a b :
  StronglySorted R l -> (i < j)%nat ->
  nth_error l i = Some a -> nth_error l j = Some b -> R a b.
Proof.
  intros Hs. revert i j. induction Hs as [|x l Hs IH Hx]; intros i j Hij Hi Hj.
  - destruct i; discriminate.
  - destruct j as [|j]; [lia|]. cbn [nth_error] in Hj.
    destruct i as [|i].
    + cbn [nth_error] in Hi. inversion Hi; subst.
      rewrite Forall_forall in Hx. apply Hx. now apply nth_error_In with j.
    + cbn [nth_error] in Hi. apply (IH i j); [lia|assumption..].
Qed.

End SortFacts.

(** ** The order on sort keys *)

Section KeyOrder.

Lemma ascii_compare_refl (a : ascii) : Ascii.compare a a = Eq.
Proof. apply N.compare_refl. Qed.

Lemma ascii_compare_lt_trans (a b c : ascii) :
  Ascii.compare a b = Lt -> Ascii.compare b c = Lt -> Ascii.compare a c = Lt.
Proof.
  unfold Ascii.compare. rewrite !N.compare_lt_iff. apply N.lt_trans.
Qed.

Lemma string_compare_refl (s : string) : String.compare s s = Eq.
Proof.
  induction s as [|a s IH]; simpl; [reflexivity|].
  now rewrite ascii_compare_refl.
Qed.

Lemma string_compare_lt_trans (s1 s2 s3 : string) :
  String.compare s1 s2 = Lt -> String.compare s2 s3 = Lt ->
  String.compare s1 s3 = Lt.
Proof.
  revert s2 s3. induction s1 as [|a s1 IH]; intros [|b s2] [|c s3];
    simpl; try discriminate; auto.
  destruct (Ascii.compare a b) eqn:Hab; try discriminate;
    destruct (Ascii.compare b c) eqn:Hbc; try discriminate; intros H1 H2.
  - apply Ascii.compare_eq_iff in Hab, Hbc. subst.
    rewrite ascii_compare_refl. now apply IH with s2.
  - apply Ascii.compare_eq_iff in Hab. subst. now rewrite Hbc.
  - apply Ascii.compare_eq_iff in Hbc. subst. now rewrite Hab.
  - now rewrite (ascii_compare_lt_trans a b c).
Qed.

Lemma string_ltb_irrefl (s : string) : (s <? s) = false.
Proof. unfold String.ltb. now rewrite string_compare_refl. Qed.

Lemma string_ltb_trans (s1 s2 s3 : string) :
  (s1 <? s2) = true -> (s2 <? s3) = true -> (s1 <? s3) = true.
Proof.
  unfold String.ltb. intros H1 H2.
  destruct (String.compare s1 s2) eqn:E1; try discriminate.
  destruct (String.compare s2 s3) eqn:E2; try discriminate.
  now rewrite (string_compare_lt_trans s1 s2 s3).
Qed.

Lemma string_ltb_trichotomy (s1 s2 : string) :
  (s1 <? s2) = false -> (s2 <? s1) = false -> s1 = s2.
Proof.
  unfold String.ltb. rewrite (String.compare_antisym s2 s1). intros H1 H2.
  destruct (String.compare s1 s2) eqn:E; try discriminate.
  now apply String.compare_eq_iff.
Qed.

Lemma tuple_ltb_irrefl (k : bool * string) : Py.tuple_ltb k k = false.
Proof.
  destruct k as [b s]. unfold Py.tuple_ltb. simpl.
  rewrite Bool.eqb_reflx. apply string_ltb_irrefl.
Qed.

Lemma tuple_ltb_trans (x y z : bool * string) :
  Py.tuple_ltb x y = true -> Py.tuple_ltb y z = true -> Py.tuple_ltb x z = true.
Proof.
  destruct x as [[] s1], y as [[] s2], z as [[] s3];
    unfold Py.tuple_ltb; simpl; try discriminate; auto;
    apply string_ltb_trans.
Qed.

Lemma tuple_ltb_trichotomy (x y : bool * string) :
  Py.tuple_ltb x y = false -> Py.tuple_ltb y x = false -> x = y.
Proof.
  destruct x as [[] s1], y as [[] s2];
    unfold Py.tuple_ltb; simpl; try discriminate;
    intros H1 H2; f_equal; now apply string_ltb_trichotomy.
Qed.

Lemma tuple_ltb_false_trans (x y z : bool * string) :
  Py.tuple_ltb x y = false -> Py.tuple_ltb y z = false ->
  Py.tuple_ltb x z = false.
Proof.
  intros H1 H2. destruct (Py.tuple_ltb x z) eqn:E; [|reflexivity].
  destruct (Py.tuple_ltb y x) eqn:E'.
  - now rewrite (tuple_ltb_trans y x z E' E) in H2.
  - rewrite (tuple_ltb_trichotomy x y H1 E') in E. now rewrite E in H2.
Qed.

Lemma same_sort_key_not_less (e a b : Entry) :
  same_sort_key e a = true -> same_sort_key e b = true ->
  Py.tuple_ltb (sort_key a) (sort_key b) = false.
Proof.
  unfold same_sort_key, sort_key. intros Ha Hb.
  apply andb_true_iff in Ha as [Ha1 Ha2], Hb as [Hb1 Hb2].
  apply Bool.eqb_prop in Ha1, Hb1. apply String.eqb_eq in Ha2, Hb2.
  rewrite <- Ha1, <- Hb1, <- Ha2, <- Hb2. apply tuple_ltb_irrefl.
Qed.

End KeyOrder.

(** ** Order of the entries *)

Section ListingOrder.

Lemma sort_entries_stable (l : list Entry) :
  stable_rearrangement l (sort_entries l).
Proof.
  split; [apply sort_perm|]. intros e. unfold sort_entries.
  apply (filter_sort Py.tuple_ltb sort_key).
  intros a b. apply same_sort_key_not_less.
Qed.

Lemma sort_entries_sorted (l : list Entry) :
  StronglySorted
    (fun a b => Py.tuple_ltb (sort_key b) (sort_key a) = false)
    (sort_entries l).
Proof.
  apply (sort_sorted Py.tuple_ltb sort_key tuple_ltb_irrefl tuple_ltb_trans
           tuple_ltb_false_trans).
Qed.

Lemma sort_entries_dirs_first (l : list Entry) :
  dirs_before_files (sort_entries l).
Proof.
  intros i j a b Hij Ha Hb Hdir.
  pose proof (sorted_nth _ _ i j a b (sort_entries_sorted l) Hij Ha Hb) as H.
  unfold sort_key, Py.tuple_ltb in H. simpl in H. rewrite Hdir in H.
  destruct (is_dir a); [reflexivity|discriminate H].
Qed.

Lemma sort_entries_names (l : list Entry) :
  names_ascending (sort_entries l).
Proof.
  intros i j a b Hij Ha Hb Hsame.
  pose proof (sorted_nth _ _ i j a b (sort_entries_sorted l) Hij Ha Hb) as H.
  unfold sort_key, Py.tuple_ltb in H. simpl in H. rewrite Hsame in H.
  rewrite Bool.eqb_reflx in H.
  unfold String.ltb in H. unfold String.leb.
  rewrite (String.compare_antisym (name a) (name b)).
  destruct (String.compare (name b) (name a)); [reflexivity|discriminate H|reflexivity].
Qed.

(** C5: on every listing page, whichever route produced it, no file
    comes before a directory, the names of the directories and the
    names of the files go up in lexicographic order, and the page is a
    rearrangement of the entries as discovered (objects in the order of
    the listing, then common prefixes in theirs) in which entries with
    equal keys keep their discovery order. *)
Theorem listing_sorted_stable w request prefix_path t es p cs y :
  index w request = (t, Return (Listing es p cs y)) \/
  browse w prefix_path = (t, Return (Listing es p cs y)) ->
  dirs_before_files es /\ names_ascending es /\
  exists client response,
    get_s3_client w = ([], Return client) /\
    let bucket_name := environ w "R2_BUCKET_NAME" in
    (index w request = (t, Return (Listing es p cs y)) /\
     list_objects_v2 client bucket_name (if negb (p =? "") then Some p else None)
     = Return response /\
     stable_rearrangement
       (index_discovered w client bucket_name p response) es
     \/
     browse w prefix_path = (t, Return (Listing es p cs y)) /\
     list_objects_v2 client bucket_name (Some p) = Return response /\
     stable_rearrangement (browse_discovered p response) es).
Proof.
  intros [H|H].
  - pose proof H as H'.
    apply index_listing_inv in H' as (client & response & Hc & _ & Hl & -> & _).
    split; [apply sort_entries_dirs_first|].
    split; [apply sort_entries_names|].
    exists client, response. split; [exact Hc|]. left.
    split; [exact H|]. split; [exact Hl|]. apply sort_entries_stable.
  - pose proof H as H'.
    apply browse_listing_inv in H' as (client & response & Hc & _ & Hl & -> & _).
    split; [apply sort_entries_dirs_first|].
    split; [apply sort_entries_names|].
    exists client, response. split; [exact Hc|]. right.
    split; [exact H|]. split; [exact Hl|]. apply sort_entries_stable.
Qed.

Lemma listing_sorted_stable_witness :
  index Fixture.world (Fixture.query None)
  = ([ListObjectsV2 (Some "bucket") None],
     Return (Listing
               [dir_entry "" "a/"; dir_entry "" "photos/";
                mkEntry "a.txt" "a.txt" false (Some (Some 5%Z))
                  (Some "2024-05-17 12:00:00") None
                  (Some "https://r2.example/a.txt?X-Amz-Signature=0")
                  (Some "/file/a.txt")]
               "" [] 2024%Z)) /\
  dirs_before_files
    [dir_entry "" "a/"; dir_entry "" "photos/";
     mkEntry "a.txt" "a.txt" false (Some (Some 5%Z))
       (Some "2024-05-17 12:00:00") None
       (Some "https://r2.example/a.txt?X-Amz-Signature=0")
       (Some "/file/a.txt")].
Proof.
  assert (Hrun : index Fixture.world (Fixture.query None)
                 = ([ListObjectsV2 (Some "bucket") None],
                    Return (Listing
                      [dir_entry "" "a/"; dir_entry "" "photos/";
                       mkEntry "a.txt" "a.txt" false (Some (Some 5%Z))
                         (Some "2024-05-17 12:00:00") None
                         (Some "https://r2.example/a.txt?X-Amz-Signature=0")
                         (Some "/file/a.txt")]
                      "" [] 2024%Z))) by (vm_compute; reflexivity).
  split; [exact Hrun|].
  exact (proj1 (listing_sorted_stable Fixture.world (Fixture.query None) ""
                  _ _ _ _ _ (or_introl Hrun))).
Defined.

End ListingOrder.

(** ** Shape of the entries *)

Section EntryShape.

Lemma collect_Forall {A B} (body : A -> option B) (P : A -> Prop) (Q : B -> Prop)
      (l : list A) :
  (forall x y, P x -> body x = Some y -> Q y) ->
  Forall P l -> Forall Q (Py.collect body l).
Proof.
  intros Hbody Hl. induction Hl as [|x l Hx Hl IH]; simpl; [constructor|].
  destruct (body x) as [y|] eqn:E; [|exact IH].
  constructor; [now apply Hbody with x|exact IH].
Qed.

Lemma collect_map {A B} (body : A -> option B) (f : B -> B) (l : list A) :
  Py.collect (fun x => option_map f (body x)) l = map f (Py.collect body l).
Proof.
  induction l as [|x l IH]; simpl; [reflexivity|].
  destruct (body x); simpl; now rewrite IH.
Qed.







Lemma endswith_append (s t suffix : string) :
  PyStr.endswith t suffix = true -> PyStr.endswith (s ++ t) suffix = true.
Proof.
  intros H. induction s as [|a s IH]; [exact H|].
  change (String a s ++ t) with (String a (s ++ t)).
  cbn [PyStr.endswith]. rewrite IH. apply orb_true_r.
Qed.




End EntryShape.

(** ** Thumbnails *)

Section Thumbnails.

Lemma validator_nonempty (file_path : string) : (validator file_path =? "") = false.
Proof. reflexivity. Qed.

Lemma etag_of_cache_headers w file_path :
  Py.dict_get "ETag" (cache_headers w file_path) = Some (validator file_path).
Proof. reflexivity. Qed.

Lemma same_name_refl (k : string) : Py.same_name k k = true.
Proof. apply String.eqb_refl. Qed.

Lemma get_set_same (k v : string) (hs : list (string * string)) :
  Py.get_header k (Py.set_header k v hs) = Some v.
Proof.
  induction hs as [|[k' v'] hs IH]; cbn [Py.set_header].
  - cbn [Py.get_header]. now rewrite same_name_refl.
  - destruct (Py.same_name k' k) eqn:E; cbn [Py.get_header].
    + now rewrite same_name_refl.
    + now rewrite E.
Qed.

Lemma get_filter_other (k k' : string) (hs : list (string * string)) :
  Py.same_name k' k = false ->
  Py.get_header k (filter (fun kv => negb (Py.same_name (fst kv) k')) hs)
  = Py.get_header k hs.
Proof.
  intros Hkk. induction hs as [|[a b] hs IH]; [reflexivity|].
  cbn [filter fst]. destruct (Py.same_name a k') eqn:Ea; cbn [negb].
  - cbn [Py.get_header]. destruct (Py.same_name a k) eqn:Eak; [|exact IH].
    unfold Py.same_name in *.
    apply String.eqb_eq in Ea, Eak. rewrite <- Ea, Eak in Hkk.
    now rewrite String.eqb_refl in Hkk.
  - cbn [Py.get_header]. now rewrite IH.
Qed.

Lemma get_set_other (k k' v : string) (hs : list (string * string)) :
  Py.same_name k' k = false ->
  Py.get_header k (Py.set_header k' v hs) = Py.get_header k hs.
Proof.
  intros Hkk. induction hs as [|[a b] hs IH]; cbn [Py.set_header].
  - cbn [Py.get_header]. now rewrite Hkk.
  - destruct (Py.same_name a k') eqn:Ea; cbn [Py.get_header].
    + rewrite Hkk, get_filter_other by exact Hkk.
      destruct (Py.same_name a k) eqn:Eak; [|reflexivity].
      unfold Py.same_name in *.
      apply String.eqb_eq in Ea, Eak. rewrite <- Ea, Eak in Hkk.
      now rewrite String.eqb_refl in Hkk.
    + now rewrite IH.
Qed.

(** after [headers.update(cache_headers)] an answer carries the two cache
    headers, whatever it carried before *)
Lemma updated_headers (r : Response) w file_path :
  Py.get_header "ETag" (resp_headers (headers_update r (cache_headers w file_path)))
  = Some (validator file_path) /\
  Py.get_header "Cache-Control"
    (resp_headers (headers_update r (cache_headers w file_path)))
  = Some ("public, max-age=" ++ PyStr.str_of_Z (THUMB_TTL w)).
Proof.
  unfold headers_update, cache_headers. cbn [resp_headers fold_left fst snd].
  split; [apply get_set_same|].
  rewrite get_set_other by reflexivity. apply get_set_same.
Qed.

Lemma headers_update_fresh w file_path st mt body :
  headers_update {| status := st; mimetype_of := mt; resp_headers := [];
                    resp_body := body |} (cache_headers w file_path)
  = {| status := st; mimetype_of := mt;
       resp_headers := cache_headers w file_path; resp_body := body |}.
Proof. reflexivity. Qed.

Lemma placeholder_found w request file_path data :
  static_folder w "thumb_placeholder.svg" = Some data ->
  placeholder w request (cache_headers w file_path)
  = ([], placeholder_outcome w request file_path data).
Proof.
  intros H. unfold placeholder, send_file, placeholder_outcome. rewrite H.
  cbv beta iota delta [bind lift ret].
  now destruct (make_conditional w request (whole_file "image/svg+xml" data)).
Qed.

(** whether the request takes the fast path *)
Lemma fast_path_iff w request file_path :
  PyStr.truthy (headers request "If-None-Match") &&
  (Py.the (headers request "If-None-Match")
   =? Py.the (Py.dict_get "ETag" (cache_headers w file_path))) = true
  <-> headers request "If-None-Match" = Some (validator file_path).
Proof.
  rewrite etag_of_cache_headers. cbn [Py.the].
  destruct (headers request "If-None-Match") as [v|]; cbn [PyStr.truthy Py.the].
  - rewrite andb_true_iff, String.eqb_eq. split.
    + now intros [_ ->].
    + intros H. inversion H; subst. now rewrite validator_nonempty.
  - split; discriminate.
Qed.

Lemma thumb_pipeline w request file_path data :
  static_folder w "thumb_placeholder.svg" = Some data ->
  headers request "If-None-Match" <> Some (validator file_path) ->
  thumb w request file_path = pipeline_outcome w request file_path data.
Proof.
  intros Hasset Hmiss. unfold thumb.
  destruct (PyStr.truthy (headers request "If-None-Match") && _) eqn:Hfast.
  { apply fast_path_iff in Hfast. contradiction. }
  rewrite (placeholder_found w request file_path data Hasset).
  unfold pipeline_outcome.
  destruct (get_s3_client_cases w) as [[client Hc]|[msg Hc]]; rewrite Hc;
    cbv beta iota delta [bind try_except ret request_store lift].
  - destruct (get_object client (environ w "R2_BUCKET_NAME") file_path)
      as [obj|e]; cbv beta iota.
    + destruct (make_jpeg_thumbnail w (String.concat "" (Body obj)))
        as [thumb_bytes|e]; cbv beta iota; [reflexivity|].
      now destruct (placeholder_outcome w request file_path data).
    + now destruct (placeholder_outcome w request file_path data).
  - now destruct (placeholder_outcome w request file_path data).
Qed.

Lemma thumb_fast_path w request file_path :
  headers request "If-None-Match" = Some (validator file_path) ->
  thumb w request file_path = ([], Return (unchanged_response w file_path)).
Proof.
  intros Hhit. unfold thumb.
  destruct (PyStr.truthy (headers request "If-None-Match") && _) eqn:Hfast;
    [reflexivity|].
  apply (proj2 (fast_path_iff w request file_path)) in Hhit.
  rewrite Hhit in Hfast. discriminate.
Qed.

Lemma header_dec (a b : option string) : {a = b} + {a <> b}.
Proof. decide equality. apply string_dec. Qed.

Lemma placeholder_outcome_headers w request file_path data r :
  placeholder_outcome w request file_path data = Return r ->
  Py.get_header "ETag" (resp_headers r) = Some (validator file_path) /\
  Py.get_header "Cache-Control" (resp_headers r)
  = Some ("public, max-age=" ++ PyStr.str_of_Z (THUMB_TTL w)).
Proof.
  unfold placeholder_outcome.
  destruct (make_conditional w request (whole_file "image/svg+xml" data));
    [|discriminate].
  intros H. inversion H; subst. apply updated_headers.
Qed.

(** the two cache headers of an answer of [thumb] *)
Lemma thumb_answer_headers w request file_path t r :
  thumb w request file_path = (t, Return r) ->
  Py.get_header "ETag" (resp_headers r) = Some (validator file_path) /\
  Py.get_header "Cache-Control" (resp_headers r)
  = Some ("public, max-age=" ++ PyStr.str_of_Z (THUMB_TTL w)).
Proof.
  destruct (header_dec (headers request "If-None-Match")
              (Some (validator file_path))) as [Hhit|Hmiss].
  - rewrite (thumb_fast_path w request file_path Hhit).
    intros H. inversion H; subst. now split.
  - destruct (static_folder w "thumb_placeholder.svg") as [data|] eqn:Hasset.
    + rewrite (thumb_pipeline w request file_path data Hasset Hmiss).
      unfold pipeline_outcome.
      destruct (get_s3_client w) as [t0 [client|e]].
      * destruct (get_object client _ file_path) as [obj|e].
        -- destruct (make_jpeg_thumbnail w _).
           ++ intros H. inversion H; subst. now split.
           ++ intros H. inversion H as [[Ht Hr]].
              now apply placeholder_outcome_headers in Hr.
        -- intros H. inversion H as [[Ht Hr]].
           now apply placeholder_outcome_headers in Hr.
      * intros H. inversion H as [[Ht Hr]].
        now apply placeholder_outcome_headers in Hr.
    + unfold thumb, placeholder, send_file. rewrite Hasset.
      destruct (PyStr.truthy (headers request "If-None-Match") && _);
        [intros H; inversion H; subst; now split|].
      destruct (get_s3_client_cases w) as [[client Hc]|[msg Hc]]; rewrite Hc;
        cbv beta iota delta [bind try_except ret request_store lift raise];
        [|discriminate].
      destruct (get_object client (environ w "R2_BUCKET_NAME") file_path)
        as [obj|e]; cbv beta iota; [|discriminate].
      destruct (make_jpeg_thumbnail w (String.concat "" (Body obj)))
        as [thumb_bytes|e]; [|discriminate].
      intros H. inversion H; subst. now split.
Qed.

(** C4: the validator on every thumbnail answer is [validator key], a
    function of the key and of nothing else, whatever the world (the
    store's content, the clock) and the request; and a request whose
    [If-None-Match] is that validator is answered 304 with no body and
    without any request to the store. *)
Theorem thumb_validator_short_circuit :
  (forall w request file_path t r,
      thumb w request file_path = (t, Return r) ->
      Py.get_header "ETag" (resp_headers r) = Some (validator file_path)) /\
  (forall w request file_path,
      headers request "If-None-Match" = Some (validator file_path) ->
      thumb w request file_path = ([], Return (unchanged_response w file_path)) /\
      store_calls (thumb w request file_path) = [] /\
      http_status (thumb w request file_path) = 304%Z /\
      resp_body (unchanged_response w file_path) = []).
Proof.
  split.
  - intros w request file_path t r H.
    exact (proj1 (thumb_answer_headers _ _ _ _ _ H)).
  - intros w request file_path Hhit.
    rewrite (thumb_fast_path w request file_path Hhit). now repeat split.
Qed.

Lemma thumb_validator_short_circuit_witness :
  headers (Fixture.conditional (validator "photos/cat.png")) "If-None-Match"
  = Some (validator "photos/cat.png") /\
  thumb Fixture.world (Fixture.conditional (validator "photos/cat.png"))
    "photos/cat.png"
  = ([], Return (unchanged_response Fixture.world "photos/cat.png")).
Proof.
  assert (Hhit : headers (Fixture.conditional (validator "photos/cat.png"))
                   "If-None-Match" = Some (validator "photos/cat.png"))
    by reflexivity.
  split; [exact Hhit|].
  exact (proj1 (proj2 thumb_validator_short_circuit Fixture.world
                  (Fixture.conditional (validator "photos/cat.png"))
                  "photos/cat.png" Hhit)).
Defined.

(** C3, as the code has it: with the placeholder asset in the static
    folder, whenever the pipeline fails for the key (no client, no
    object or any other fetch failure, bytes that do not decode) a
    request that does not take the fast path is answered with what
    [send_file] makes of the asset for that request, under the cache
    headers: the placeholder itself, 200 with the asset's bytes,
    whenever the conditional handling leaves the full answer as it is,
    and otherwise its conditional answer.  Nothing of the pipeline's
    own failure reaches the caller; only an exception of the
    conditional handling does.  Every answer of the route for the key,
    a successful thumbnail included, carries the same [Cache-Control]
    and [ETag]. *)
Theorem thumb_failures_absorbed w request file_path data :
  static_folder w "thumb_placeholder.svg" = Some data ->
  thumb_failure w file_path ->
  headers request "If-None-Match" <> Some (validator file_path) ->
  (exists t, thumb w request file_path
             = (t, placeholder_outcome w request file_path data)) /\
  (make_conditional w request (whole_file "image/svg+xml" data)
   = Return (whole_file "image/svg+xml" data) ->
   exists t, thumb w request file_path
             = (t, Return (placeholder_response w file_path data)) /\
             http_status (thumb w request file_path) = 200%Z) /\
  (forall e, make_conditional w request (whole_file "image/svg+xml" data)
             = Raise e <->
             snd (thumb w request file_path) = Raise e) /\
  (forall w' request' t r,
      THUMB_TTL w' = THUMB_TTL w ->
      thumb w' request' file_path = (t, Return r) ->
      Py.get_header "ETag" (resp_headers r)
      = Py.get_header "ETag" (cache_headers w file_path) /\
      Py.get_header "Cache-Control" (resp_headers r)
      = Py.get_header "Cache-Control" (cache_headers w file_path)).
Proof.
  intros Hasset Hfail Hmiss.
  assert (Hrun : exists t, thumb w request file_path
                           = (t, placeholder_outcome w request file_path data)).
  { rewrite (thumb_pipeline w request file_path data Hasset Hmiss).
    unfold pipeline_outcome.
    destruct Hfail as [e Hc|client e Hc Hg|client obj e Hc Hg Hd]; rewrite Hc.
    - eexists. reflexivity.
    - rewrite Hg. eexists. reflexivity.
    - rewrite Hg, Hd. eexists. reflexivity. }
  destruct Hrun as (t & Hrun).
  split; [now exists t|]. split; [|split].
  - intros Hwhole. exists t. rewrite Hrun. unfold placeholder_outcome.
    rewrite Hwhole. unfold whole_file. rewrite headers_update_fresh.
    split; reflexivity.
  - intros e. rewrite Hrun. cbn [snd]. unfold placeholder_outcome.
    destruct (make_conditional w request (whole_file "image/svg+xml" data));
      split; intros H; try discriminate H; exact H.
  - intros w' request' t' r Httl H.
    apply thumb_answer_headers in H as [He Hc]. rewrite He, Hc, Httl.
    split; reflexivity.
Qed.

Lemma thumb_failures_absorbed_witness :
  static_folder Fixture.world "thumb_placeholder.svg" = Some "<svg/>" /\
  thumb_failure Fixture.world "photos/corrupt.jpg" /\
  headers (Fixture.query None) "If-None-Match"
  <> Some (validator "photos/corrupt.jpg") /\
  make_conditional Fixture.world (Fixture.query None)
    (whole_file "image/svg+xml" "<svg/>")
  = Return (whole_file "image/svg+xml" "<svg/>") /\
  exists t,
    thumb Fixture.world (Fixture.query None) "photos/corrupt.jpg"
    = (t, Return (placeholder_response Fixture.world "photos/corrupt.jpg" "<svg/>")) /\
    http_status (thumb Fixture.world (Fixture.query None) "photos/corrupt.jpg")
    = 200%Z.
Proof.
  assert (Hasset : static_folder Fixture.world "thumb_placeholder.svg"
                   = Some "<svg/>") by reflexivity.
  assert (Hfail : thumb_failure Fixture.world "photos/corrupt.jpg").
  { apply decode_failure
      with (client := Fixture.client Fixture.objects)
           (obj := mkGetResponse "image/jpeg" 7 ["garbage"])
           (e := OtherException "cannot identify image file"); reflexivity. }
  assert (Hmiss : headers (Fixture.query None) "If-None-Match"
                  <> Some (validator "photos/corrupt.jpg")) by discriminate.
  assert (Hwhole : make_conditional Fixture.world (Fixture.query None)
                     (whole_file "image/svg+xml" "<svg/>")
                   = Return (whole_file "image/svg+xml" "<svg/>")) by reflexivity.
  split; [exact Hasset|]. split; [exact Hfail|]. split; [exact Hmiss|].
  split; [exact Hwhole|].
  exact (proj1 (proj2 (thumb_failures_absorbed Fixture.world (Fixture.query None)
                         "photos/corrupt.jpg" "<svg/>" Hasset Hfail Hmiss))
           Hwhole).
Defined.

(** C3 fails as stated: the key [missing.png] is not in the store, the
    asset is in place, and the request carries [If-None-Match: *], which
    is not the validator of the key; the fetch fails, [send_file]
    answers the conditional request with 304, and that, not the
    placeholder with 200, is the answer of the route. *)
Lemma thumb_placeholder_counterexample :
  static_folder Fixture.world "thumb_placeholder.svg" = Some "<svg/>" /\
  thumb_failure Fixture.world "missing.png" /\
  headers (Fixture.conditional "*") "If-None-Match"
  <> Some (validator "missing.png") /\
  http_status (thumb Fixture.world (Fixture.conditional "*") "missing.png")
  = 304%Z /\
  snd (thumb Fixture.world (Fixture.conditional "*") "missing.png")
  <> Return (placeholder_response Fixture.world "missing.png" "<svg/>").
Proof.
  split; [reflexivity|]. split.
  { apply fetch_failure
      with (client := Fixture.client Fixture.objects)
           (e := ClientError "NoSuchKey" "The specified key does not exist.");
      reflexivity. }
  split; [discriminate|]. split; [vm_compute; reflexivity|].
  vm_compute. discriminate.
Qed.

End Thumbnails.

(** ** The file proxy *)

Section FileProxy.

(** the answers [serve_file] can give: 200 with the object, or 500 *)
Lemma serve_file_outcomes w file_path :
  (exists t r, serve_file w file_path = (t, Return r) /\ status r = 200%Z) \/
  (exists t, serve_file w file_path = (t, Raise (HTTPException 500))).
Proof.
  unfold serve_file.
  destruct (get_s3_client_cases w) as [[client Hc]|[msg Hc]]; rewrite Hc;
    cbv beta iota delta [bind try_except try_except_ClientError ret
                           request_store abort raise];
    [|right; eexists; reflexivity].
  destruct (head_object client (environ w "R2_BUCKET_NAME") file_path)
    as [[]|[msg|code msg|code|msg]]; cbv beta iota;
    try (right; eexists; reflexivity).
  - destruct (get_object client (environ w "R2_BUCKET_NAME") file_path)
      as [file_obj|e]; cbv beta iota.
    + left. do 2 eexists. split; reflexivity.
    + right. eexists. reflexivity.
  - destruct (code =? "404"); cbv beta iota; right; eexists; reflexivity.
Qed.

(** whatever the store answers, the route never answers 404 *)
Lemma serve_file_never_404 w file_path :
  http_status (serve_file w file_path) <> 404%Z.
Proof.
  destruct (serve_file_outcomes w file_path) as [(t & r & -> & Hr)|(t & ->)];
    unfold http_status; cbn [snd]; [rewrite Hr|]; discriminate.
Qed.

(** the not-found answer of the probe ends as a 500 *)
Lemma serve_file_probe_not_found w client file_path msg :
  get_s3_client w = ([], Return client) ->
  head_object client (environ w "R2_BUCKET_NAME") file_path
  = Raise (ClientError "404" msg) ->
  serve_file w file_path
  = ([HeadObject (environ w "R2_BUCKET_NAME") file_path],
     Raise (HTTPException 500)).
Proof.
  intros Hc Hh. unfold serve_file. rewrite Hc.
  cbv beta iota delta [bind try_except try_except_ClientError ret
                         request_store abort raise].
  rewrite Hh. reflexivity.
Qed.

(** C2, at a key the store does not hold: the probe reports not found,
    [abort(404)] raises inside the outer [try], the outer handler turns
    it into [abort(500)], and the client receives 500, the answer
    given for any other probe failure. *)
Theorem serve_file_missing_key_answers_500 :
  Fixture.find Fixture.objects "missing.png" = None /\
  head_object (Fixture.client Fixture.objects) (Some "bucket") "missing.png"
  = Raise (ClientError "404" "Not Found") /\
  serve_file Fixture.world "missing.png"
  = ([HeadObject (Some "bucket") "missing.png"], Raise (HTTPException 500)) /\
  http_status (serve_file Fixture.world "missing.png") = 500%Z.
Proof. repeat split. Qed.

End FileProxy.

(** ** Missing configuration *)

Section Configuration.

Lemma truthy_or_else_same (a : option string) :
  PyStr.truthy (Py.or_else a a) = PyStr.truthy a.
Proof. unfold Py.or_else. now destruct (PyStr.truthy a) eqn:E. Qed.

Lemma get_s3_client_unconfigured w :
  config_missing w ->
  get_s3_client w = ([], Raise (RuntimeError (config_error w))).
Proof.
  intros Hmiss. unfold get_s3_client, config_error.
  rewrite !truthy_or_else_same.
  destruct (PyStr.truthy (environ w "R2_ENDPOINT_URL")) eqn:He; cbn [negb];
    [|reflexivity].
  destruct Hmiss as [H|[H|H]]; [congruence|now rewrite H|].
  rewrite H. now rewrite orb_true_r.
Qed.

Lemma placeholder_silent w request hs : fst (placeholder w request hs) = [].
Proof.
  unfold placeholder, send_file.
  destruct (static_folder w "thumb_placeholder.svg") as [data|];
    [|reflexivity].
  cbv beta iota delta [bind lift ret].
  now destruct (make_conditional w request (whole_file "image/svg+xml" data)).
Qed.

Lemma thumb_unconfigured w request file_path :
  config_missing w ->
  headers request "If-None-Match" <> Some (validator file_path) ->
  thumb w request file_path = placeholder w request (cache_headers w file_path).
Proof.
  intros Hmiss Hnot. unfold thumb.
  destruct (PyStr.truthy (headers request "If-None-Match") && _) eqn:Hfast.
  { apply fast_path_iff in Hfast. contradiction. }
  rewrite (get_s3_client_unconfigured w Hmiss).
  cbv beta iota delta [bind try_except].
  now destruct (placeholder w request (cache_headers w file_path)).
Qed.

(** C8, as the code has it: loading the module reads nothing but
    [THUMB_TTL_SECONDS], so its outcome does not depend on the store's
    configuration; a missing endpoint or credential is met during
    request handling, each time a handler builds the client and before
    any request to the store: the listing routes render the page with
    the message inline and the file route answers 500.  The thumbnail
    route answers a request whose [If-None-Match] is the key's
    validator with 304 before the configuration is read; any other
    request it answers, with no request to the store, as it answers
    every failure of the pipeline: with what [send_file] makes of the
    placeholder asset for that request, which is the placeholder, 200,
    whenever the conditional handling leaves the full answer as it
    is. *)
Theorem missing_config_surfaces_per_request w :
  config_missing w ->
  (forall environ',
      environ' "THUMB_TTL_SECONDS" = environ w "THUMB_TTL_SECONDS" ->
      load_module environ' = load_module (environ w)) /\
  (forall request,
      index w request
      = ([], Return (ErrorPage (config_error w) (current_year w)))) /\
  (forall prefix_path,
      browse w prefix_path
      = ([], Return (ErrorPage (config_error w) (current_year w)))) /\
  (forall file_path,
      serve_file w file_path = ([], Raise (HTTPException 500)) /\
      http_status (serve_file w file_path) = 500%Z) /\
  (forall request file_path,
      headers request "If-None-Match" = Some (validator file_path) ->
      thumb w request file_path
      = ([], Return (unchanged_response w file_path)) /\
      http_status (thumb w request file_path) = 304%Z) /\
  (forall request file_path,
      headers request "If-None-Match" <> Some (validator file_path) ->
      thumb w request file_path
      = placeholder w request (cache_headers w file_path) /\
      store_calls (thumb w request file_path) = []) /\
  (forall request file_path data,
      static_folder w "thumb_placeholder.svg" = Some data ->
      headers request "If-None-Match" <> Some (validator file_path) ->
      thumb w request file_path
      = ([], placeholder_outcome w request file_path data) /\
      (make_conditional w request (whole_file "image/svg+xml" data)
       = Return (whole_file "image/svg+xml" data) ->
       thumb w request file_path
       = ([], Return (placeholder_response w file_path data)))).
Proof.
  intros Hmiss. pose proof (get_s3_client_unconfigured w Hmiss) as Hc.
  split; [|split; [|split; [|split; [|split; [|split]]]]].
  - intros environ' H. unfold load_module, Py.get. now rewrite H.
  - intros request. unfold index. rewrite Hc. reflexivity.
  - intros prefix_path. unfold browse. rewrite Hc. reflexivity.
  - intros file_path. unfold serve_file. rewrite Hc. split; reflexivity.
  - intros request file_path Hhit.
    rewrite (thumb_fast_path w request file_path Hhit). split; reflexivity.
  - intros request file_path Hnot.
    rewrite (thumb_unconfigured w request file_path Hmiss Hnot).
    split; [reflexivity|]. apply placeholder_silent.
  - intros request file_path data Hasset Hnot.
    rewrite (thumb_pipeline w request file_path data Hasset Hnot).
    unfold pipeline_outcome. rewrite Hc. split; [reflexivity|].
    intros Hwhole. unfold placeholder_outcome. rewrite Hwhole.
    unfold whole_file. now rewrite headers_update_fresh.
Qed.

Lemma missing_config_surfaces_per_request_witness :
  config_missing Fixture.unconfigured /\
  index Fixture.unconfigured (Fixture.query (Some "photos"))
  = ([], Return (ErrorPage "R2_ENDPOINT_URL environment variable is not set"
                   2024%Z)).
Proof.
  assert (Hmiss : config_missing Fixture.unconfigured) by (left; reflexivity).
  split; [exact Hmiss|].
  exact (proj1 (proj2 (missing_config_surfaces_per_request
                         Fixture.unconfigured Hmiss))
           (Fixture.query (Some "photos"))).
Defined.

(** C8 fails as stated: with nothing configured the module loads (the
    absence is not fatal at startup), and the request to the root
    route is answered with the error of the missing endpoint. *)
Lemma missing_config_counterexample :
  config_missing Fixture.unconfigured /\
  load_module (environ Fixture.unconfigured) = Return 3600%Z /\
  index Fixture.unconfigured (Fixture.query None)
  = ([], Return (ErrorPage "R2_ENDPOINT_URL environment variable is not set"
                   2024%Z)) /\
  http_status (serve_file Fixture.unconfigured "a.txt") = 500%Z.
Proof. split; [left; reflexivity|]. repeat split. Qed.

End Configuration.

(** ** The two listing routes *)

Section Routes.

Lemma collect_ext {A B} (f g : A -> option B) (l : list A) :
  (forall x, f x = g x) -> Py.collect f l = Py.collect g l.
Proof.
  intros H. induction l as [|x l IH]; simpl; [reflexivity|].
  now rewrite H, IH.
Qed.

Lemma browse_file_entry_strips w client bucket prefix obj :
  browse_file_entry prefix obj
  = option_map without_direct_urls
      (index_file_entry w client bucket prefix obj).
Proof.
  unfold browse_file_entry, index_file_entry.
  destruct (negb (prefix =? "") && _); [reflexivity|].
  destruct (PyStr.endswith _ "/"); reflexivity.
Qed.

Lemma browse_discovered_strips w client bucket prefix response :
  browse_discovered prefix response
  = map without_direct_urls
      (index_discovered w client bucket prefix response).
Proof.
  unfold browse_discovered, index_discovered.
  assert (Hfiles : forall objs,
             Py.collect (browse_file_entry prefix) objs
             = map without_direct_urls
                 (Py.collect (index_file_entry w client bucket prefix) objs)).
  { intros objs. rewrite <- collect_map. apply collect_ext.
    intros obj. apply browse_file_entry_strips. }
  assert (Hdirs : forall prefs,
             map (dir_entry prefix) prefs
             = map without_direct_urls (map (dir_entry prefix) prefs)).
  { intros prefs. rewrite map_map. now apply map_ext. }
  destruct (Contents response) as [objs|], (CommonPrefixes response) as [prefs|];
    rewrite ?map_app, <- ?Hfiles, <- ?Hdirs; reflexivity.
Qed.

Lemma sort_entries_strips (l : list Entry) :
  sort_entries (map without_direct_urls l)
  = map without_direct_urls (sort_entries l).
Proof. apply sort_map. reflexivity. Qed.

Lemma with_trailing_slash_nonempty (s : string) :
  s <> "" -> (with_trailing_slash s =? "") = false.
Proof.
  intros Hs. unfold with_trailing_slash.
  destruct (String.eqb_spec s ""); [contradiction|]. cbn [negb andb].
  destruct (PyStr.endswith s "/"); cbn [negb].
  - now apply String.eqb_neq.
  - destruct s; [contradiction|reflexivity].
Qed.

(** what the two routes share: for a non-empty prefix the pretty route
    sends the store the same request as the query route and answers
    the same page, except that none of its entries carries
    [public_url] or [presigned_url] *)
Lemma browse_is_index_without_direct_urls w request p :
  args request "prefix" = Some p -> p <> "" ->
  browse w p
  = (fst (index w request),
     outcome_map page_without_direct_urls (snd (index w request))).
Proof.
  intros Harg Hp. unfold browse, index.
  assert (Hq : Py.the (Py.or_else (Some (Py.get (args request) "prefix" ""))
                         (Some "")) = p).
  { unfold Py.get. rewrite Harg. unfold Py.or_else, PyStr.truthy.
    destruct (String.eqb_spec p ""); [contradiction|reflexivity]. }
  assert (Hb : Py.the (Py.or_else (Some p) (Some "")) = p).
  { unfold Py.or_else, PyStr.truthy.
    destruct (String.eqb_spec p ""); [contradiction|reflexivity]. }
  rewrite Hq, Hb, (with_trailing_slash_nonempty p Hp). cbn [negb].
  destruct (get_s3_client_cases w) as [[client Hc]|[msg Hc]]; rewrite Hc;
    cbv beta iota delta [bind try_except ret request_store];
    [|reflexivity].
  destruct (list_objects_v2 client (environ w "R2_BUCKET_NAME")
              (Some (with_trailing_slash p))) as [response|e];
    cbv beta iota; [|reflexivity].
  cbn [fst snd outcome_map page_without_direct_urls].
  now rewrite (browse_discovered_strips w client (environ w "R2_BUCKET_NAME")),
    sort_entries_strips.
Qed.

(** C1, at the prefix [photos/] of a store that signs its URLs: the
    two routes send the same listing request and answer the same
    prefix and the same breadcrumbs, but the entries differ: the query
    route gives each file a [presigned_url], the pretty route gives
    none. *)
Theorem pretty_route_omits_direct_urls :
  exists t es_query es_pretty cs y,
    index Fixture.world (Fixture.query (Some "photos/"))
    = (t, Return (Listing es_query "photos/" cs y)) /\
    browse Fixture.world "photos/"
    = (t, Return (Listing es_pretty "photos/" cs y)) /\
    map presigned_url es_query
    = [None;
       Some "https://r2.example/photos/cat.png?X-Amz-Signature=0";
       Some "https://r2.example/photos/corrupt.jpg?X-Amz-Signature=0"] /\
    map presigned_url es_pretty = [None; None; None] /\
    es_query <> es_pretty /\
    es_pretty = map without_direct_urls es_query.
Proof.
  do 5 eexists. split; [vm_compute; reflexivity|].
  split; [vm_compute; reflexivity|].
  split; [reflexivity|]. split; [reflexivity|].
  split; [discriminate|reflexivity].
Qed.

End Routes.


(** * Further properties of the code *)

(** ** Public links *)

Section PublicLinks.

Lemma rstrip_append_slash (s : string) :
  PyStr.rstrip (s ++ "/") "/" = PyStr.rstrip s "/".
Proof.
  induction s as [|a s IH]; [reflexivity|].
  change (String a s ++ "/") with (String a (s ++ "/")).
  cbn [PyStr.rstrip]. now rewrite IH.
Qed.

(** X1: [get_public_url] answers [None] exactly when no base is configured;
    otherwise the link is a stem that does not end with a slash, one
    slash and the key, and a base written with one more trailing slash
    gives the same link. *)
Theorem public_url_shape :
  (forall w key,
      get_public_url w key = None <->
      PyStr.truthy (environ w "R2_PUBLIC_URL") = false) /\
  (forall w key url,
      get_public_url w key = Some url ->
      exists stem, url = stem ++ "/" ++ key /\
                   PyStr.endswith stem "/" = false /\
                   PyStr.truthy (Some url) = true) /\
  (forall w w' base key,
      base <> "" ->
      environ w "R2_PUBLIC_URL" = Some base ->
      environ w' "R2_PUBLIC_URL" = Some (base ++ "/") ->
      get_public_url w' key = get_public_url w key).
Proof.
  split; [|split].
  - intros w key. unfold get_public_url.
    destruct (PyStr.truthy (environ w "R2_PUBLIC_URL")); cbn [negb];
      split; intros H; try reflexivity; discriminate H.
  - intros w key url. unfold get_public_url.
    destruct (PyStr.truthy (environ w "R2_PUBLIC_URL")); cbn [negb];
      [|discriminate].
    intros H. inversion H; subst; clear H.
    exists (PyStr.rstrip (Py.the (environ w "R2_PUBLIC_URL")) "/").
    split; [reflexivity|]. split; [apply rstrip_not_endswith|].
    cbn [PyStr.truthy].
    destruct (PyStr.rstrip (Py.the (environ w "R2_PUBLIC_URL")) "/"); reflexivity.
  - intros w w' base key Hne Hw Hw'. unfold get_public_url.
    rewrite Hw, Hw'. cbn [PyStr.truthy Py.the].
    destruct base as [|a base]; [contradiction|].
    cbn [append String.eqb negb].
    change (String a (base ++ "/")) with (String a base ++ "/").
    now rewrite rstrip_append_slash.
Qed.

Lemma public_url_shape_witness :
  "https://cdn.example" <> "" /\
  get_public_url (public_world "https://cdn.example/") "photos/cat.png"
  = Some "https://cdn.example/photos/cat.png".
Proof.
  assert (Hne : "https://cdn.example" <> "") by discriminate.
  split; [exact Hne|].
  exact (eq_trans
           (proj2 (proj2 public_url_shape)
              (public_world "https://cdn.example")
              (public_world "https://cdn.example/")
              "https://cdn.example" "photos/cat.png" Hne eq_refl eq_refl)
           eq_refl).
Defined.

End PublicLinks.

(** ** The listing routes as a whole *)

Section ListingRoutes.

Lemma index_by_prefix w request :
  index w request
  = try_except
      (s3_client <- get_s3_client w ;;
       response <- request_store
                     (ListObjectsV2 (environ w "R2_BUCKET_NAME") (index_query request))
                     (list_objects_v2 s3_client (environ w "R2_BUCKET_NAME")
                        (index_query request)) ;;
       ret (Listing
              (sort_entries
                 (index_discovered w s3_client (environ w "R2_BUCKET_NAME")
                    (index_prefix request) response))
              (index_prefix request) (make_crumbs (index_prefix request))
              (current_year w)))
      (fun e => ret (ErrorPage (str_of_exn e) (current_year w))).
Proof. reflexivity. Qed.

Lemma or_empty (s : string) : Py.the (Py.or_else (Some s) (Some "")) = s.
Proof. now destruct s. Qed.

Lemma browse_by_prefix w prefix_path :
  browse w prefix_path
  = try_except
      (s3_client <- get_s3_client w ;;
       response <- request_store
                     (ListObjectsV2 (environ w "R2_BUCKET_NAME")
                        (Some (with_trailing_slash prefix_path)))
                     (list_objects_v2 s3_client (environ w "R2_BUCKET_NAME")
                        (Some (with_trailing_slash prefix_path))) ;;
       ret (Listing
              (sort_entries
                 (browse_discovered (with_trailing_slash prefix_path) response))
              (with_trailing_slash prefix_path)
              (make_crumbs (with_trailing_slash prefix_path))
              (current_year w)))
      (fun e => ret (ErrorPage (str_of_exn e) (current_year w))).
Proof. unfold browse. now rewrite or_empty. Qed.

(** X2: Neither listing route ever raises: each answers a page, and sends
    the store nothing (when no client can be built) or exactly one
    request, the delimited listing of the normalized prefix. *)
Theorem listing_routes_always_render w request prefix_path :
  (exists page, snd (index w request) = Return page) /\
  (store_calls (index w request) = [] \/
   store_calls (index w request)
   = [ListObjectsV2 (environ w "R2_BUCKET_NAME") (index_query request)]) /\
  (exists page, snd (browse w prefix_path) = Return page) /\
  (store_calls (browse w prefix_path) = [] \/
   store_calls (browse w prefix_path)
   = [ListObjectsV2 (environ w "R2_BUCKET_NAME")
        (Some (with_trailing_slash prefix_path))]).
Proof.
  rewrite index_by_prefix, browse_by_prefix.
  destruct (get_s3_client_cases w) as [[client Hc]|[msg Hc]]; rewrite Hc;
    cbv beta iota delta [bind try_except ret request_store store_calls fst snd].
  - destruct (list_objects_v2 client _ (index_query request)),
             (list_objects_v2 client _ (Some (with_trailing_slash prefix_path)));
      cbv beta iota; repeat split; eauto.
  - repeat split; eauto.
Qed.

(** X3: When the store fails the listing request, either route answers the
    error page carrying the text of the exception, after that single
    request. *)
Theorem listing_failure_rendered_inline w client e request prefix_path :
  get_s3_client w = ([], Return client) ->
  (list_objects_v2 client (environ w "R2_BUCKET_NAME") (index_query request)
   = Raise e ->
   index w request
   = ([ListObjectsV2 (environ w "R2_BUCKET_NAME") (index_query request)],
      Return (ErrorPage (str_of_exn e) (current_year w)))) /\
  (list_objects_v2 client (environ w "R2_BUCKET_NAME")
     (Some (with_trailing_slash prefix_path)) = Raise e ->
   browse w prefix_path
   = ([ListObjectsV2 (environ w "R2_BUCKET_NAME")
         (Some (with_trailing_slash prefix_path))],
      Return (ErrorPage (str_of_exn e) (current_year w)))).
Proof.
  intros Hc. rewrite index_by_prefix, browse_by_prefix, Hc.
  cbv beta iota delta [bind try_except ret request_store].
  split; intros ->; reflexivity.
Qed.

Lemma listing_failure_rendered_inline_witness :
  get_s3_client offline_world = ([], Return offline_client) /\
  list_objects_v2 offline_client (Some "bucket") (Some "photos/")
  = Raise (OtherException "Could not connect to the endpoint URL") /\
  browse offline_world "photos"
  = ([ListObjectsV2 (Some "bucket") (Some "photos/")],
     Return (ErrorPage "Could not connect to the endpoint URL" 2024%Z)).
Proof.
  assert (Hc : get_s3_client offline_world = ([], Return offline_client))
    by reflexivity.
  assert (Hl : list_objects_v2 offline_client (Some "bucket") (Some "photos/")
               = Raise (OtherException "Could not connect to the endpoint URL"))
    by reflexivity.
  split; [exact Hc|]. split; [exact Hl|].
  exact (proj2 (listing_failure_rendered_inline offline_world offline_client
                  (OtherException "Could not connect to the endpoint URL")
                  (Fixture.query None) "photos" Hc) Hl).
Defined.

Lemma with_trailing_slash_idem (s : string) :
  with_trailing_slash (with_trailing_slash s) = with_trailing_slash s.
Proof.
  destruct (with_trailing_slash_normalized s) as [H|H].
  - now rewrite H.
  - unfold with_trailing_slash at 1. rewrite H. cbn [negb].
    now rewrite andb_false_r.
Qed.

(** X4: Writing the final slash of a prefix or leaving it out makes no
    difference: the pretty route answers the same for a path and for the
    path with its trailing slash, and the query route answers the same
    for two requests whose [prefix] arguments differ that way. *)
Theorem routes_ignore_final_slash w :
  (forall prefix_path,
      browse w (with_trailing_slash prefix_path) = browse w prefix_path) /\
  (forall request request' p,
      args request "prefix" = Some p ->
      args request' "prefix" = Some (with_trailing_slash p) ->
      index w request' = index w request).
Proof.
  split.
  - intros prefix_path. now rewrite !browse_by_prefix, with_trailing_slash_idem.
  - intros request request' p Hp Hp'.
    assert (E : index_prefix request' = index_prefix request).
    { unfold index_prefix, Py.get. rewrite Hp, Hp', !or_empty.
      apply with_trailing_slash_idem. }
    rewrite !index_by_prefix. unfold index_query. now rewrite E.
Qed.

Lemma routes_ignore_final_slash_witness :
  args (Fixture.query (Some "photos")) "prefix" = Some "photos" /\
  args (Fixture.query (Some "photos/")) "prefix"
  = Some (with_trailing_slash "photos") /\
  index Fixture.world (Fixture.query (Some "photos/"))
  = index Fixture.world (Fixture.query (Some "photos")).
Proof.
  assert (H1 : args (Fixture.query (Some "photos")) "prefix" = Some "photos")
    by reflexivity.
  assert (H2 : args (Fixture.query (Some "photos/")) "prefix"
               = Some (with_trailing_slash "photos")) by reflexivity.
  split; [exact H1|]. split; [exact H2|].
  exact (proj2 (routes_ignore_final_slash Fixture.world) _ _ _ H1 H2).
Defined.

End ListingRoutes.

(** ** The file proxy as a whole *)

Section FileProxyAnswers.

(** X5: [serve_file] has two outcomes only.  Either the client is built and
    both the probe and the fetch succeed: then the answer is 200 with
    the type, the length and the chunks the fetch reported, after
    exactly those two requests.  Or the route answers 500. *)
Theorem serve_file_answers w file_path :
  (exists client file_obj,
      get_s3_client w = ([], Return client) /\
      head_object client (environ w "R2_BUCKET_NAME") file_path = Return tt /\
      get_object client (environ w "R2_BUCKET_NAME") file_path = Return file_obj /\
      serve_file w file_path
      = ([HeadObject (environ w "R2_BUCKET_NAME") file_path;
          GetObject (environ w "R2_BUCKET_NAME") file_path],
         Return {| status := 200; mimetype_of := None;
                   resp_headers :=
                     [("Content-Type", ContentType file_obj);
                      ("Content-Length", PyStr.str_of_Z (ContentLength file_obj))];
                   resp_body := Body file_obj |})) \/
  (snd (serve_file w file_path) = Raise (HTTPException 500) /\
   http_status (serve_file w file_path) = 500%Z /\
   forall client file_obj,
     get_s3_client w = ([], Return client) ->
     head_object client (environ w "R2_BUCKET_NAME") file_path = Return tt ->
     get_object client (environ w "R2_BUCKET_NAME") file_path = Return file_obj ->
     False).
Proof.
  unfold serve_file.
  destruct (get_s3_client_cases w) as [[client Hc]|[msg Hc]]; rewrite Hc;
    cbv beta iota delta [bind try_except try_except_ClientError ret
                           request_store abort raise].
  2: { right. repeat split. intros c o Hc'. discriminate Hc'. }
  destruct (head_object client (environ w "R2_BUCKET_NAME") file_path)
    as [[]|e] eqn:Hh; cbv beta iota.
  - destruct (get_object client (environ w "R2_BUCKET_NAME") file_path)
      as [file_obj|e] eqn:Hg; cbv beta iota.
    + left. exists client, file_obj. now repeat split.
    + right. repeat split. intros c o Hc' _ Hg'.
      inversion Hc'; subst. rewrite Hg in Hg'. discriminate Hg'.
  - right.
    assert (Hno : forall c (o : GetResponse),
               ([] : list StoreCall, Return client) = ([], Return c) ->
               head_object c (environ w "R2_BUCKET_NAME") file_path = Return tt ->
               False).
    { intros c o Hc' Hh'. inversion Hc'; subst. rewrite Hh in Hh'. discriminate. }
    destruct e as [msg|code msg|code|msg]; cbv beta iota;
      try (repeat split; intros c o Hc' Hh' _; exact (Hno c o Hc' Hh')).
    destruct (code =? "404"); cbv beta iota;
      repeat split; intros c o Hc' Hh' _; exact (Hno c o Hc' Hh').
Qed.

End FileProxyAnswers.

(** ** The thumbnail route as a whole *)

Section ThumbnailRoute.

(** the route outside the fast path, whatever the static folder holds *)
Lemma thumb_slow_path w request file_path :
  headers request "If-None-Match" <> Some (validator file_path) ->
  thumb w request file_path
  = try_except
      (s3 <- get_s3_client w ;;
       fetched <- try_except
                    (obj <- request_store
                              (GetObject (environ w "R2_BUCKET_NAME") file_path)
                              (get_object s3 (environ w "R2_BUCKET_NAME") file_path) ;;
                     ret (inl (String.concat "" (Body obj))))
                    (fun _ => response <- placeholder w request (cache_headers w file_path) ;;
                              ret (inr response)) ;;
       match fetched with
       | inr response => ret response
       | inl data =>
           try_except
             (thumb_bytes <- lift (make_jpeg_thumbnail w data) ;;
              ret (headers_update
                     {| status := 200; mimetype_of := Some "image/jpeg";
                        resp_headers := []; resp_body := [thumb_bytes] |}
                     (cache_headers w file_path)))
             (fun _ => placeholder w request (cache_headers w file_path))
       end)
      (fun _ => placeholder w request (cache_headers w file_path)).
Proof.
  intros Hmiss. unfold thumb.
  destruct (PyStr.truthy (headers request "If-None-Match") && _) eqn:Hfast;
    [|reflexivity].
  apply fast_path_iff in Hfast. contradiction.
Qed.

Lemma placeholder_missing w request hs :
  static_folder w "thumb_placeholder.svg" = None ->
  placeholder w request hs = ([], Raise (OtherException "FileNotFoundError")).
Proof. intros H. unfold placeholder, send_file. now rewrite H. Qed.

(** X6: The thumbnail route sends the store at most one request, the fetch
    of the object itself: it never lists and never probes. *)
Theorem thumb_fetches_at_most_once w request file_path :
  store_calls (thumb w request file_path) = [] \/
  store_calls (thumb w request file_path)
  = [GetObject (environ w "R2_BUCKET_NAME") file_path].
Proof.
  destruct (header_dec (headers request "If-None-Match")
              (Some (validator file_path))) as [Hhit|Hmiss].
  - rewrite (thumb_fast_path w request file_path Hhit). now left.
  - rewrite (thumb_slow_path w request file_path Hmiss).
    pose proof (placeholder_silent w request (cache_headers w file_path)) as Hs.
    destruct (placeholder w request (cache_headers w file_path)) as [tp op].
    cbn [fst] in Hs. subst tp.
    destruct (get_s3_client_cases w) as [[client Hc]|[msg Hc]]; rewrite Hc;
      cbv beta iota delta [bind try_except ret request_store lift store_calls fst].
    + destruct (get_object client (environ w "R2_BUCKET_NAME") file_path)
        as [obj|e]; cbv beta iota.
      * destruct (make_jpeg_thumbnail w (String.concat "" (Body obj)));
          cbv beta iota; [now right|].
        destruct op; now right.
      * destruct op; now right.
    + destruct op; now left.
Qed.

(** X8: Revalidation: the validator found on any answer for a key, sent
    back as [If-None-Match] in a later request for that key, is answered
    304 without a store request, whatever has become of the store, the
    configuration or the object in between. *)
Theorem thumb_revalidation w request file_path t r w' request' :
  thumb w request file_path = (t, Return r) ->
  headers request' "If-None-Match" = Py.get_header "ETag" (resp_headers r) ->
  thumb w' request' file_path = ([], Return (unchanged_response w' file_path)).
Proof.
  intros Hfirst Hecho. apply thumb_fast_path.
  rewrite Hecho. exact (proj1 (thumb_answer_headers _ _ _ _ _ Hfirst)).
Qed.

Lemma thumb_revalidation_witness :
  thumb Fixture.world (Fixture.query None) "photos/cat.png"
  = ([GetObject (Some "bucket") "photos/cat.png"],
     Return {| status := 200; mimetype_of := Some "image/jpeg";
               resp_headers := cache_headers Fixture.world "photos/cat.png";
               resp_body := ["thumb:PNGDATA"] |}) /\
  thumb Fixture.unconfigured
    (Fixture.conditional (validator "photos/cat.png")) "photos/cat.png"
  = ([], Return (unchanged_response Fixture.unconfigured "photos/cat.png")).
Proof.
  assert (Hfirst : thumb Fixture.world (Fixture.query None) "photos/cat.png"
    = ([GetObject (Some "bucket") "photos/cat.png"],
       Return {| status := 200; mimetype_of := Some "image/jpeg";
                 resp_headers := cache_headers Fixture.world "photos/cat.png";
                 resp_body := ["thumb:PNGDATA"] |})) by reflexivity.
  split; [exact Hfirst|].
  exact (thumb_revalidation Fixture.world (Fixture.query None) "photos/cat.png"
           _ _ Fixture.unconfigured
           (Fixture.conditional (validator "photos/cat.png")) Hfirst eq_refl).
Defined.

(** X9: The image outcome: when the client is built, the fetch succeeds and
    the bytes decode, a request outside the fast path is answered 200
    with the JPEG bytes of the decoder applied to the whole body, typed
    [image/jpeg], under the cache headers, after the single fetch; the
    static folder is not consulted. *)
Theorem thumb_image_outcome w request file_path client obj thumb_bytes :
  headers request "If-None-Match" <> Some (validator file_path) ->
  get_s3_client w = ([], Return client) ->
  get_object client (environ w "R2_BUCKET_NAME") file_path = Return obj ->
  make_jpeg_thumbnail w (String.concat "" (Body obj)) = Return thumb_bytes ->
  thumb w request file_path
  = ([GetObject (environ w "R2_BUCKET_NAME") file_path],
     Return {| status := 200; mimetype_of := Some "image/jpeg";
               resp_headers := cache_headers w file_path;
               resp_body := [thumb_bytes] |}).
Proof.
  intros Hmiss Hc Hg Hd. rewrite (thumb_slow_path w request file_path Hmiss), Hc.
  cbv beta iota delta [bind try_except ret request_store lift].
  rewrite Hg. cbv beta iota. rewrite Hd. reflexivity.
Qed.

Lemma thumb_image_outcome_witness :
  headers (Fixture.query None) "If-None-Match"
  <> Some (validator "photos/2024/trip.jpg") /\
  thumb assetless_world (Fixture.query None) "photos/2024/trip.jpg"
  = ([GetObject (Some "bucket") "photos/2024/trip.jpg"],
     Return {| status := 200; mimetype_of := Some "image/jpeg";
               resp_headers := cache_headers assetless_world "photos/2024/trip.jpg";
               resp_body := ["thumb:JPEGDATA"] |}).
Proof.
  assert (Hmiss : headers (Fixture.query None) "If-None-Match"
                  <> Some (validator "photos/2024/trip.jpg")) by discriminate.
  split; [exact Hmiss|].
  exact (thumb_image_outcome assetless_world (Fixture.query None)
           "photos/2024/trip.jpg" (Fixture.client Fixture.objects)
           (mkGetResponse "image/jpeg" 8 ["JPEGDATA"]) "thumb:JPEGDATA"
           Hmiss eq_refl eq_refl eq_refl).
Defined.

(** X10: The absorption of failures rests on the placeholder asset: when the
    static folder lacks it, a failure of the pipeline outside the fast
    path is not absorbed; the placeholder's own failure propagates and
    the client receives 500. *)
Theorem thumb_without_placeholder_fails w request file_path :
  static_folder w "thumb_placeholder.svg" = None ->
  headers request "If-None-Match" <> Some (validator file_path) ->
  thumb_failure w file_path ->
  snd (thumb w request file_path) = Raise (OtherException "FileNotFoundError") /\
  http_status (thumb w request file_path) = 500%Z.
Proof.
  intros Hasset Hmiss Hfail.
  rewrite (thumb_slow_path w request file_path Hmiss).
  rewrite (placeholder_missing w request _ Hasset).
  destruct Hfail as [e Hc|client e Hc Hg|client obj e Hc Hg Hd]; rewrite Hc;
    cbv beta iota delta [bind try_except ret request_store lift].
  - now split.
  - rewrite Hg. now split.
  - rewrite Hg. cbv beta iota. rewrite Hd. now split.
Qed.

Lemma thumb_without_placeholder_fails_witness :
  static_folder assetless_world "thumb_placeholder.svg" = None /\
  headers (Fixture.query None) "If-None-Match" <> Some (validator "missing.png") /\
  thumb_failure assetless_world "missing.png" /\
  http_status (thumb assetless_world (Fixture.query None) "missing.png") = 500%Z.
Proof.
  assert (Hasset : static_folder assetless_world "thumb_placeholder.svg" = None)
    by reflexivity.
  assert (Hmiss : headers (Fixture.query None) "If-None-Match"
                  <> Some (validator "missing.png")) by discriminate.
  assert (Hfail : thumb_failure assetless_world "missing.png").
  { apply fetch_failure
      with (client := Fixture.client Fixture.objects)
           (e := ClientError "NoSuchKey" "The specified key does not exist.");
      reflexivity. }
  split; [exact Hasset|]. split; [exact Hmiss|]. split; [exact Hfail|].
  exact (proj2 (thumb_without_placeholder_fails assetless_world
                  (Fixture.query None) "missing.png" Hasset Hmiss Hfail)).
Defined.

End ThumbnailRoute.


(** ** What the entries of a page say about the store's answer *)

Section EntryContents.

Lemma index_file_entry_key w client bucket prefix obj :
  option_map key (index_file_entry w client bucket prefix obj)
  = if kept_key prefix (object_key obj) then Some (object_key obj) else None.
Proof.
  unfold index_file_entry, kept_key, object_key.
  destruct (negb (prefix =? "") && _); [reflexivity|].
  destruct (PyStr.endswith _ "/"); reflexivity.
Qed.

Lemma collect_keys {A} (body : A -> option Entry) (keep : A -> bool)
      (k : A -> string) (l : list A) :
  (forall x, option_map key (body x) = if keep x then Some (k x) else None) ->
  map key (Py.collect body l) = map k (filter keep l).
Proof.
  intros H. induction l as [|x l IH]; [reflexivity|].
  cbn [Py.collect filter]. specialize (H x).
  destruct (body x) as [e|], (keep x); cbn in H; try discriminate H;
    cbn [map]; rewrite IH; [|reflexivity].
  now inversion H.
Qed.

Lemma filter_map_comm {A B} (f : A -> B) (p : B -> bool) (l : list A) :
  filter p (map f l) = map f (filter (fun x => p (f x)) l).
Proof.
  induction l as [|x l IH]; [reflexivity|].
  cbn [map filter]. destruct (p (f x)); cbn [map]; now rewrite IH.
Qed.

Lemma index_discovered_keys w client bucket prefix response :
  map key (index_discovered w client bucket prefix response)
  = listed_keys prefix response.
Proof.
  unfold index_discovered, listed_keys.
  assert (Hfiles : forall objs,
             map key (Py.collect (index_file_entry w client bucket prefix) objs)
             = filter (kept_key prefix) (map object_key objs)).
  { intros objs. rewrite filter_map_comm. apply collect_keys.
    intros obj. apply index_file_entry_key. }
  assert (Hdirs : forall prefs, map key (map (dir_entry prefix) prefs) = prefs).
  { intros prefs. rewrite map_map. cbn [dir_entry key]. apply map_id. }
  destruct (Contents response) as [objs|], (CommonPrefixes response) as [prefs|];
    rewrite ?map_app, ?Hfiles, ?Hdirs, ?app_nil_r; reflexivity.
Qed.

(** X11: A listing page neither loses nor invents an entry: on either route
    its keys are, up to the order the sort gives them, the keys of the
    listed objects other than the prefix itself and the keys ending
    with the delimiter, followed by the common prefixes; and there are
    as many entries as such keys. *)
Theorem listing_keys_complete w request prefix_path t es p cs y :
  index w request = (t, Return (Listing es p cs y)) \/
  browse w prefix_path = (t, Return (Listing es p cs y)) ->
  exists client q response,
    get_s3_client w = ([], Return client) /\
    list_objects_v2 client (environ w "R2_BUCKET_NAME") q = Return response /\
    Py.the q = p /\
    Permutation (listed_keys p response) (map key es) /\
    List.length es = List.length (listed_keys p response).
Proof.
  intros [H|H].
  - apply index_listing_inv in H as (client & response & Hc & _ & Hl & -> & _).
    exists client, (if negb (p =? "") then Some p else None), response.
    split; [exact Hc|]. split; [exact Hl|].
    split; [destruct (String.eqb_spec p ""); [now subst|reflexivity]|].
    rewrite <- (index_discovered_keys w client (environ w "R2_BUCKET_NAME")).
    split.
    + apply Permutation_map. apply sort_perm.
    + rewrite length_map. symmetry. apply Permutation_length, sort_perm.
  - apply browse_listing_inv in H as (client & response & Hc & _ & Hl & -> & _).
    exists client, (Some p), response.
    split; [exact Hc|]. split; [exact Hl|]. split; [reflexivity|].
    rewrite <- (index_discovered_keys w client (environ w "R2_BUCKET_NAME")).
    rewrite (browse_discovered_strips w client (environ w "R2_BUCKET_NAME")).
    split.
    + apply perm_trans
        with (map key (map without_direct_urls
                         (index_discovered w client (environ w "R2_BUCKET_NAME")
                            p response))).
      * rewrite map_map. apply Permutation_refl.
      * apply Permutation_map. apply sort_perm.
    + rewrite length_map. symmetry.
      rewrite <- (length_map without_direct_urls).
      apply Permutation_length, sort_perm.
Qed.

Lemma listing_keys_complete_witness :
  browse Fixture.world "photos"
  = ([ListObjectsV2 (Some "bucket") (Some "photos/")],
     Return (Listing
               [dir_entry "photos/" "photos/2024/";
                mkEntry "cat.png" "photos/cat.png" false (Some (Some 7%Z))
                  (Some "2024-05-17 12:00:00") None None
                  (Some "/file/photos/cat.png");
                mkEntry "corrupt.jpg" "photos/corrupt.jpg" false (Some (Some 7%Z))
                  (Some "2024-05-17 12:00:00") None None
                  (Some "/file/photos/corrupt.jpg")]
               "photos/" [mkCrumb "photos" "photos/"] 2024%Z)) /\
  exists client q response,
    get_s3_client Fixture.world = ([], Return client) /\
    list_objects_v2 client (environ Fixture.world "R2_BUCKET_NAME") q
    = Return response /\
    Py.the q = "photos/" /\
    Permutation (listed_keys "photos/" response)
      ["photos/2024/"; "photos/cat.png"; "photos/corrupt.jpg"] /\
    3%nat = List.length (listed_keys "photos/" response).
Proof.
  assert (Hrun : browse Fixture.world "photos"
    = ([ListObjectsV2 (Some "bucket") (Some "photos/")],
       Return (Listing
                 [dir_entry "photos/" "photos/2024/";
                  mkEntry "cat.png" "photos/cat.png" false (Some (Some 7%Z))
                    (Some "2024-05-17 12:00:00") None None
                    (Some "/file/photos/cat.png");
                  mkEntry "corrupt.jpg" "photos/corrupt.jpg" false (Some (Some 7%Z))
                    (Some "2024-05-17 12:00:00") None None
                    (Some "/file/photos/corrupt.jpg")]
                 "photos/" [mkCrumb "photos" "photos/"] 2024%Z)))
    by (vm_compute; reflexivity).
  split; [exact Hrun|].
  exact (listing_keys_complete Fixture.world (Fixture.query None) "photos"
           _ _ _ _ _ (or_intror Hrun)).
Defined.

End EntryContents.

(** ** Display names *)

Section DisplayNames.

Lemma endswith_slice (n : nat) (s : string) :
  PyStr.endswith (PyStr.slice_from n s) "/" = true -> PyStr.endswith s "/" = true.
Proof.
  revert s. induction n as [|n IH]; intros s; [exact (fun H => H)|].
  destruct s as [|a s]; [exact (fun H => H)|].
  cbn [PyStr.slice_from]. intros H. apply IH in H.
  cbn [PyStr.endswith]. rewrite H. apply orb_true_r.
Qed.

Lemma browse_file_entry_name prefix obj e :
  browse_file_entry prefix obj = Some e ->
  PyStr.endswith (name e) "/" = false.
Proof.
  unfold browse_file_entry.
  destruct (negb (prefix =? "") && _); [discriminate|].
  destruct (PyStr.endswith _ "/") eqn:Hend; [discriminate|].
  intros H. inversion H; subst; clear H. cbn [name].
  destruct (negb (prefix =? "")); [|exact Hend].
  destruct (PyStr.endswith (PyStr.slice_from _ _) "/") eqn:E; [|reflexivity].
  apply endswith_slice in E. rewrite E in Hend. discriminate.
Qed.

Lemma index_file_entry_name w client bucket prefix obj e :
  index_file_entry w client bucket prefix obj = Some e ->
  PyStr.endswith (name e) "/" = false.
Proof.
  intros H.
  apply (browse_file_entry_name prefix obj (without_direct_urls e)).
  now rewrite (browse_file_entry_strips w client bucket), H.
Qed.

Lemma dir_entry_name_no_slash prefix pref :
  PyStr.endswith (name (dir_entry prefix pref)) "/" = false.
Proof.
  unfold dir_entry. cbn [name].
  destruct (negb (prefix =? "")); apply rstrip_not_endswith.
Qed.

(** X12: No display name on a listing page ends with the delimiter, on
    either route and whatever the store answered. *)
Theorem names_never_end_with_delimiter w request prefix_path t es p cs y :
  index w request = (t, Return (Listing es p cs y)) \/
  browse w prefix_path = (t, Return (Listing es p cs y)) ->
  Forall (fun e => PyStr.endswith (name e) "/" = false) es.
Proof.
  assert (Hdirs : forall prefs,
             Forall (fun e => PyStr.endswith (name e) "/" = false)
                    (map (dir_entry p) prefs)).
  { intros prefs. apply Forall_forall. intros e He.
    apply in_map_iff in He as (pref & <- & _). apply dir_entry_name_no_slash. }
  intros [H|H].
  - apply index_listing_inv in H as (client & response & _ & _ & _ & -> & _).
    apply (Permutation_Forall (sort_perm _ _ _)). unfold index_discovered.
    assert (Hfiles : forall objs,
               Forall (fun e => PyStr.endswith (name e) "/" = false)
                 (Py.collect
                    (index_file_entry w client (environ w "R2_BUCKET_NAME") p) objs)).
    { intros objs. apply collect_Forall with (P := fun _ => True);
        [|apply Forall_forall; trivial].
      intros obj e _. apply index_file_entry_name. }
    destruct (Contents response) as [objs|], (CommonPrefixes response) as [prefs|];
      rewrite ?Forall_app; repeat split; auto.
  - apply browse_listing_inv in H as (client & response & _ & _ & _ & -> & _).
    apply (Permutation_Forall (sort_perm _ _ _)). unfold browse_discovered.
    assert (Hfiles : forall objs,
               Forall (fun e => PyStr.endswith (name e) "/" = false)
                 (Py.collect (browse_file_entry p) objs)).
    { intros objs. apply collect_Forall with (P := fun _ => True);
        [|apply Forall_forall; trivial].
      intros obj e _. apply browse_file_entry_name. }
    destruct (Contents response) as [objs|], (CommonPrefixes response) as [prefs|];
      rewrite ?Forall_app; repeat split; auto.
Qed.

Lemma names_never_end_with_delimiter_witness :
  index Fixture.world (Fixture.query None)
  = ([ListObjectsV2 (Some "bucket") None],
     Return (Listing
               [dir_entry "" "a/"; dir_entry "" "photos/";
                mkEntry "a.txt" "a.txt" false (Some (Some 5%Z))
                  (Some "2024-05-17 12:00:00") None
                  (Some "https://r2.example/a.txt?X-Amz-Signature=0")
                  (Some "/file/a.txt")]
               "" [] 2024%Z)) /\
  Forall (fun e => PyStr.endswith (name e) "/" = false)
    [dir_entry "" "a/"; dir_entry "" "photos/";
     mkEntry "a.txt" "a.txt" false (Some (Some 5%Z))
       (Some "2024-05-17 12:00:00") None
       (Some "https://r2.example/a.txt?X-Amz-Signature=0")
       (Some "/file/a.txt")].
Proof.
  assert (Hrun : index Fixture.world (Fixture.query None)
    = ([ListObjectsV2 (Some "bucket") None],
       Return (Listing
                 [dir_entry "" "a/"; dir_entry "" "photos/";
                  mkEntry "a.txt" "a.txt" false (Some (Some 5%Z))
                    (Some "2024-05-17 12:00:00") None
                    (Some "https://r2.example/a.txt?X-Amz-Signature=0")
                    (Some "/file/a.txt")]
                 "" [] 2024%Z))) by (vm_compute; reflexivity).
  split; [exact Hrun|].
  exact (names_never_end_with_delimiter Fixture.world (Fixture.query None) ""
           _ _ _ _ _ (or_introl Hrun)).
Defined.

End DisplayNames.

(** ** Names and keys *)

Section NamesAndKeys.

Lemma slice_append (p r : string) :
  PyStr.slice_from (String.length p) (p ++ r) = r.
Proof. induction p as [|a p IH]; [now destruct r|exact IH]. Qed.

Lemma contains_false_endswith (s : string) :
  PyStr.contains "/" s = false -> PyStr.endswith s "/" = false.
Proof.
  induction s as [|a s IH]; [reflexivity|].
  cbn [PyStr.contains]. intros H. apply orb_false_iff in H as [Ha Hs].
  cbn [PyStr.endswith]. rewrite (IH Hs), orb_false_r.
  cbn [String.eqb]. now rewrite Ha.
Qed.

Lemma rstrip_id (s : string) :
  PyStr.endswith s "/" = false -> PyStr.rstrip s "/" = s.
Proof.
  induction s as [|a s IH]; [reflexivity|].
  destruct s as [|b s'].
  - cbn. destruct (Ascii.eqb a "/"); [discriminate|reflexivity].
  - rewrite endswith_slash_cons by discriminate. intros H.
    cbn [PyStr.rstrip]. cbn [PyStr.rstrip] in IH. now rewrite (IH H).
Qed.

Lemma browse_file_entry_rejoins prefix obj rest e :
  Key obj = Some (prefix ++ rest) -> prefix ++ rest <> "" ->
  PyStr.contains "/" rest = false ->
  browse_file_entry prefix obj = Some e ->
  rejoins prefix e.
Proof.
  intros Hk Hne Hrest. unfold browse_file_entry. rewrite Hk.
  destruct (negb (prefix =? "") && _) eqn:Hguard; [discriminate|].
  destruct (PyStr.endswith _ "/"); [discriminate|].
  intros H. inversion H; subst; clear H. unfold rejoins. cbn [name key is_dir].
  destruct (String.eqb_spec prefix "") as [->|Hp]; cbn [negb].
  - cbn [append] in *. now repeat split.
  - rewrite slice_append. repeat split; [exact Hrest|].
    intros ->. rewrite append_empty_r in Hguard.
    rewrite String.eqb_refl in Hguard. discriminate.
Qed.

Lemma dir_entry_rejoins prefix seg :
  PyStr.contains "/" seg = false ->
  rejoins prefix (dir_entry prefix (prefix ++ seg ++ "/")).
Proof.
  intros Hseg. unfold rejoins, dir_entry. cbn [name key is_dir].
  assert (E : PyStr.rstrip (seg ++ "/") "/" = seg).
  { rewrite rstrip_append_slash. now apply rstrip_id, contains_false_endswith. }
  destruct (String.eqb_spec prefix "") as [->|Hp]; cbn [negb].
  - cbn [append]. now rewrite E.
  - now rewrite slice_append, E.
Qed.

Lemma rejoins_without_direct_urls prefix e :
  rejoins prefix (without_direct_urls e) -> rejoins prefix e.
Proof. exact (fun H => H). Qed.

Lemma browse_discovered_rejoins prefix response :
  relative_contract prefix response ->
  Forall (rejoins prefix) (browse_discovered prefix response).
Proof.
  intros [Hobjs Hprefs]. unfold browse_discovered.
  assert (Hfiles : Forall (rejoins prefix)
                     match Contents response with
                     | Some objs => Py.collect (browse_file_entry prefix) objs
                     | None => []
                     end).
  { destruct (Contents response) as [objs|]; [|constructor].
    apply collect_Forall with (2 := Hobjs objs eq_refl).
    intros obj e (rest & Hk & Hne & Hrest). now apply browse_file_entry_rejoins with rest. }
  destruct (CommonPrefixes response) as [prefs|]; [|exact Hfiles].
  apply Forall_app. split; [exact Hfiles|].
  specialize (Hprefs prefs eq_refl). apply Forall_forall. intros e He.
  apply in_map_iff in He as (pref & <- & Hin).
  rewrite Forall_forall in Hprefs. destruct (Hprefs pref Hin) as (seg & -> & Hseg).
  now apply dir_entry_rejoins.
Qed.

(** X13: When the store answers a delimited listing as an S3 endpoint does,
    every display name is the key relative to the prefix and contains
    no delimiter: a file's key is the prefix followed by its non-empty
    name, a directory's key is the prefix, its name and one delimiter. *)
Theorem names_are_relative_keys w request prefix_path t es p cs y :
  store_groups_by_prefix w ->
  index w request = (t, Return (Listing es p cs y)) \/
  browse w prefix_path = (t, Return (Listing es p cs y)) ->
  Forall (rejoins p) es.
Proof.
  intros Hstore [H|H].
  - apply index_listing_inv in H as (client & response & Hc & _ & Hl & -> & _).
    apply (Permutation_Forall (sort_perm _ _ _)).
    specialize (Hstore _ _ _ _ Hc Hl).
    assert (Hq : Py.the (if negb (p =? "") then Some p else None) = p)
      by (destruct (String.eqb_spec p ""); [now subst|reflexivity]).
    rewrite Hq in Hstore. apply browse_discovered_rejoins in Hstore.
    rewrite (browse_discovered_strips w client (environ w "R2_BUCKET_NAME"))
      in Hstore.
    rewrite Forall_forall in *. intros e He.
    apply rejoins_without_direct_urls. apply Hstore. now apply in_map.
  - apply browse_listing_inv in H as (client & response & Hc & _ & Hl & -> & _).
    apply (Permutation_Forall (sort_perm _ _ _)).
    apply browse_discovered_rejoins. exact (Hstore _ _ _ _ Hc Hl).
Qed.

(** the in-memory store answers as an S3 endpoint does *)

Lemma prefix_slice (p k : string) :
  String.prefix p k = true -> k = p ++ PyStr.slice_from (String.length p) k.
Proof.
  revert k. induction p as [|a p IH]; intros k; [now destruct k|].
  destruct k as [|b k]; [discriminate|]. cbn [String.prefix].
  destruct (ascii_dec a b) as [->|]; [|discriminate].
  intros H. cbn. now rewrite <- (IH k H).
Qed.

Lemma first_segment_none (s : string) :
  Fixture.first_segment s = None -> PyStr.contains "/" s = false.
Proof.
  induction s as [|a s IH]; [reflexivity|].
  cbn. destruct (Ascii.eqb a "/"); [discriminate|].
  destruct (Fixture.first_segment s); [discriminate|]. intros _. now apply IH.
Qed.

Lemma first_segment_some (s seg' : string) :
  Fixture.first_segment s = Some seg' ->
  exists seg, seg' = seg ++ "/" /\ PyStr.contains "/" seg = false.
Proof.
  revert seg'. induction s as [|a s IH]; intros seg'; [discriminate|].
  cbn. destruct (Ascii.eqb a "/") eqn:Ha.
  - intros H. inversion H. now exists "".
  - destruct (Fixture.first_segment s) as [r|]; [|discriminate].
    cbn. intros H. inversion H; subst; clear H.
    destruct (IH r eq_refl) as (seg & -> & Hseg).
    exists (String a seg). split; [reflexivity|]. cbn. now rewrite Ha.
Qed.

Lemma fixture_relative_contract (objs : list Fixture.StoredObject) q :
  Forall (fun o => Fixture.so_key o <> "") objs ->
  relative_contract (Py.the q) (Fixture.listing objs q).
Proof.
  intros Hkeys. unfold Fixture.listing. set (p := Py.the q).
  assert (Hunder : Forall (fun o => Fixture.so_key o
                                    = p ++ PyStr.slice_from (String.length p)
                                                            (Fixture.so_key o) /\
                                    Fixture.so_key o <> "")
                     (filter (fun o => String.prefix p (Fixture.so_key o)) objs)).
  { rewrite Forall_forall in *. intros o Ho. apply filter_In in Ho as [Ho Hp].
    split; [now apply prefix_slice|now apply Hkeys]. }
  revert Hunder.
  generalize (filter (fun o => String.prefix p (Fixture.so_key o)) objs).
  intros under Hunder. split; cbn [CommonPrefixes Contents].
  - intros objs' Hobjs.
    assert (Hf : Forall (fun o => exists rest,
                            Fixture.so_key o = p ++ rest /\ p ++ rest <> "" /\
                            PyStr.contains "/" rest = false)
                   (filter (fun o => match Fixture.first_segment
                                             (PyStr.slice_from (String.length p)
                                                (Fixture.so_key o)) with
                                     | None => true | Some _ => false end) under)).
    { rewrite Forall_forall in *. intros o Ho. apply filter_In in Ho as [Ho Hseg].
      destruct (Hunder o Ho) as [Hk Hne].
      exists (PyStr.slice_from (String.length p) (Fixture.so_key o)).
      split; [exact Hk|]. split; [now rewrite <- Hk|].
      apply first_segment_none.
      now destruct (Fixture.first_segment _). }
    destruct (filter _ under) as [|o files]; [discriminate|].
    inversion Hobjs; subst; clear Hobjs.
    rewrite Forall_forall in *. intros obj [<-|Hin].
    + destruct (Hf o (or_introl eq_refl)) as (rest & Hk & Hrest).
      exists rest. cbn [Key]. now rewrite Hk.
    + apply in_map_iff in Hin as (o' & <- & Ho').
      destruct (Hf o' (or_intror Ho')) as (rest & Hk & Hrest).
      exists rest. cbn [Key]. now rewrite Hk.
  - intros prefs Hprefs.
    match type of Hprefs with
    | match ?d with _ => _ end = _ =>
        assert (Hd : Forall (fun pref => exists seg,
                                 pref = p ++ seg ++ "/" /\
                                 PyStr.contains "/" seg = false) d)
    end.
    { clear Hprefs.
      assert (Hacc : Forall (fun pref => exists seg,
                                 pref = p ++ seg ++ "/" /\
                                 PyStr.contains "/" seg = false) (@nil string))
        by constructor.
      revert Hacc. generalize (@nil string) as acc.
      induction under as [|o under IH]; intros acc Hacc; [exact Hacc|].
      cbn [fold_left]. apply IH; [now apply Forall_inv_tail in Hunder|].
      destruct (Fixture.first_segment _) as [seg'|] eqn:E; [|exact Hacc].
      unfold Fixture.add_once. destruct (PyStr.mem _ acc); [exact Hacc|].
      apply Forall_app. split; [exact Hacc|]. constructor; [|constructor].
      destruct (first_segment_some _ _ E) as (seg & -> & Hseg). now exists seg. }
    destruct (fold_left _ _ _); [discriminate|]. now inversion Hprefs; subst.
Qed.

Lemma fixture_groups_by_prefix : store_groups_by_prefix Fixture.world.
Proof.
  intros client bucket q response Hc Hl.
  assert (client = Fixture.client Fixture.objects) as ->.
  { vm_compute in Hc. now inversion Hc. }
  cbn in Hl. inversion Hl; subst. apply fixture_relative_contract.
  repeat constructor; discriminate.
Qed.

Lemma names_are_relative_keys_witness :
  store_groups_by_prefix Fixture.world /\
  browse Fixture.world "photos"
  = ([ListObjectsV2 (Some "bucket") (Some "photos/")],
     Return (Listing
               [dir_entry "photos/" "photos/2024/";
                mkEntry "cat.png" "photos/cat.png" false (Some (Some 7%Z))
                  (Some "2024-05-17 12:00:00") None None
                  (Some "/file/photos/cat.png");
                mkEntry "corrupt.jpg" "photos/corrupt.jpg" false (Some (Some 7%Z))
                  (Some "2024-05-17 12:00:00") None None
                  (Some "/file/photos/corrupt.jpg")]
               "photos/" [mkCrumb "photos" "photos/"] 2024%Z)) /\
  Forall (rejoins "photos/")
    [dir_entry "photos/" "photos/2024/";
     mkEntry "cat.png" "photos/cat.png" false (Some (Some 7%Z))
       (Some "2024-05-17 12:00:00") None None (Some "/file/photos/cat.png");
     mkEntry "corrupt.jpg" "photos/corrupt.jpg" false (Some (Some 7%Z))
       (Some "2024-05-17 12:00:00") None None (Some "/file/photos/corrupt.jpg")].
Proof.
  assert (Hrun : browse Fixture.world "photos"
    = ([ListObjectsV2 (Some "bucket") (Some "photos/")],
       Return (Listing
                 [dir_entry "photos/" "photos/2024/";
                  mkEntry "cat.png" "photos/cat.png" false (Some (Some 7%Z))
                    (Some "2024-05-17 12:00:00") None None
                    (Some "/file/photos/cat.png");
                  mkEntry "corrupt.jpg" "photos/corrupt.jpg" false (Some (Some 7%Z))
                    (Some "2024-05-17 12:00:00") None None
                    (Some "/file/photos/corrupt.jpg")]
                 "photos/" [mkCrumb "photos" "photos/"] 2024%Z)))
    by (vm_compute; reflexivity).
  split; [exact fixture_groups_by_prefix|]. split; [exact Hrun|].
  exact (names_are_relative_keys Fixture.world (Fixture.query None) "photos"
           _ _ _ _ _ fixture_groups_by_prefix (or_intror Hrun)).
Defined.

End NamesAndKeys.


(** ** Links of the file entries *)

Section EntryLinks.

Lemma get_public_url_truthy w k :
  (if PyStr.truthy (get_public_url w k) then get_public_url w k else None)
  = get_public_url w k.
Proof.
  unfold get_public_url.
  destruct (PyStr.truthy (environ w "R2_PUBLIC_URL")); cbn [negb]; [|reflexivity].
  cbn [PyStr.truthy].
  now destruct (PyStr.rstrip (Py.the (environ w "R2_PUBLIC_URL")) "/").
Qed.

Lemma index_file_entry_links w client prefix obj e :
  index_file_entry w client (environ w "R2_BUCKET_NAME") prefix obj = Some e ->
  is_dir e = false /\ proxied e /\ direct_links w client e.
Proof.
  unfold index_file_entry.
  destruct (negb (prefix =? "") && _); [discriminate|].
  destruct (PyStr.endswith _ "/"); [discriminate|].
  intros H. inversion H; subst; clear H.
  unfold proxied, direct_links.
  cbn [is_dir file_url key size last_modified public_url presigned_url].
  rewrite get_public_url_truthy. repeat split; discriminate.
Qed.

Lemma browse_file_entry_links prefix obj e :
  browse_file_entry prefix obj = Some e ->
  is_dir e = false /\ proxied e /\ public_url e = None /\ presigned_url e = None.
Proof.
  unfold browse_file_entry.
  destruct (negb (prefix =? "") && _); [discriminate|].
  destruct (PyStr.endswith _ "/"); [discriminate|].
  intros H. inversion H; subst; clear H. unfold proxied.
  cbn [is_dir file_url key size last_modified public_url presigned_url].
  repeat split; discriminate.
Qed.

(** X14: Every file entry of a listing page carries the proxy link
    [/file/<key>], a size field and a modification time.  On the query
    route it also carries the public link exactly when a public base is
    configured and the signed link exactly when the client produced a
    non-empty one, each entry on its own: a signing failure leaves the
    entry in place without that link.  On the pretty route it carries
    neither. *)
Theorem file_entries_links w request prefix_path t es p cs y :
  (index w request = (t, Return (Listing es p cs y)) ->
   exists client,
     get_s3_client w = ([], Return client) /\
     Forall (fun e => is_dir e = false -> proxied e /\ direct_links w client e) es) /\
  (browse w prefix_path = (t, Return (Listing es p cs y)) ->
   Forall (fun e => is_dir e = false ->
                    proxied e /\ public_url e = None /\ presigned_url e = None) es).
Proof.
  split; intros H.
  - apply index_listing_inv in H as (client & response & Hc & _ & _ & -> & _).
    exists client. split; [exact Hc|].
    apply (Permutation_Forall (sort_perm _ _ _)). unfold index_discovered.
    assert (Hfiles : forall objs,
               Forall (fun e => is_dir e = false ->
                                proxied e /\ direct_links w client e)
                 (Py.collect
                    (index_file_entry w client (environ w "R2_BUCKET_NAME") p) objs)).
    { intros objs. apply collect_Forall with (P := fun _ => True);
        [|apply Forall_forall; trivial].
      intros obj e _ He _. now apply index_file_entry_links in He. }
    assert (Hdirs : forall prefs,
               Forall (fun e => is_dir e = false ->
                                proxied e /\ direct_links w client e)
                 (map (dir_entry p) prefs)).
    { intros prefs. apply Forall_forall. intros e He.
      apply in_map_iff in He as (pref & <- & _). discriminate. }
    destruct (Contents response) as [objs|], (CommonPrefixes response) as [prefs|];
      rewrite ?Forall_app; repeat split; auto.
  - apply browse_listing_inv in H as (client & response & Hc & _ & _ & -> & _).
    apply (Permutation_Forall (sort_perm _ _ _)). unfold browse_discovered.
    assert (Hfiles : forall objs,
               Forall (fun e => is_dir e = false ->
                                proxied e /\ public_url e = None /\
                                presigned_url e = None)
                 (Py.collect (browse_file_entry p) objs)).
    { intros objs. apply collect_Forall with (P := fun _ => True);
        [|apply Forall_forall; trivial].
      intros obj e _ He _. now apply browse_file_entry_links in He. }
    assert (Hdirs : forall prefs,
               Forall (fun e => is_dir e = false ->
                                proxied e /\ public_url e = None /\
                                presigned_url e = None)
                 (map (dir_entry p) prefs)).
    { intros prefs. apply Forall_forall. intros e He.
      apply in_map_iff in He as (pref & <- & _). discriminate. }
    destruct (Contents response) as [objs|], (CommonPrefixes response) as [prefs|];
      rewrite ?Forall_app; repeat split; auto.
Qed.

Lemma file_entries_links_witness :
  index (public_world "https://cdn.example/") (Fixture.query None)
  = ([ListObjectsV2 (Some "bucket") None],
     Return (Listing
               [dir_entry "" "a/"; dir_entry "" "photos/";
                mkEntry "a.txt" "a.txt" false (Some (Some 5%Z))
                  (Some "2024-05-17 12:00:00")
                  (Some "https://cdn.example/a.txt")
                  (Some "https://r2.example/a.txt?X-Amz-Signature=0")
                  (Some "/file/a.txt")]
               "" [] 2024%Z)) /\
  exists client,
    get_s3_client (public_world "https://cdn.example/") = ([], Return client) /\
    Forall (fun e => is_dir e = false ->
                     proxied e /\
                     direct_links (public_world "https://cdn.example/") client e)
      [dir_entry "" "a/"; dir_entry "" "photos/";
       mkEntry "a.txt" "a.txt" false (Some (Some 5%Z))
         (Some "2024-05-17 12:00:00")
         (Some "https://cdn.example/a.txt")
         (Some "https://r2.example/a.txt?X-Amz-Signature=0")
         (Some "/file/a.txt")].
Proof.
  assert (Hrun : index (public_world "https://cdn.example/") (Fixture.query None)
    = ([ListObjectsV2 (Some "bucket") None],
       Return (Listing
                 [dir_entry "" "a/"; dir_entry "" "photos/";
                  mkEntry "a.txt" "a.txt" false (Some (Some 5%Z))
                    (Some "2024-05-17 12:00:00")
                    (Some "https://cdn.example/a.txt")
                    (Some "https://r2.example/a.txt?X-Amz-Signature=0")
                    (Some "/file/a.txt")]
                 "" [] 2024%Z))) by (vm_compute; reflexivity).
  split; [exact Hrun|].
  exact (proj1 (file_entries_links (public_world "https://cdn.example/")
                  (Fixture.query None) "" _ _ _ _ _) Hrun).
Defined.

End EntryLinks.

(** ** Breadcrumbs as links *)

Section BreadcrumbLinks.

Lemma prefix_append (a b : string) : String.prefix a (a ++ b) = true.
Proof.
  induction a as [|c a IH]; [now destruct b|].
  cbn. destruct (ascii_dec c c); [exact IH|contradiction].
Qed.

Lemma rstrip_then_slashes (s : string) :
  PyStr.endswith s "/" = true ->
  exists rest, s = (PyStr.rstrip s "/" ++ "/") ++ rest.
Proof.
  induction s as [|a s IH]; [discriminate|].
  destruct s as [|b s'].
  - cbn. destruct (Ascii.eqb_spec a "/") as [->|]; [|discriminate].
    intros _. now exists "".
  - rewrite endswith_slash_cons by discriminate. intros H.
    destruct (IH H) as (rest & E).
    cbn [PyStr.rstrip]. cbn [PyStr.rstrip] in E.
    destruct (match PyStr.rstrip s' "/" with
              | "" => if Ascii.eqb b "/" then "" else String b ""
              | String a0 s0 => String b (String a0 s0)
              end) as [|x r] eqn:Er.
    + destruct (Ascii.eqb_spec a "/") as [->|].
      * exists (String b s'). reflexivity.
      * exists rest. cbn. cbn in E. now rewrite <- E.
    + exists rest. cbn. cbn in E. now rewrite <- E.
Qed.

Lemma accumulate_prefixes (segs : list string) (acc : string) (c : Crumb) :
  In c (accumulate segs acc) ->
  PyStr.endswith (crumb_prefix c) "/" = true /\
  exists rest, crumb_prefix c ++ rest = acc ++ String.concat "/" segs ++ "/".
Proof.
  revert acc. induction segs as [|seg segs IH]; intros acc; [contradiction|].
  cbn [accumulate]. intros [<-|Hin].
  - cbn [crumb_prefix]. split.
    + apply endswith_append. apply endswith_append_slash.
    + destruct segs as [|seg' segs].
      * exists "". cbn [String.concat]. apply append_empty_r.
      * exists (String.concat "/" (seg' :: segs) ++ "/").
        change (String.concat "/" (seg :: seg' :: segs))
          with (seg ++ "/" ++ String.concat "/" (seg' :: segs)).
        now rewrite !append_assoc.
  - destruct (IH _ Hin) as (Hend & rest & E). split; [exact Hend|].
    exists rest. rewrite E.
    destruct segs as [|seg' segs]; [contradiction|].
    change (String.concat "/" (seg :: seg' :: segs))
      with (seg ++ "/" ++ String.concat "/" (seg' :: segs)).
    now rewrite !append_assoc.
Qed.

(** X15: Every breadcrumb of a listing page links to an ancestor of the
    listed directory: its cumulative prefix ends with the delimiter and
    is an initial part of the page's prefix; the root page has no
    breadcrumb, and any other page has one per segment of its prefix
    stripped of trailing delimiters. *)
Theorem breadcrumbs_link_to_ancestors w request prefix_path t es p cs y :
  index w request = (t, Return (Listing es p cs y)) \/
  browse w prefix_path = (t, Return (Listing es p cs y)) ->
  Forall (fun c => PyStr.endswith (crumb_prefix c) "/" = true /\
                   String.prefix (crumb_prefix c) p = true) cs /\
  List.length cs
  = if p =? "" then 0%nat
    else List.length (PyStr.split (PyStr.rstrip p "/") "/").
Proof.
  intros H. apply listing_crumbs in H as [-> Hnorm].
  rewrite make_crumbs_keeping. unfold breadcrumbs_keeping_empty.
  destruct (String.eqb_spec p "") as [->|Hne]; [split; [constructor|reflexivity]|].
  destruct Hnorm as [Hp|Hp]; [contradiction|]. split.
  - apply Forall_forall. intros c Hc.
    apply accumulate_prefixes in Hc as (Hend & rest & E).
    split; [exact Hend|].
    rewrite concat_split in E. cbn [append] in E.
    destruct (rstrip_then_slashes p Hp) as (rest' & Ep).
    rewrite Ep, <- E, append_assoc. apply prefix_append.
  - rewrite <- (length_map crumb_name). now rewrite accumulate_names.
Qed.

Lemma breadcrumbs_link_to_ancestors_witness :
  browse Fixture.world "photos/2024"
  = ([ListObjectsV2 (Some "bucket") (Some "photos/2024/")],
     Return (Listing
               [mkEntry "trip.jpg" "photos/2024/trip.jpg" false (Some (Some 8%Z))
                  (Some "2024-05-17 12:00:00") None None
                  (Some "/file/photos/2024/trip.jpg")]
               "photos/2024/"
               [mkCrumb "photos" "photos/"; mkCrumb "2024" "photos/2024/"]
               2024%Z)) /\
  Forall (fun c => PyStr.endswith (crumb_prefix c) "/" = true /\
                   String.prefix (crumb_prefix c) "photos/2024/" = true)
    [mkCrumb "photos" "photos/"; mkCrumb "2024" "photos/2024/"].
Proof.
  assert (Hrun : browse Fixture.world "photos/2024"
    = ([ListObjectsV2 (Some "bucket") (Some "photos/2024/")],
       Return (Listing
                 [mkEntry "trip.jpg" "photos/2024/trip.jpg" false (Some (Some 8%Z))
                    (Some "2024-05-17 12:00:00") None None
                    (Some "/file/photos/2024/trip.jpg")]
                 "photos/2024/"
                 [mkCrumb "photos" "photos/"; mkCrumb "2024" "photos/2024/"]
                 2024%Z))) by (vm_compute; reflexivity).
  split; [exact Hrun|].
  exact (proj1 (breadcrumbs_link_to_ancestors Fixture.world (Fixture.query None)
                  "photos/2024" _ _ _ _ _ (or_intror Hrun))).
Defined.

End BreadcrumbLinks.


(** ** Icons by extension *)

Section IconsByExtension.

Lemma split_no_separator (s : string) (c : ascii) :
  PyStr.contains c s = false -> PyStr.split s c = [s].
Proof.
  induction s as [|a s IH]; [reflexivity|].
  cbn [PyStr.contains]. intros H. apply orb_false_iff in H as [Ha Hs].
  rewrite split_cons, Ha, (IH Hs). reflexivity.
Qed.

Lemma split_last_piece (s e : string) (c : ascii) :
  PyStr.contains c e = false ->
  exists w ws, PyStr.split (s ++ String c e) c = w :: ws /\
               ws <> [] /\ List.last ws "" = e.
Proof.
  intros He. induction s as [|a s (w & ws & E & Hne & Hlast)].
  - exists "", [e]. cbn [append]. rewrite split_cons, Ascii.eqb_refl.
    rewrite (split_no_separator e c He). now repeat split.
  - change (String a s ++ String c e) with (String a (s ++ String c e)).
    rewrite split_cons, E. destruct (Ascii.eqb a c).
    + exists "", (w :: ws). repeat split; [discriminate|].
      destruct ws; [contradiction|exact Hlast].
    + exists (String a w), ws. now repeat split.
Qed.

Lemma ascii_lower_append (s t : string) :
  PyStr.ascii_lower (s ++ t) = PyStr.ascii_lower s ++ PyStr.ascii_lower t.
Proof. induction s as [|a s IH]; [reflexivity|]. cbn. now rewrite IH. Qed.

Lemma contains_append_char (s t : string) (c : ascii) :
  PyStr.contains c (s ++ String c t) = true.
Proof.
  induction s as [|a s IH]; cbn; [now rewrite Ascii.eqb_refl|].
  rewrite IH. apply orb_true_r.
Qed.

(** X16: Where [str.lower] lowers ASCII text letter by letter, as Python's
    does, an ASCII filename is classified by what follows its last dot,
    with its letters lowered: whatever stands before the dot has no
    influence, so [a.tar.gz] is an archive and a name reduced to an
    extension ([.py]) is classified like any other.  Each of the 44
    extensions the filter names gets the icon of its own list. *)
Theorem fileicon_by_last_extension (str_lower : string -> string) :
  (forall s, PyStr.is_ascii s = true -> str_lower s = PyStr.ascii_lower s) ->
  (forall stem ext,
      PyStr.is_ascii (stem ++ "." ++ ext) = true ->
      PyStr.contains "." ext = false ->
      fileicon_filter str_lower (Some (stem ++ "." ++ ext))
      = icon_of_ext (PyStr.ascii_lower ext)) /\
  Forall (fun ext => icon_of_ext ext = "fas fa-image") image_exts /\
  Forall (fun ext => icon_of_ext ext = "fas fa-music") audio_exts /\
  Forall (fun ext => icon_of_ext ext = "fas fa-video") video_exts /\
  Forall (fun ext => icon_of_ext ext = "fas fa-file-alt") document_exts /\
  Forall (fun ext => icon_of_ext ext = "fas fa-file-archive") archive_exts /\
  Forall (fun ext => icon_of_ext ext = "fas fa-file-code") code_exts /\
  Forall (fun ext => icon_of_ext ext = "fas fa-file-excel") sheet_exts /\
  Forall (fun ext => icon_of_ext ext = "fas fa-file-powerpoint") slides_exts.
Proof.
  intros Hascii. split; [|repeat split; repeat constructor].
  intros stem ext Hname Hext. unfold fileicon_filter.
  destruct (String.eqb_spec (stem ++ "." ++ ext) "") as [E|_];
    [destruct stem; discriminate E|].
  f_equal. unfold file_ext. rewrite (Hascii _ Hname).
  change ("." ++ ext) with (String "." ext).
  rewrite contains_append_char, ascii_lower_append.
  change (PyStr.ascii_lower (String "." ext))
    with (String "." (PyStr.ascii_lower ext)).
  assert (Hl : PyStr.contains "." (PyStr.ascii_lower ext) = false)
    by now rewrite contains_dot_lower.
  destruct (split_last_piece (PyStr.ascii_lower stem) (PyStr.ascii_lower ext)
              "." Hl) as (w & ws & -> & Hne & Hlast).
  unfold PyStr.last_item. cbn [List.last].
  destruct ws; [contradiction|exact Hlast].
Qed.

Lemma fileicon_by_last_extension_witness :
  (forall s, PyStr.is_ascii s = true -> PyStr.ascii_lower s = PyStr.ascii_lower s) /\
  PyStr.is_ascii "backup.2024.tar.GZ" = true /\
  PyStr.contains "." "GZ" = false /\
  fileicon_filter PyStr.ascii_lower (Some "backup.2024.tar.GZ")
  = "fas fa-file-archive".
Proof.
  assert (Hascii : forall s, PyStr.is_ascii s = true ->
                             PyStr.ascii_lower s = PyStr.ascii_lower s)
    by reflexivity.
  assert (Hname : PyStr.is_ascii "backup.2024.tar.GZ" = true) by reflexivity.
  assert (H : PyStr.contains "." "GZ" = false) by reflexivity.
  split; [exact Hascii|]. split; [exact Hname|]. split; [exact H|].
  exact (eq_trans (proj1 (fileicon_by_last_extension PyStr.ascii_lower Hascii)
                     "backup.2024.tar" "GZ" Hname H)
                  eq_refl).
Defined.

End IconsByExtension.

(** ** The two routes side by side *)

Section RoutesSideBySide.

(** X17: For a non-empty prefix the pretty route sends the store the request
    the query route sends and answers the page the query route answers
    with [public_url] and [presigned_url] taken off every entry: same
    entries in the same order, same prefix, same breadcrumbs, same
    error page. *)
Theorem routes_agree_up_to_direct_urls w request p :
  args request "prefix" = Some p -> p <> "" ->
  store_calls (browse w p) = store_calls (index w request) /\
  snd (browse w p) = outcome_map page_without_direct_urls (snd (index w request)).
Proof.
  intros Harg Hp.
  now rewrite (browse_is_index_without_direct_urls w request p Harg Hp).
Qed.

Lemma routes_agree_up_to_direct_urls_witness :
  args (Fixture.query (Some "photos")) "prefix" = Some "photos" /\
  "photos" <> "" /\
  snd (browse Fixture.world "photos")
  = outcome_map page_without_direct_urls
      (snd (index Fixture.world (Fixture.query (Some "photos")))).
Proof.
  assert (Harg : args (Fixture.query (Some "photos")) "prefix" = Some "photos")
    by reflexivity.
  assert (Hp : "photos" <> "") by discriminate.
  split; [exact Harg|]. split; [exact Hp|].
  exact (proj2 (routes_agree_up_to_direct_urls Fixture.world
                  (Fixture.query (Some "photos")) "photos" Harg Hp)).
Defined.

End RoutesSideBySide.

(** ** Shape of the validator *)

Section ValidatorShape.

Lemma hex_length (bs : list Z) :
  String.length (MD5.hex bs) = (2 * List.length bs)%nat.
Proof.
  induction bs as [|b bs IH]; [reflexivity|]. cbn [MD5.hex String.length List.length].
  rewrite IH. lia.
Qed.

Lemma le_bytes_length (n : nat) (x : Z) : List.length (MD5.le_bytes n x) = n.
Proof.
  revert x. induction n as [|n IH]; intros x; [reflexivity|].
  cbn [MD5.le_bytes List.length]. now rewrite IH.
Qed.

Lemma le_bytes_range (n : nat) (x : Z) :
  Forall (fun b => (0 <= b < 256)%Z) (MD5.le_bytes n x).
Proof.
  revert x. induction n as [|n IH]; intros x; [constructor|].
  cbn [MD5.le_bytes]. constructor; [|apply IH].
  change 0xff%Z with (Z.ones 8). rewrite Z.land_ones by lia.
  apply Z.mod_pos_bound. reflexivity.
Qed.

Lemma hex_digit_lower (x : Z) :
  (0 <= x < 16)%Z -> is_lower_hex (MD5.hex_digit x) = true.
Proof.
  intros H.
  assert (x = 0 \/ x = 1 \/ x = 2 \/ x = 3 \/ x = 4 \/ x = 5 \/ x = 6 \/ x = 7 \/
          x = 8 \/ x = 9 \/ x = 10 \/ x = 11 \/ x = 12 \/ x = 13 \/ x = 14 \/
          x = 15)%Z as Hx by lia.
  repeat (destruct Hx as [->|Hx]; [reflexivity|]). now subst.
Qed.

Lemma hex_lower (bs : list Z) :
  Forall (fun b => (0 <= b < 256)%Z) bs ->
  all_chars is_lower_hex (MD5.hex bs) = true.
Proof.
  intros H. induction H as [|b bs Hb _ IH]; [reflexivity|].
  cbn [MD5.hex all_chars]. rewrite IH, andb_true_r.
  rewrite !hex_digit_lower; [reflexivity| |].
  - change 0xf%Z with (Z.ones 4). rewrite Z.land_ones by lia.
    apply Z.mod_pos_bound. reflexivity.
  - rewrite Z.shiftr_div_pow2 by lia. change (2 ^ 4)%Z with 16%Z.
    split; [apply Z.div_pos; lia|apply Z.div_lt_upper_bound; lia].
Qed.

Lemma digest_shape (msg : list Z) :
  List.length (MD5.digest msg) = 16%nat /\
  Forall (fun b => (0 <= b < 256)%Z) (MD5.digest msg).
Proof.
  unfold MD5.digest.
  destruct (fold_left MD5.compress (MD5.blocks (MD5.pad msg)) MD5.init)
    as [a b c d].
  split.
  - rewrite !length_app, !le_bytes_length. reflexivity.
  - rewrite !Forall_app. repeat split; apply le_bytes_range.
Qed.

Lemma append_length (s t : string) :
  String.length (s ++ t) = (String.length s + String.length t)%nat.
Proof. induction s as [|a s IH]; [reflexivity|]. cbn. now rewrite IH. Qed.

(** X18: The validator of every key is a well-formed weak entity tag of fixed
    size: [W/], a double quote, 32 lower-case hexadecimal digits and a
    double quote, 36 characters in all; the quoted part holds no quote
    and the tag is never empty. *)
Theorem validator_shape file_path :
  String.length (validator file_path) = 36%nat /\
  exists digest,
    validator file_path = "W/" ++ PyStr.quote ++ digest ++ PyStr.quote /\
    String.length digest = 32%nat /\
    all_chars is_lower_hex digest = true.
Proof.
  destruct (digest_shape (MD5.bytes_of file_path)) as [Hlen Hrange].
  assert (H32 : String.length (MD5.hexdigest file_path) = 32%nat)
    by (unfold MD5.hexdigest; now rewrite hex_length, Hlen).
  split.
  - unfold validator. rewrite !append_length, H32. reflexivity.
  - exists (MD5.hexdigest file_path). split; [reflexivity|].
    split; [exact H32|]. now apply hex_lower.
Qed.

End ValidatorShape.


(** ** Sizes *)

Section Sizes.
Local Open Scope Z_scope.

Example filesize_zero : filesizeformat_filter (TInt 0) = "0B".
Proof. reflexivity. Qed.

Example filesize_kilobyte_and_half : filesizeformat_filter (TInt 1536) = "1.50KB".
Proof. reflexivity. Qed.

Example filesize_tie_to_even_down : filesizeformat_filter (TInt 1152) = "1.12KB".
Proof. reflexivity. Qed.

Example filesize_tie_to_even_up : filesizeformat_filter (TInt 1408) = "1.38KB".
Proof. reflexivity. Qed.

Example filesize_petabyte : filesizeformat_filter (TInt (2 ^ 53 - 1)) = "8.00PB".
Proof. vm_compute. reflexivity. Qed.

Example float_rounds_beyond_53_bits :
  float_of_int (2 ^ 53 + 1) = Some (2 ^ 53) /\
  float_of_int (2 ^ 53 + 3) = Some (2 ^ 53 + 4) /\
  float_of_int (- (2 ^ 53 + 1)) = Some (- 2 ^ 53) /\
  float_of_int (2 ^ 1024 - 2 ^ 970 - 1) = Some (2 ^ 1024 - 2 ^ 971) /\
  float_of_int (2 ^ 1024 - 2 ^ 970) = None.
Proof. vm_compute. repeat split. Qed.

Example filesize_of_rounded_float :
  filesizeformat_filter (TInt (-9007199254740993)) = "-9007199254740992B".
Proof. vm_compute. reflexivity. Qed.

Lemma round_half_even_near (a den : Z) :
  0 < den ->
  2 * Z.abs (round_half_even a den * den - a) <= den.
Proof.
  intros Hden. unfold round_half_even.
  pose proof (Z.div_mod a den ltac:(lia)) as Ha.
  pose proof (Z.mod_pos_bound a den Hden) as Hr.
  set (q := a / den) in *. set (r := a mod den) in *.
  destruct (Z.ltb_spec den (2 * r)); [nia|].
  destruct (Z.eqb_spec (2 * r) den); [|nia].
  pose proof (Z.mod_pos_bound q 2 ltac:(lia)) as Hm.
  assert (q mod 2 = 0 \/ q mod 2 = 1) as [-> | ->] by lia; nia.
Qed.

Lemma round_half_even_monotone (a b den : Z) :
  0 < den -> a <= b -> round_half_even a den <= round_half_even b den.
Proof.
  intros Hden Hab.
  pose proof (round_half_even_near a den Hden) as Ha.
  pose proof (round_half_even_near b den Hden) as Hb.
  destruct (Z.eq_dec a b) as [->|Hne]; [lia|].
  destruct (Z_le_gt_dec (round_half_even a den) (round_half_even b den));
    [assumption|exfalso].
  unfold round_half_even in *.
  pose proof (Z.div_mod a den ltac:(lia)) as Da.
  pose proof (Z.div_mod b den ltac:(lia)) as Db.
  pose proof (Z.mod_pos_bound a den Hden) as Ra.
  pose proof (Z.mod_pos_bound b den Hden) as Rb.
  pose proof (Z.div_le_mono a b den Hden Hab) as Hq.
  set (qa := a / den) in *. set (ra := a mod den) in *.
  set (qb := b / den) in *. set (rb := b mod den) in *.
  pose proof (Z.mod_pos_bound qa 2 ltac:(lia)) as Ma.
  pose proof (Z.mod_pos_bound qb 2 ltac:(lia)) as Mb.
  destruct (Z.ltb_spec den (2 * ra)), (Z.ltb_spec den (2 * rb));
    destruct (Z.eqb_spec (2 * ra) den), (Z.eqb_spec (2 * rb) den); nia.
Qed.

(** [round_half_even] on an exact quotient *)
Lemma round_half_even_exact (k den : Z) :
  0 < den -> round_half_even (k * den) den = k.
Proof.
  intros Hden. unfold round_half_even.
  rewrite Z.div_mul, Z.mod_mul by lia.
  destruct (Z.ltb_spec den (2 * 0)); [lia|].
  destruct (Z.eqb_spec (2 * 0) den); [lia|reflexivity].
Qed.

(** on a tie [round_half_even] answers the even neighbour *)
Lemma round_half_even_tie (a den : Z) :
  0 < den ->
  2 * Z.abs (round_half_even a den * den - a) = den ->
  Z.even (round_half_even a den) = true.
Proof.
  intros Hden. unfold round_half_even.
  pose proof (Z.div_mod a den ltac:(lia)) as Ha.
  pose proof (Z.mod_pos_bound a den Hden) as Hr.
  set (q := a / den) in *. set (r := a mod den) in *.
  destruct (Z.ltb_spec den (2 * r)); [intros; nia|].
  destruct (Z.eqb_spec (2 * r) den); [|intros; nia].
  intros _. rewrite Zeven_mod. apply Z.eqb_eq.
  rewrite Z.add_mod_idemp_r by lia.
  replace (q + q) with (q * 2) by lia. now apply Z.mod_mul.
Qed.

(** [float(n)] is [n] itself up to 53 bits *)
Lemma float_of_int_exact (n : Z) :
  Z.abs n < 2 ^ 53 -> float_of_int n = Some n.
Proof.
  intros Hn. unfold float_of_int.
  assert (Hlog : Z.log2 (Z.abs n) < 53).
  { destruct (Z.eq_dec (Z.abs n) 0) as [->|Hne]; [reflexivity|].
    apply Z.log2_lt_pow2; lia. }
  destruct (Z.leb_spec (Z.log2 (Z.abs n) + 1 - 53) 0); [reflexivity|lia].
Qed.

(** [float(n)] keeps the sign of [n] *)
Lemma float_of_int_sign (n x : Z) :
  float_of_int n = Some x -> n < 1024 -> x < 1024.
Proof.
  unfold float_of_int. intros H Hn.
  destruct (Z.leb_spec (Z.log2 (Z.abs n) + 1 - 53) 0) as [_|Hshift].
  { inversion H; subst. exact Hn. }
  set (shift := Z.log2 (Z.abs n) + 1 - 53) in *.
  destruct (2 ^ 1024 <=? round_half_even (Z.abs n) (2 ^ shift) * 2 ^ shift);
    [discriminate|].
  inversion H; subst x; clear H.
  assert (Hden : 0 < 2 ^ shift) by (apply Z.pow_pos_nonneg; lia).
  assert (Hr : 0 <= round_half_even (Z.abs n) (2 ^ shift)).
  { rewrite <- (round_half_even_exact 0 (2 ^ shift) Hden).
    apply round_half_even_monotone; [assumption|lia]. }
  destruct (Z_lt_le_dec n 0) as [Hneg|Hpos].
  - rewrite Z.sgn_neg by assumption. nia.
  - exfalso.
    assert (Hsmall : Z.log2 (Z.abs n) < 53).
    { destruct (Z.eq_dec (Z.abs n) 0) as [E|Hne]; [now rewrite E|].
      apply Z.log2_lt_pow2; [lia|].
      apply Z.lt_trans with 1024; [lia|reflexivity]. }
    lia.
Qed.

(** [float(n)] overflows from 2^1024 on *)
Lemma float_of_int_overflow (n : Z) :
  2 ^ 1024 <= Z.abs n -> float_of_int n = None.
Proof.
  intros Hn. unfold float_of_int.
  set (big := 2 ^ 1024) in *.
  assert (Hlog : 1024 <= Z.log2 (Z.abs n)).
  { change 1024 with (Z.log2 (2 ^ 1024)) at 1. fold big.
    now apply Z.log2_le_mono. }
  destruct (Z.leb_spec (Z.log2 (Z.abs n) + 1 - 53) 0) as [Hle|Hshift]; [lia|].
  set (l := Z.log2 (Z.abs n)) in *. set (shift := l + 1 - 53) in *.
  assert (Hden : 0 < 2 ^ shift) by (apply Z.pow_pos_nonneg; lia).
  assert (Hpos : 0 < Z.abs n).
  { apply Z.lt_le_trans with big; [reflexivity|assumption]. }
  pose proof (Z.log2_spec (Z.abs n) Hpos) as [Hlow _]. fold l in Hlow.
  assert (Hsplit : 2 ^ l = 2 ^ 52 * 2 ^ shift).
  { rewrite <- Z.pow_add_r by lia. f_equal. lia. }
  assert (Hr : 2 ^ 52 <= round_half_even (Z.abs n) (2 ^ shift)).
  { rewrite <- (round_half_even_exact (2 ^ 52) (2 ^ shift) Hden) at 1.
    apply round_half_even_monotone; [assumption|]. now rewrite <- Hsplit. }
  assert (Hbig : big <= 2 ^ l).
  { unfold big. apply Z.pow_le_mono_r; lia. }
  destruct (Z.leb_spec big (round_half_even (Z.abs n) (2 ^ shift) * 2 ^ shift))
    as [_|Hlt]; [reflexivity|exfalso].
  apply (Z.lt_irrefl big).
  eapply Z.le_lt_trans; [exact Hbig|].
  eapply Z.le_lt_trans; [|exact Hlt].
  rewrite Hsplit. apply Z.mul_le_mono_nonneg_r; [lia|exact Hr].
Qed.

Lemma filesize_bytes (x : Z) :
  x < 1024 ->
  filesize_loop ["B"; "KB"; "MB"; "GB"; "TB"] x 1 = PyStr.str_of_Z x ++ "B".
Proof.
  intros Hx. cbn [filesize_loop].
  destruct (Z.ltb_spec x (1024 * 1)); [|lia].
  cbn [String.eqb Ascii.eqb Bool.eqb]. now rewrite Z.div_1_r.
Qed.

Lemma filesize_scaled (n k : Z) (unit : string) :
  In (k, unit) scaled_units ->
  1024 ^ k <= n < 1024 ^ (k + 1) ->
  filesize_loop ["B"; "KB"; "MB"; "GB"; "TB"] n 1 = fixed2 n (1024 ^ k) ++ unit.
Proof.
  intros Hin Hn. cbn [filesize_loop].
  destruct Hin as [E|[E|[E|[E|[]]]]]; inversion E; subst; clear E;
    change (1024 ^ 1) with 1024 in *; change (1024 ^ 2) with 1048576 in *;
    change (1024 ^ 3) with 1073741824 in *;
    change (1024 ^ 4) with 1099511627776 in *;
    change (1024 ^ (1 + 1)) with 1048576 in *;
    change (1024 ^ (2 + 1)) with 1073741824 in *;
    change (1024 ^ (3 + 1)) with 1099511627776 in *;
    change (1024 ^ (4 + 1)) with 1125899906842624 in *;
    repeat match goal with
           | |- context [(?a <? ?b)%Z] =>
               let c := eval cbv in b in
               change b with c;
               destruct (Z.ltb_spec a c); try lia
           end; reflexivity.
Qed.

Lemma scaled_unit_below_53_bits (n k : Z) (unit : string) :
  In (k, unit) scaled_units ->
  1024 ^ k <= n < 1024 ^ (k + 1) -> Z.abs n < 2 ^ 53.
Proof.
  intros Hin Hn.
  assert (Hk : 1 <= k <= 4)
    by (destruct Hin as [E|[E|[E|[E|[]]]]]; inversion E; lia).
  assert (Hlow : 0 < 1024 ^ k) by (apply Z.pow_pos_nonneg; lia).
  assert (Hup : 1024 ^ (k + 1) <= 1024 ^ 5) by (apply Z.pow_le_mono_r; lia).
  change (1024 ^ 5) with 1125899906842624 in Hup.
  change (2 ^ 53) with 9007199254740992. lia.
Qed.

(** X19: How a size is shown.  [None] gives a dash, and so does an integer
    of magnitude 2^1024 or more, which [float()] refuses.  An integer
    below 1024, a negative one included, is shown whole with the unit
    [B]: the integer itself when it is above -2^53, and in general the
    integer [float()] rounds it to.  From 1024 on, and below 2^53, the
    size is shown with two decimals in the unit of its rank: [KB] from
    1024, [MB] from 1024^2, [GB] from 1024^3, [TB] from 1024^4, and [PB]
    for everything from 1024^5 on, there being no larger unit. *)
Theorem filesizeformat_units :
  filesizeformat_filter TNone = "-" /\
  (forall n, 2 ^ 1024 <= Z.abs n -> filesizeformat_filter (TInt n) = "-") /\
  (forall n, - 2 ^ 53 < n < 1024 ->
             filesizeformat_filter (TInt n) = PyStr.str_of_Z n ++ "B") /\
  (forall n num, n < 1024 -> float_of_int n = Some num ->
                 filesizeformat_filter (TInt n) = PyStr.str_of_Z num ++ "B") /\
  (forall n k unit,
      In (k, unit) scaled_units ->
      1024 ^ k <= n < 1024 ^ (k + 1) -> n < 2 ^ 53 ->
      filesizeformat_filter (TInt n) = fixed2 n (1024 ^ k) ++ unit) /\
  (forall n,
      1024 ^ 5 <= n -> n < 2 ^ 53 ->
      filesizeformat_filter (TInt n) = fixed2 n (1024 ^ 5) ++ "PB").
Proof.
  split; [reflexivity|]. split; [|split; [|split; [|split]]].
  - intros n Hn. cbn [filesizeformat_filter].
    now rewrite (float_of_int_overflow n Hn).
  - intros n Hn. cbn [filesizeformat_filter].
    rewrite float_of_int_exact
      by (change (2 ^ 53) with 9007199254740992 in *; lia).
    apply filesize_bytes. lia.
  - intros n num Hn Hf. cbn [filesizeformat_filter]. rewrite Hf.
    apply filesize_bytes. exact (float_of_int_sign n num Hf Hn).
  - intros n k unit Hin Hn _. cbn [filesizeformat_filter].
    rewrite (float_of_int_exact n (scaled_unit_below_53_bits n k unit Hin Hn)).
    now apply filesize_scaled.
  - intros n Hn Hb. cbn [filesizeformat_filter].
    rewrite float_of_int_exact
      by (change (1024 ^ 5) with 1125899906842624 in *;
          change (2 ^ 53) with 9007199254740992 in *; lia).
    cbn [filesize_loop].
    change (1024 ^ 5) with 1125899906842624 in *.
    repeat match goal with
           | |- context [(?a <? ?b)%Z] =>
               let c := eval cbv in b in
               change b with c;
               destruct (Z.ltb_spec a c); try lia
           end; reflexivity.
Qed.

Lemma filesizeformat_units_witness :
  In (2, "MB") scaled_units /\
  1024 ^ 2 <= 5242880 < 1024 ^ (2 + 1) /\ 5242880 < 2 ^ 53 /\
  filesizeformat_filter (TInt 5242880) = "5.00MB".
Proof.
  assert (Hin : In (2, "MB") scaled_units) by (right; left; reflexivity).
  assert (Hn : 1024 ^ 2 <= 5242880 < 1024 ^ (2 + 1))
    by (split; [intros H; vm_compute in H; discriminate H|reflexivity]).
  assert (Hb : 5242880 < 2 ^ 53) by reflexivity.
  split; [exact Hin|]. split; [exact Hn|]. split; [exact Hb|].
  exact (eq_trans
           (proj1 (proj2 (proj2 (proj2 (proj2 filesizeformat_units))))
              5242880 2 "MB" Hin Hn Hb)
           eq_refl).
Defined.

(** X20: The two decimals of a size.  For a size of rank [k], from 1024^k
    up to 1024^(k+1), the filter shows a number of hundredths [h] and
    the unit of the rank; [h] is the integer nearest to [100 n/1024^k],
    at most half a hundredth away, and the even one when two are
    equally near.  The hundredths run from 1.00 to 1024.00 inclusive,
    a size just under the next unit being rounded up to 1024.00 of the
    smaller one, and within the rank they grow with the size. *)
Theorem filesize_hundredths n k unit :
  In (k, unit) scaled_units ->
  1024 ^ k <= n < 1024 ^ (k + 1) ->
  exists h,
    filesizeformat_filter (TInt n) = show_hundredths h ++ unit /\
    2 * Z.abs (h * 1024 ^ k - 100 * n) <= 1024 ^ k /\
    (2 * Z.abs (h * 1024 ^ k - 100 * n) = 1024 ^ k -> Z.even h = true) /\
    100 <= h <= 102400 /\
    (forall m, n <= m < 1024 ^ (k + 1) ->
               exists h', filesizeformat_filter (TInt m)
                          = show_hundredths h' ++ unit /\
                          2 * Z.abs (h' * 1024 ^ k - 100 * m) <= 1024 ^ k /\
                          h <= h').
Proof.
  intros Hin Hn.
  assert (Hk : 1 <= k <= 4)
    by (destruct Hin as [E|[E|[E|[E|[]]]]]; inversion E; lia).
  assert (Hden : 0 < 1024 ^ k) by (apply Z.pow_pos_nonneg; lia).
  assert (Hnext : 1024 ^ (k + 1) = 1024 * 1024 ^ k)
    by (rewrite Z.pow_add_r by lia; change (1024 ^ 1) with 1024; lia).
  assert (Hshow : forall m, 1024 ^ k <= m < 1024 ^ (k + 1) ->
             filesizeformat_filter (TInt m)
             = show_hundredths (round_half_even (100 * m) (1024 ^ k)) ++ unit).
  { intros m Hm. cbn [filesizeformat_filter].
    rewrite (float_of_int_exact m (scaled_unit_below_53_bits m k unit Hin Hm)).
    now rewrite (filesize_scaled m k unit Hin Hm). }
  exists (round_half_even (100 * n) (1024 ^ k)).
  split; [now apply Hshow|].
  split; [now apply round_half_even_near|].
  split; [now apply round_half_even_tie|].
  split; [split|].
  - rewrite <- (round_half_even_exact 100 (1024 ^ k) Hden) at 1.
    apply round_half_even_monotone; [assumption|nia].
  - rewrite <- (round_half_even_exact 102400 (1024 ^ k) Hden).
    apply round_half_even_monotone; [assumption|nia].
  - intros m Hm. exists (round_half_even (100 * m) (1024 ^ k)).
    split; [apply Hshow; lia|].
    split; [now apply round_half_even_near|].
    apply round_half_even_monotone; [assumption|lia].
Qed.

Lemma filesize_hundredths_witness :
  In (1, "KB") scaled_units /\
  1024 ^ 1 <= 1048575 < 1024 ^ (1 + 1) /\
  filesizeformat_filter (TInt 1048575) = "1024.00KB" /\
  exists h,
    filesizeformat_filter (TInt 1048575) = show_hundredths h ++ "KB" /\
    2 * Z.abs (h * 1024 ^ 1 - 100 * 1048575) <= 1024 ^ 1.
Proof.
  assert (Hin : In (1, "KB") scaled_units) by (left; reflexivity).
  assert (Hn : 1024 ^ 1 <= 1048575 < 1024 ^ (1 + 1))
    by (split; [intros H; vm_compute in H; discriminate H|reflexivity]).
  split; [exact Hin|]. split; [exact Hn|]. split; [reflexivity|].
  destruct (filesize_hundredths 1048575 1 "KB" Hin Hn) as (h & Hshow & Hnear & _).
  exists h. split; [exact Hshow|exact Hnear].
Defined.

End Sizes.


(** ** Timestamps *)

Section Timestamps.

Lemma two_digits_wide (n : nat) : (n < 100)%nat -> two_wide (Py.two_digits n) = true.
Proof.
  intros H.
  assert (Hall : forallb (fun n => two_wide (Py.two_digits n)) (seq 0 100) = true)
    by (vm_compute; reflexivity).
  rewrite forallb_forall in Hall. apply Hall. apply in_seq. lia.
Qed.

Lemma year_wide (y : nat) :
  (1000 <= Z.of_nat y <= 9999)%Z -> four_wide (PyStr.str_of_Z (Z.of_nat y)) = true.
Proof.
  intros H.
  assert (Hall : forallb (fun i => four_wide (PyStr.str_of_Z (1000 + Z.of_nat i)))
                   (seq 0 (Z.to_nat 9000)) = true) by (vm_compute; reflexivity).
  rewrite forallb_forall in Hall.
  specialize (Hall (Z.to_nat (Z.of_nat y - 1000))).
  replace (1000 + Z.of_nat (Z.to_nat (Z.of_nat y - 1000)))%Z with (Z.of_nat y)
    in Hall by lia.
  apply Hall. apply in_seq. lia.
Qed.

(** X21: A missing modification time is shown as the text [None].  A time
    whose year has four digits is shown on exactly 19 characters, every
    field below ten padded with a zero, the separators at fixed places:
    [YYYY-MM-DD HH:MM:SS]. *)
Theorem format_timestamp_layout :
  format_timestamp None = "None" /\
  forall dt,
    (1000 <= Z.of_nat (year dt) <= 9999)%Z ->
    (month dt < 100 /\ day dt < 100 /\ hour dt < 100 /\
     minute dt < 100 /\ second dt < 100)%nat ->
    let text := format_timestamp (Some dt) in
    String.length text = 19%nat /\
    String.get 4 text = Some "-"%char /\ String.get 7 text = Some "-"%char /\
    String.get 10 text = Some " "%char /\
    String.get 13 text = Some ":"%char /\ String.get 16 text = Some ":"%char.
Proof.
  split; [reflexivity|].
  intros [y mo d h mi sec]. cbn [year month day hour minute second].
  intros Hy (Hmo & Hd & Hh & Hmi & Hs).
  cbn [format_timestamp]. unfold Py.strftime.
  cbn [year month day hour minute second].
  pose proof (year_wide y Hy) as Wy.
  pose proof (two_digits_wide mo Hmo) as Wmo.
  pose proof (two_digits_wide d Hd) as Wd.
  pose proof (two_digits_wide h Hh) as Wh.
  pose proof (two_digits_wide mi Hmi) as Wmi.
  pose proof (two_digits_wide sec Hs) as Ws.
  destruct (PyStr.str_of_Z (Z.of_nat y)) as [|? [|? [|? [|? [|]]]]];
    try discriminate Wy.
  destruct (Py.two_digits mo) as [|? [|? [|]]]; try discriminate Wmo.
  destruct (Py.two_digits d) as [|? [|? [|]]]; try discriminate Wd.
  destruct (Py.two_digits h) as [|? [|? [|]]]; try discriminate Wh.
  destruct (Py.two_digits mi) as [|? [|? [|]]]; try discriminate Wmi.
  destruct (Py.two_digits sec) as [|? [|? [|]]]; try discriminate Ws.
  cbn. now repeat split.
Qed.

Lemma format_timestamp_layout_witness :
  (1000 <= Z.of_nat (year Fixture.noon) <= 9999)%Z /\
  String.length (format_timestamp (Some Fixture.noon)) = 19%nat.
Proof.
  assert (Hy : (1000 <= Z.of_nat (year Fixture.noon) <= 9999)%Z) by (cbn; lia).
  assert (Hf : (month Fixture.noon < 100 /\ day Fixture.noon < 100 /\
                hour Fixture.noon < 100 /\ minute Fixture.noon < 100 /\
                second Fixture.noon < 100)%nat) by (cbn; lia).
  split; [exact Hy|].
  exact (proj1 (proj2 format_timestamp_layout Fixture.noon Hy Hf)).
Defined.

End Timestamps.
